(** * TAT monitoring engine of valmo-ops: a shallow embedding

    The development follows the JavaScript sources of the extension:

    - [TATTrackerBackground]  tat-tracker-background.js (unnamed/part_003),
                              the tracker that works from ticket histories
    - [TicketTracker]         unified-extension/tat-system/ticket-tracker.js
    - [Background]            background.js (unnamed/part_007), the service
                              worker with the date normaliser
    - [TATAnalytics]          tat-analytics.js (unnamed/part_004), the
                              disposition log and the agent roll-ups

    Modelling conventions.

    - A JavaScript number is the rational it equals ([Q]); instants and
      durations in milliseconds are integers ([Z]).  Where the sources
      multiply, add up, subtract or divide numbers before they round them
      with [Math.round], the operators are those of double precision: the
      exact result rounded to the nearest double ([JS.fl]).  The quotient
      of two whole numbers of milliseconds is kept as the exact rational
      where it is compared with the hours of a category; an operator of
      double precision rounds it when it reads it.  NaN, the infinities
      and numbers outside the normal range of doubles are outside the
      model: every number the modelled code handles comes from JSON, from
      the clock, or from arithmetic on those.
    - A JavaScript string is a [string] holding its UTF-8 encoding, one
      byte for each ASCII character.  The keywords, the digits and the
      characters the regular expressions look for are all ASCII.
      [toLowerCase] is modelled on the ASCII letters: the sources only
      search the lowered string for ASCII keywords, and the lowering of a
      character outside ASCII changes no such search (it yields an ASCII
      letter in two cases only: [k] from the Kelvin sign, which no keyword
      contains, and [i] followed by a combining dot from U+0130, where no
      keyword ends with [i]).  Under the [/i] flag of a regular expression
      without the [u] flag, a character outside ASCII matches no ASCII
      letter.
    - [chrome.storage.local] is a record with one field per key; a key that
      was never written is [None].  Every asynchronous function is modelled
      by the order of its awaits, as a function from storage to storage.
    - [Date.now()] is a parameter [now]; the readings taken inside one call
      of a function are given the same value. *)

From Stdlib Require Import ZArith QArith Qround Qabs Qpower Lia Lqa Ascii String.
From stdpp Require Import gmap strings list sorting.

Open Scope Z_scope.

(** ** The JavaScript built-ins used by the sources *)

Module JS.

(** *** Strings *)

Definition code (c : ascii) : Z := Z.of_N (N_of_ascii c).

Definition lowerChar (c : ascii) : ascii :=
  if (65 <=? code c) && (code c <=? 90)
  then ascii_of_N (N_of_ascii c + 32)
  else c.

(** [String.prototype.toLowerCase] *)
Fixpoint toLowerCase (s : string) : string :=
  match s with
  | EmptyString => EmptyString
  | String c r => String (lowerChar c) (toLowerCase r)
  end.

(** [hay.startsWith(needle)] *)
Fixpoint startsWith (needle hay : string) : bool :=
  match needle, hay with
  | EmptyString, _ => true
  | String _ _, EmptyString => false
  | String a n, String b h => Ascii.eqb a b && startsWith n h
  end.

(** [hay.includes(needle)] *)
Fixpoint includes (hay needle : string) : bool :=
  startsWith needle hay ||
  match hay with
  | EmptyString => false
  | String _ r => includes r needle
  end.

(** The white space and line terminators that [trim] removes, each in its
    UTF-8 encoding: U+0009 to U+000D, U+0020, U+00A0, U+1680, U+2000 to
    U+200A, U+2028, U+2029, U+202F, U+205F, U+3000 and U+FEFF. *)
Definition bytes (l : list Z) : list ascii :=
  (λ z, ascii_of_N (Z.to_N z)) <$> l.

Definition whiteSpace : list (list ascii) :=
  bytes <$>
    [ [9]; [10]; [11]; [12]; [13]; [32]; [194; 160]; [225; 154; 128];
      [226; 128; 128]; [226; 128; 129]; [226; 128; 130]; [226; 128; 131];
      [226; 128; 132]; [226; 128; 133]; [226; 128; 134]; [226; 128; 135];
      [226; 128; 136]; [226; 128; 137]; [226; 128; 138]; [226; 128; 168];
      [226; 128; 169]; [226; 128; 175]; [226; 129; 159]; [227; 128; 128];
      [239; 187; 191] ].

(** [l] without the prefix [w], if it starts with [w]. *)
Fixpoint dropPrefix (w l : list ascii) : option (list ascii) :=
  match w, l with
  | [], _ => Some l
  | _ :: _, [] => None
  | a :: w', b :: l' => if Ascii.eqb a b then dropPrefix w' l' else None
  end.

(** [l] without the first of the sequences [ws] that it starts with. *)
Fixpoint dropAny (ws : list (list ascii)) (l : list ascii)
    : option (list ascii) :=
  match ws with
  | [] => None
  | w :: rest =>
      match dropPrefix w l with
      | Some r => Some r
      | None => dropAny rest l
      end
  end.

(** Dropping leading sequences of [ws] for as long as there is one. *)
Fixpoint stripN (ws : list (list ascii)) (fuel : nat) (l : list ascii)
    : list ascii :=
  match fuel with
  | O => l
  | S fuel' =>
      match dropAny ws l with
      | Some r => stripN ws fuel' r
      | None => l
      end
  end.

Definition strip (ws : list (list ascii)) (l : list ascii) : list ascii :=
  stripN ws (length l) l.

Definition trimStart (s : string) : string :=
  string_of_list_ascii (strip whiteSpace (list_ascii_of_string s)).

(** At the end, the same on the reversed string. *)
Definition trimEnd (s : string) : string :=
  string_of_list_ascii
    (reverse (strip (reverse <$> whiteSpace)
                (reverse (list_ascii_of_string s)))).

(** [String.prototype.trim] *)
Definition trim (s : string) : string := trimEnd (trimStart s).

Definition isDigit (c : ascii) : bool := (48 <=? code c) && (code c <=? 57).

(** *** Regular-expression pieces

    A matcher consumes a prefix of the subject and returns the rest. *)

(** [\d{n}], with the digits read as a decimal number ([Number("0042")]
    is [42]). *)
Fixpoint digits (n : nat) (acc : Z) (s : string) : option (Z * string) :=
  match n with
  | O => Some (acc, s)
  | S n' =>
      match s with
      | String c r =>
          if isDigit c then digits n' (10 * acc + (code c - 48)) r else None
      | EmptyString => None
      end
  end.

(** a literal character *)
Definition lit (c : ascii) (s : string) : option string :=
  match s with
  | String d r => if Ascii.eqb c d then Some r else None
  | EmptyString => None
  end.

(** a literal word under the [/i] flag *)
Fixpoint litCI (w s : string) : option string :=
  match w, s with
  | EmptyString, _ => Some s
  | String _ _, EmptyString => None
  | String a w', String b r =>
      if Ascii.eqb (lowerChar a) (lowerChar b) then litCI w' r else None
  end.

(** the longest prefix without the character [c]: [[^c]*] *)
Fixpoint upTo (c : ascii) (s : string) : string :=
  match s with
  | EmptyString => EmptyString
  | String d r => if Ascii.eqb c d then EmptyString else String d (upTo c r)
  end.

(** An unanchored regular expression tries every start position from the
    left and keeps the first success. *)
Fixpoint search {A} (at_ : string -> option A) (s : string) : option A :=
  match at_ s with
  | Some r => Some r
  | None =>
      match s with
      | EmptyString => None
      | String _ r => search at_ r
      end
  end.

(** *** Numbers *)

(** [Math.round]: the nearest integer, ties towards plus infinity.  It is
    exact on every double. *)
Definition Math_round (x : Q) : Q := inject_Z (Qfloor (x + (1 # 2))).

(** *** Double-precision arithmetic

    A Number is modelled by the rational it equals.  [fl x] is the double
    nearest to [x], ties going to the even significand: the rounding that
    every arithmetic operation of the language applies to its exact
    result.  The exponent range is not bounded: numbers are taken to stay
    within the normal range of doubles, so there is no infinity, no NaN
    and no subnormal number. *)

Definition pow2 (e : Z) : Q := (2 ^ e)%Q.

(** For [0 < x], the exponent [e] with [2^e <= x < 2^(e+1)]. *)
Definition exponent (x : Q) : Z :=
  let l := Z.log2 (Qnum x) - Z.log2 (Zpos (Qden x)) in
  if Qle_bool (pow2 l) x then l else l - 1.

(** The integer nearest to [t], the even one of two that are equally
    near. *)
Definition roundEven (t : Q) : Z :=
  let f := Qfloor t in
  match (t - inject_Z f ?= 1 # 2)%Q with
  | Lt => f
  | Gt => f + 1
  | Eq => if Z.even f then f else f + 1
  end.

(** The double nearest to a positive [x]: a significand of 53 bits. *)
Definition flPos (x : Q) : Q :=
  let u := exponent x - 52 in
  (inject_Z (roundEven (x / pow2 u)) * pow2 u)%Q.

Definition fl (x : Q) : Q :=
  Qred match (x ?= 0)%Q with
       | Eq => 0
       | Gt => flPos x
       | Lt => - flPos (- x)
       end%Q.

(** The largest relative error of [fl]. *)
Definition epsilon : Q := pow2 (-53).

(** The arithmetic operators on Numbers: the operands are doubles, the
    exact result is rounded. *)
Definition add (a b : Q) : Q := fl (fl a + fl b).
Definition sub (a b : Q) : Q := fl (fl a - fl b).
Definition mul (a b : Q) : Q := fl (fl a * fl b).
Definition div (a b : Q) : Q := fl (fl a / fl b).

(** The idiom [Math.round(x * 10) / 10] of the sources: the product is
    rounded to a double before [Math.round] sees it, and the quotient is
    the double nearest to a whole number of tenths.  The model keeps that
    number of tenths, [k / 10], which is how the language prints the
    double; an operator that reads it later converts it with [fl]. *)
Definition round1 (x : Q) : Q := (Math_round (mul x 10) / 10)%Q.

#[global] Arguments fl : simpl never.
#[global] Arguments add : simpl never.
#[global] Arguments sub : simpl never.
#[global] Arguments mul : simpl never.
#[global] Arguments div : simpl never.
#[global] Arguments round1 : simpl never.

(** *** Dates *)

Definition msPerSecond : Z := 1000.
Definition msPerMinute : Z := 60000.
Definition msPerHour : Z := 3600000.
Definition msPerDay : Z := 86400000.

(** Day number, counted from 1970-01-01, of the civil date [y]-[m]-[d] of
    the proleptic Gregorian calendar, [m] in 1..12. *)
Definition daysFromCivil (y m d : Z) : Z :=
  let y' := if m <=? 2 then y - 1 else y in
  let era := y' / 400 in
  let yoe := y' - era * 400 in
  let mp := if 2 <? m then m - 3 else m + 9 in
  let doy := (153 * mp + 2) / 5 + d - 1 in
  let doe := yoe * 365 + yoe / 4 - yoe / 100 + doy in
  era * 146097 + doe - 719468.

(** The inverse reading: civil date of a day number. *)
Definition civilFromDays (z : Z) : Z * Z * Z :=
  let z' := z + 719468 in
  let era := z' / 146097 in
  let doe := z' - era * 146097 in
  let yoe := (doe - doe / 1460 + doe / 36524 - doe / 146096) / 365 in
  let doy := doe - (365 * yoe + yoe / 4 - yoe / 100) in
  let mp := (5 * doy + 2) / 153 in
  let d := doy - (153 * mp + 2) / 5 + 1 in
  let m := if mp <? 10 then mp + 3 else mp - 9 in
  let y := yoe + era * 400 in
  (if m <=? 2 then y + 1 else y, m, d).

(** [MakeDay(year, month, date)] of ECMA-262, [month] zero-based and of
    any size, [date] an offset in days from the first of the month. *)
Definition MakeDay (year month date : Z) : Z :=
  let ym := year + month / 12 in
  let mn := month mod 12 in
  daysFromCivil ym (mn + 1) 1 + date - 1.

Definition MakeTime (hour min sec ms : Z) : Z :=
  hour * msPerHour + min * msPerMinute + sec * msPerSecond + ms.

Definition MakeDate (day time : Z) : Z := day * msPerDay + time.

(** Local calendar fields of a local time value. *)
Definition calendar (t : Z) : Z * Z * Z * Z * Z * Z :=
  let day := t / msPerDay in
  let tod := t mod msPerDay in
  let '(y, m, d) := civilFromDays day in
  (y, m, d, tod / msPerHour, (tod / msPerMinute) mod 60,
    (tod / msPerSecond) mod 60).

Section Date.
(** [UTC t] is the time value of the local time [t]; the time zone is
    the host's: ECMA-262 leaves the local time zone adjustment to the
    implementation. *)
Variable UTC : Z -> Z.

(** [new Date(year, month, date, hours, minutes, seconds).getTime()].
    A year from 0 to 99 stands for 1900 + year.  The arguments are
    integers; the range check of [TimeClip] (8.64e15 ms either side of
    the epoch) is not modelled. *)
Definition newDate (year month date hours minutes seconds : Z) : Z :=
  let yr := if (0 <=? year) && (year <=? 99) then 1900 + year else year in
  UTC (MakeDate (MakeDay yr month date) (MakeTime hours minutes seconds 0)).
End Date.

End JS.

(** ** Data model *)

(** A ticket of the ticket-list response (the fields the tracker reads). *)
Module Ticket.
Record t := {
  id : string;
  ticketId : string;
  taskTitle : string;
  date : string;
  email : string;
  status : string;
  substatus : string;
  substatusName : string;
  ticketURL : string
}.
End Ticket.

(** An entry of a ticket's history. *)
Module HistoryEvent.
Record t := {
  action : string;
  createDate : string;
  remark : string;
  substatus : string
}.
End HistoryEvent.

Inductive urgencyStatus := OVERDUE | DUE_SOON | ON_TRACK.

#[global] Instance urgencyStatus_eq_dec : EqDecision urgencyStatus :=
  ltac:(solve_decision).

Module Urgency.
Record t := {
  status : urgencyStatus;
  color : string;
  icon : string;
  sortOrder : Z
}.
End Urgency.

Module SopMatch.
Record t := { category : string; tat : Q }.
End SopMatch.

(** The ticket record the tracker keeps in [tatTickets]. *)
Module TicketRecord.
Record t := {
  id : string;
  ticketId : string;
  subject : string;
  customerEmail : string;
  status : string;
  substatus : string;
  substatusName : string;
  assignedTo : string;
  assignedTime : Z;
  assignedTimeStr : string;
  sopCategory : string;
  tatHours : Q;
  elapsedHours : Q;
  remainingHours : Q;
  urgencyLevel : urgencyStatus;
  urgencyColor : string;
  urgencyIcon : string;
  isEscalated : bool;
  escalationCount : nat;
  lastEscalatedTime : option Z;
  ticketURL : string;
  lastUpdate : Z
}.
End TicketRecord.

(** A record of the disposition log [tatHistory]. *)
Module DispositionRecord.
Record t := {
  ticketId : string;
  subject : string;
  category : string;
  agent : string;
  assignedTime : Z;
  disposedTime : Z;
  tatHours : Q;
  dispositionType : string;
  isEscalated : bool;
  wasOverdue : bool
}.
End DispositionRecord.

(** The dashboard statistics written by [updateDashboard]. *)
Module TatStats.
Record t := {
  total : nat;
  overdue : nat;
  dueSoon : nat;
  onTrack : nat;
  escalated : nat;
  avgTAT : Q
}.
End TatStats.

(** [chrome.storage.local], one field per key. *)
Module Storage.
Record t := {
  tatTickets : option (gmap string TicketRecord.t);
  trackedTickets : option (list TicketRecord.t);
  tatStats : option TatStats.t;
  lastTicketFetch : option Z;
  tatHistory : option (list DispositionRecord.t)
}.

Definition empty : t :=
  {| tatTickets := None; trackedTickets := None; tatStats := None;
     lastTicketFetch := None; tatHistory := None |}.

(** [const { tatTickets = {} } = await chrome.storage.local.get(...)] *)
Definition getTickets (st : t) : gmap string TicketRecord.t :=
  default ∅ (tatTickets st).

(** [const { tatHistory = [] } = await chrome.storage.local.get(...)] *)
Definition getHistory (st : t) : list DispositionRecord.t :=
  default [] (tatHistory st).

Definition setTickets (m : gmap string TicketRecord.t) (st : t) : t :=
  {| tatTickets := Some m; trackedTickets := trackedTickets st;
     tatStats := tatStats st; lastTicketFetch := lastTicketFetch st;
     tatHistory := tatHistory st |}.

Definition setHistory (l : list DispositionRecord.t) (st : t) : t :=
  {| tatTickets := tatTickets st; trackedTickets := trackedTickets st;
     tatStats := tatStats st; lastTicketFetch := lastTicketFetch st;
     tatHistory := Some l |}.

Definition setDashboard (ts : list TicketRecord.t) (s : TatStats.t) (now : Z)
    (st : t) : t :=
  {| tatTickets := tatTickets st; trackedTickets := Some ts;
     tatStats := Some s; lastTicketFetch := Some now;
     tatHistory := tatHistory st |}.
End Storage.

(** The outcome of a [fetch] followed by [response.json()]: the call threw
    (with or without the message "Extension context invalidated"), or it
    returned with [response.ok] and a body. *)
Inductive fetched (A : Type) :=
  | FetchError (contextInvalidated : bool)
  | Response (ok : bool) (data : A).
Arguments FetchError {A} contextInvalidated.
Arguments Response {A} ok data.

(** Body of the history endpoint: [status] and [response?.history]. *)
Module HistoryData.
Record t := { status : string; history : option (list HistoryEvent.t) }.
End HistoryData.

(** Body of the ticket-list endpoint: [status] and [response?.tickets]. *)
Module TicketListData.
Record t := { status : string; tickets : option (list Ticket.t) }.
End TicketListData.

(** ** Code shared by the three copies of the tracker *)

(** The regular expression
    [/(\d{4})-(\d{2})-(\d{2}) (\d{2}):(\d{2}):(\d{2})/] tried at the start
    of [s]; the six groups as numbers. *)
Definition kaptureDateAt (s : string) : option (Z * Z * Z * Z * Z * Z) :=
  '(year, s) ← JS.digits 4 0 s;
  s ← JS.lit "-" s;
  '(month, s) ← JS.digits 2 0 s;
  s ← JS.lit "-" s;
  '(day, s) ← JS.digits 2 0 s;
  s ← JS.lit " " s;
  '(hour, s) ← JS.digits 2 0 s;
  s ← JS.lit ":" s;
  '(min, s) ← JS.digits 2 0 s;
  s ← JS.lit ":" s;
  '(sec, _) ← JS.digits 2 0 s;
  Some (year, month, day, hour, min, sec).

(** [dateStr.match(/.../)]: the leftmost match, if any. *)
Definition matchKaptureDate (dateStr : string) : option (Z * Z * Z * Z * Z * Z) :=
  JS.search kaptureDateAt dateStr.

(** [a < b] on numbers. *)
Definition lessThan (a b : Q) : bool := if Qlt_le_dec a b then true else false.

Definition urgencyOVERDUE : Urgency.t :=
  {| Urgency.status := OVERDUE; Urgency.color := "red";
     Urgency.icon := "🔴"; Urgency.sortOrder := 1 |}.
Definition urgencyDUE_SOON : Urgency.t :=
  {| Urgency.status := DUE_SOON; Urgency.color := "yellow";
     Urgency.icon := "🟡"; Urgency.sortOrder := 2 |}.
Definition urgencyON_TRACK : Urgency.t :=
  {| Urgency.status := ON_TRACK; Urgency.color := "green";
     Urgency.icon := "🟢"; Urgency.sortOrder := 3 |}.

Definition General48 : SopMatch.t :=
  {| SopMatch.category := "General"; SopMatch.tat := 48 |}.
Definition LossesDebits72 : SopMatch.t :=
  {| SopMatch.category := "Losses & Debits"; SopMatch.tat := 72 |}.
Definition Payments12 : SopMatch.t :=
  {| SopMatch.category := "Payments"; SopMatch.tat := 12 |}.
Definition Payments72 : SopMatch.t :=
  {| SopMatch.category := "Payments"; SopMatch.tat := 72 |}.
Definition COD24 : SopMatch.t :=
  {| SopMatch.category := "COD"; SopMatch.tat := 24 |}.
Definition OrdersPlanning12 : SopMatch.t :=
  {| SopMatch.category := "Orders & Planning"; SopMatch.tat := 12 |}.
Definition TechIssues24 : SopMatch.t :=
  {| SopMatch.category := "Tech Issues"; SopMatch.tat := 24 |}.

Definition kaptureBase : string := "https://valmostagging.kapturecrm.com".

(** ** tat-tracker-background.js *)

Module TATTrackerBackground.

(** What one run of [processTicketHistory] observes of the outside: the
    history fetch, the clock, and whether [chrome.runtime.id] is still
    there when the record is stored. *)
Record observation := {
  response : fetched HistoryData.t;
  now : Z;
  contextValid : bool
}.

(** The result of a poll cycle: the storage, the badge message sent (if
    any) and whether the tracker stopped itself. *)
Record outcome := {
  store : Storage.t;
  badge : option nat;
  stopped : bool
}.

Definition isManualAssigned (h : HistoryEvent.t) : Prop :=
  HistoryEvent.action h = "MANUAL ASSIGNED".

Definition isEscalation (h : HistoryEvent.t) : Prop :=
  HistoryEvent.action h = "DISPOSED" ∧ HistoryEvent.substatus h = "ETL".

#[global] Instance isManualAssigned_dec h : Decision (isManualAssigned h) :=
  decide (HistoryEvent.action h = "MANUAL ASSIGNED").

#[global] Instance isEscalation_dec h : Decision (isEscalation h) :=
  decide (HistoryEvent.action h = "DISPOSED" ∧ HistoryEvent.substatus h = "ETL").

(** [findLatestAssignment] (lines 223-231): the last element of the
    filtered array, [null] when it is empty. *)
Definition findLatestAssignment (history : list HistoryEvent.t)
    : option HistoryEvent.t :=
  let assignments := filter isManualAssigned history in
  last assignments.

(** [/assigned to ([^<]+)/i] tried at the start of [s]; group 1. *)
Definition assignedToAt (s : string) : option string :=
  rest ← JS.litCI "assigned to " s;
  match JS.upTo "<" rest with
  | EmptyString => None
  | cap => Some cap
  end.

(** [extractAgentEmail] (lines 237-244). *)
Definition extractAgentEmail (remark : string) : string :=
  match JS.search assignedToAt remark with
  | Some cap => JS.trim cap
  | None => "Unknown"
  end.

(** [matchSOPCategory] (lines 260-296); a subject that is not truthy is
    the empty string. *)
Definition matchSOPCategory (subject : string) : SopMatch.t :=
  if String.eqb subject "" then General48 else
  let lower := JS.toLowerCase subject in
  if JS.includes lower "shortage" || JS.includes lower "loss" ||
     JS.includes lower "debit" || JS.includes lower "hardstop"
  then LossesDebits72
  else if JS.includes lower "payment" || JS.includes lower "invoice" ||
          JS.includes lower "payout" || JS.includes lower "gst"
  then (if JS.includes lower "not received" || JS.includes lower "pending"
        then Payments12 else Payments72)
  else if JS.includes lower "cod" || JS.includes lower "deposit" ||
          JS.includes lower "cash"
  then COD24
  else if JS.includes lower "load" || JS.includes lower "volume" ||
          JS.includes lower "manifest"
  then OrdersPlanning12
  else if JS.includes lower "cms" || JS.includes lower "log10" ||
          JS.includes lower "system"
  then TechIssues24
  else General48.

(** [calculateUrgency] (lines 301-312). *)
Definition calculateUrgency (tatHours elapsedHours : Q) : Urgency.t :=
  let remaining := (tatHours - elapsedHours)%Q in
  let threshold := (tatHours * 0.25)%Q in
  if lessThan remaining 0 then urgencyOVERDUE
  else if lessThan remaining threshold then urgencyDUE_SOON
  else urgencyON_TRACK.

Section Host.
Variable UTC : Z -> Z.

(** [parseDate] (lines 249-255), with [now] for [Date.now()]. *)
Definition parseDate (now : Z) (dateStr : string) : Z :=
  match matchKaptureDate dateStr with
  | None => now
  | Some (year, month, day, hour, min, sec) =>
      JS.newDate UTC year (month - 1) day hour min sec
  end.

(** The object literal built in [processTicketHistory] (lines 145-205)
    once the latest assignment is known. *)
Definition ticketRecord (now : Z) (ticket : Ticket.t)
    (history : list HistoryEvent.t) (latestAssignment : HistoryEvent.t)
    : TicketRecord.t :=
  let assignedTime := parseDate now (HistoryEvent.createDate latestAssignment) in
  let elapsedMs := now - assignedTime in
  let elapsedHours := (inject_Z elapsedMs / inject_Z (1000 * 60 * 60))%Q in
  let sopMatch := matchSOPCategory (Ticket.taskTitle ticket) in
  let remainingHours := JS.sub (SopMatch.tat sopMatch) elapsedHours in
  let urgency := calculateUrgency (SopMatch.tat sopMatch) elapsedHours in
  let agentEmail := extractAgentEmail (HistoryEvent.remark latestAssignment) in
  let escalations := filter isEscalation history in
  {| TicketRecord.id := Ticket.id ticket;
     TicketRecord.ticketId := Ticket.ticketId ticket;
     TicketRecord.subject := Ticket.taskTitle ticket;
     TicketRecord.customerEmail := Ticket.email ticket;
     TicketRecord.status := Ticket.status ticket;
     TicketRecord.substatus := Ticket.substatus ticket;
     TicketRecord.substatusName := Ticket.substatusName ticket;
     TicketRecord.assignedTo := agentEmail;
     TicketRecord.assignedTime := assignedTime;
     TicketRecord.assignedTimeStr := HistoryEvent.createDate latestAssignment;
     TicketRecord.sopCategory := SopMatch.category sopMatch;
     TicketRecord.tatHours := SopMatch.tat sopMatch;
     TicketRecord.elapsedHours := JS.round1 elapsedHours;
     TicketRecord.remainingHours := JS.round1 remainingHours;
     TicketRecord.urgencyLevel := Urgency.status urgency;
     TicketRecord.urgencyColor := Urgency.color urgency;
     TicketRecord.urgencyIcon := Urgency.icon urgency;
     TicketRecord.isEscalated := bool_decide (0 < length escalations)%nat;
     TicketRecord.escalationCount := length escalations;
     TicketRecord.lastEscalatedTime :=
       (λ e, parseDate now (HistoryEvent.createDate e)) <$> last escalations;
     TicketRecord.ticketURL := kaptureBase +:+ Ticket.ticketURL ticket;
     TicketRecord.lastUpdate := now |}.

(** [storeTicketRecord] (lines 317-343): read the map, set the key, write
    the map back. *)
Definition storeTicketRecord (contextValid : bool) (r : TicketRecord.t)
    (st : Storage.t) : Storage.t :=
  if negb contextValid then st else
  let tatTickets := Storage.getTickets st in
  Storage.setTickets (<[TicketRecord.ticketId r := r]> tatTickets) st.

(** [processTicketHistory] (lines 109-218): every path that does not reach
    [storeTicketRecord] (failed fetch, bad response, no assignment, an
    exception caught by the handler) leaves the storage as it was. *)
Definition processTicketHistory (ticket : Ticket.t) (o : observation)
    (st : Storage.t) : Storage.t :=
  match response o with
  | FetchError _ => st
  | Response false _ => st
  | Response true historyData =>
      match String.eqb (HistoryData.status historyData) "Success",
            HistoryData.history historyData with
      | true, Some history =>
          match findLatestAssignment history with
          | None => st
          | Some latestAssignment =>
              storeTicketRecord (contextValid o)
                (ticketRecord (now o) ticket history latestAssignment) st
          end
      | _, _ => st
      end
  end.

(** The statistics of [updateDashboard]. *)
Definition dashboardStats (tickets : list TicketRecord.t) : TatStats.t :=
  let count (u : urgencyStatus) :=
    length (filter (λ t, TicketRecord.urgencyLevel t = u) tickets) in
  {| TatStats.total := length tickets;
     TatStats.overdue := count OVERDUE;
     TatStats.dueSoon := count DUE_SOON;
     TatStats.onTrack := count ON_TRACK;
     TatStats.escalated :=
       length (filter (λ t, TicketRecord.isEscalated t = true) tickets);
     TatStats.avgTAT :=
       if bool_decide (0 < length tickets)%nat
       then JS.round1
              (JS.div
                 (foldl (λ sum t, JS.add sum (TicketRecord.elapsedHours t))
                    0%Q tickets)
                 (inject_Z (Z.of_nat (length tickets))))
       else 0%Q |}.

(** [updateDashboard]: rewrites the keys [trackedTickets], [tatStats] and
    [lastTicketFetch] from [tatTickets] and sends the overdue count to the
    badge.  [Object.values] is taken in the key order of the map. *)
Definition updateDashboard (contextValid : bool) (now : Z) (st : Storage.t)
    : Storage.t * option nat :=
  if negb contextValid then (st, None) else
  let tickets := (map_to_list (Storage.getTickets st)).*2 in
  let stats := dashboardStats tickets in
  (Storage.setDashboard tickets stats now st, Some (TatStats.overdue stats)).

(** The [for] loop of [fetchAndProcessTickets]; [obs i] is what the run for
    the [i]-th ticket observes. *)
Fixpoint processTickets (obs : nat -> observation) (i : nat)
    (tickets : list Ticket.t) (st : Storage.t) : Storage.t :=
  match tickets with
  | [] => st
  | ticket :: rest =>
      processTickets obs (S i) rest (processTicketHistory ticket (obs i) st)
  end.

(** [fetchAndProcessTickets]: one poll cycle.  [contextValid] is the check
    at its start, [dash] the check and the clock of [updateDashboard]. *)
Definition fetchAndProcessTickets (contextValid : bool)
    (listResponse : fetched TicketListData.t) (obs : nat -> observation)
    (dash : bool * Z) (st : Storage.t) : outcome :=
  if negb contextValid
  then {| store := st; badge := None; stopped := true |}
  else
    match listResponse with
    | FetchError contextInvalidated =>
        {| store := st; badge := None; stopped := contextInvalidated |}
    | Response false _ => {| store := st; badge := None; stopped := false |}
    | Response true data =>
        match String.eqb (TicketListData.status data) "Success",
              TicketListData.tickets data with
        | true, Some tickets =>
            let st' := processTickets obs 0 tickets st in
            let '(st'', b) := updateDashboard dash.1 dash.2 st' in
            {| store := st''; badge := b; stopped := false |}
        | _, _ => {| store := st; badge := None; stopped := false |}
        end
    end.

End Host.
End TATTrackerBackground.

(** ** tat-system/ticket-tracker.js *)

Module TicketTracker.

(** [matchSOPCategory] (lines 180-224); a subject that is not truthy is
    the empty string. *)
Definition matchSOPCategory (subject : string) : SopMatch.t :=
  if String.eqb subject "" then General48 else
  let lower := JS.toLowerCase subject in
  if JS.includes lower "shortage" || JS.includes lower "loss" ||
     JS.includes lower "debit" || JS.includes lower "hardstop" ||
     JS.includes lower "shipment" &&
       (JS.includes lower "short" || JS.includes lower "missing")
  then LossesDebits72
  else if JS.includes lower "payment" || JS.includes lower "invoice" ||
          JS.includes lower "payout" || JS.includes lower "gst" ||
          JS.includes lower "pending sign"
  then (if JS.includes lower "not received" || JS.includes lower "pending"
        then Payments12 else Payments72)
  else if JS.includes lower "cod" || JS.includes lower "deposit" ||
          JS.includes lower "cash" || JS.includes lower "pendency"
  then COD24
  else if JS.includes lower "load" || JS.includes lower "volume" ||
          JS.includes lower "manifest" || JS.includes lower "planning"
  then OrdersPlanning12
  else if JS.includes lower "cms" || JS.includes lower "log10" ||
          JS.includes lower "system" || JS.includes lower "tool" ||
          JS.includes lower "bagging" || JS.includes lower "inactive"
  then TechIssues24
  else General48.

(** [calculateUrgency] (lines 229-258). *)
Definition calculateUrgency (tatHours elapsedHours : Q) : Urgency.t :=
  let remaining := (tatHours - elapsedHours)%Q in
  let threshold := (tatHours * 0.25)%Q in
  if lessThan remaining 0 then urgencyOVERDUE
  else if lessThan remaining threshold then urgencyDUE_SOON
  else urgencyON_TRACK.

Section Host.
Variable UTC : Z -> Z.

(** [parseKaptureDate] (lines 168-175). *)
Definition parseKaptureDate (now : Z) (dateStr : string) : Z :=
  match matchKaptureDate dateStr with
  | None => now
  | Some (year, month, day, hour, min, sec) =>
      JS.newDate UTC year (month - 1) day hour min sec
  end.

End Host.
End TicketTracker.

(** ** background.js (service worker) *)

Module Background.

(** A plain object as the date normaliser reads it: each key it looks at,
    [None] when the object does not have the key.  The values are the
    integers the ticket API serialises. *)
Record dateObject := {
  year : option Z;
  month : option Z;
  date : option Z;
  hours : option Z;
  minutes : option Z;
  seconds : option Z;
  timestamp : option Z
}.

(** The raw [dateValue], by its JavaScript type. *)
Inductive dateValue :=
  | DObject (o : dateObject)   (** a non-null object that is not an array *)
  | DString (s : string)
  | DNumber (n : Z)
  | DOther.                    (** undefined, null, a boolean, an array *)

(** [x || 0] on an optional number ([undefined] and [0] are both falsy). *)
Definition orZero (x : option Z) : Z := default 0 x.

(** [calculateUrgency] (lines 339-346). *)
Definition calculateUrgency (tatHours elapsedHours : Q) : Urgency.t :=
  let remaining := (tatHours - elapsedHours)%Q in
  let threshold := (tatHours * 0.25)%Q in
  if lessThan remaining 0 then urgencyOVERDUE
  else if lessThan remaining threshold then urgencyDUE_SOON
  else urgencyON_TRACK.

Section Host.
Variable UTC : Z -> Z.

(** [parseKaptureDate] (lines 235-272). *)
Definition parseKaptureDate (now : Z) (dateValue : dateValue) : Z :=
  match dateValue with
  | DObject o =>
      match year o, month o, date o with
      | Some y, Some m, Some d =>
          JS.newDate UTC (y + 1900) m d
            (orZero (hours o)) (orZero (minutes o)) (orZero (seconds o))
      | _, _, _ =>
          match timestamp o with
          | Some ts =>
              if ts =? 0 then now
              else if ts <? 10000000000 then ts * 1000 else ts
          | None => now
          end
      end
  | DString s =>
      match matchKaptureDate s with
      | Some (year, month, day, hour, min, sec) =>
          JS.newDate UTC year (month - 1) day hour min sec
      | None => now
      end
  | DNumber n => if n <? 10000000000 then n * 1000 else n
  | DOther => now
  end.

End Host.
End Background.

(** ** tat-analytics.js *)

Module AgentStats.
(** The object returned by [getAgentStats]; the literal returned for an
    agent without records has no [overdueRate] property. *)
Record t := {
  agent : string;
  totalTickets : nat;
  resolved : nat;
  escalated : nat;
  escalationRate : Q;
  avgTAT : Q;
  overdueCount : nat;
  overdueRate : option Q
}.
End AgentStats.

Module TATAnalytics.

Definition capacity : nat := 1000.

(** [storeHistoricalRecord] (lines 55-67): push, then drop the first
    element when the array has grown beyond 1000. *)
Definition storeHistoricalRecord (record : DispositionRecord.t)
    (st : Storage.t) : Storage.t :=
  let tatHistory := Storage.getHistory st ++ [record] in
  let tatHistory :=
    if bool_decide (1000 < length tatHistory)%nat
    then tail tatHistory else tatHistory in
  Storage.setHistory tatHistory st.

(** The object literal built in [recordDisposition] (lines 29-44). *)
Definition dispositionRecord (now : Z) (ticket : TicketRecord.t)
    (disposition : string) : DispositionRecord.t :=
  let disposedTime := now in
  let tatMs := disposedTime - TicketRecord.assignedTime ticket in
  let tatHours := (inject_Z tatMs / inject_Z (1000 * 60 * 60))%Q in
  {| DispositionRecord.ticketId := TicketRecord.ticketId ticket;
     DispositionRecord.subject := TicketRecord.subject ticket;
     DispositionRecord.category := TicketRecord.sopCategory ticket;
     DispositionRecord.agent := TicketRecord.assignedTo ticket;
     DispositionRecord.assignedTime := TicketRecord.assignedTime ticket;
     DispositionRecord.disposedTime := disposedTime;
     DispositionRecord.tatHours := JS.round1 tatHours;
     DispositionRecord.dispositionType := disposition;
     DispositionRecord.isEscalated := String.eqb disposition "ETL";
     DispositionRecord.wasOverdue := lessThan (TicketRecord.tatHours ticket) tatHours |}.

(** [recordDisposition] (lines 20-50): nothing happens for a ticket that
    is not in [tatTickets]. *)
Definition recordDisposition (now : Z) (ticketId disposition : string)
    (st : Storage.t) : Storage.t :=
  match Storage.getTickets st !! ticketId with
  | None => st
  | Some ticket =>
      storeHistoricalRecord (dispositionRecord now ticket disposition) st
  end.

Definition ofAgent (agentEmail : string) (r : DispositionRecord.t) : Prop :=
  DispositionRecord.agent r = agentEmail.

#[global] Instance ofAgent_dec agentEmail r : Decision (ofAgent agentEmail r) :=
  decide (DispositionRecord.agent r = agentEmail).

(** [(a / b) * 100] on two counts. *)
Definition percentage (a b : nat) : Q :=
  JS.mul (JS.div (inject_Z (Z.of_nat a)) (inject_Z (Z.of_nat b))) 100.

(** [getAgentStats] (lines 72-105). *)
Definition getAgentStats (agentEmail : string) (st : Storage.t) : AgentStats.t :=
  let tatHistory := Storage.getHistory st in
  let agentRecords := filter (ofAgent agentEmail) tatHistory in
  if bool_decide (length agentRecords = 0)%nat then
    {| AgentStats.agent := agentEmail;
       AgentStats.totalTickets := 0;
       AgentStats.resolved := 0;
       AgentStats.escalated := 0;
       AgentStats.escalationRate := 0;
       AgentStats.avgTAT := 0;
       AgentStats.overdueCount := 0;
       AgentStats.overdueRate := None |}
  else
    let resolved :=
      length (filter (λ r, DispositionRecord.dispositionType r = "RESOLVED")
                agentRecords) in
    let escalated :=
      length (filter (λ r, DispositionRecord.isEscalated r = true)
                agentRecords) in
    let overdueCount :=
      length (filter (λ r, DispositionRecord.wasOverdue r = true)
                agentRecords) in
    let avgTAT :=
      JS.div
        (foldl (λ sum r, JS.add sum (DispositionRecord.tatHours r)) 0%Q
           agentRecords)
        (inject_Z (Z.of_nat (length agentRecords))) in
    {| AgentStats.agent := agentEmail;
       AgentStats.totalTickets := length agentRecords;
       AgentStats.resolved := resolved;
       AgentStats.escalated := escalated;
       AgentStats.escalationRate :=
         JS.Math_round (percentage escalated (length agentRecords));
       AgentStats.avgTAT := JS.round1 avgTAT;
       AgentStats.overdueCount := overdueCount;
       AgentStats.overdueRate :=
         Some (JS.Math_round (percentage overdueCount (length agentRecords))) |}.

End TATAnalytics.


(** ** Operations on the storage

    Every function of the modelled sources that reads or writes
    [chrome.storage.local], as one step on the storage.  [getAgentStats]
    only reads. *)
Inductive operation :=
  | RecordDisposition (now : Z) (ticketId disposition : string)
  | StoreHistoricalRecord (record : DispositionRecord.t)
  | GetAgentStats (agentEmail : string)
  | StoreTicketRecord (contextValid : bool) (r : TicketRecord.t)
  | ProcessTicketHistory (ticket : Ticket.t)
      (o : TATTrackerBackground.observation)
  | UpdateDashboard (contextValid : bool) (now : Z).

Definition run (UTC : Z → Z) (op : operation) (st : Storage.t) : Storage.t :=
  match op with
  | RecordDisposition now ticketId disposition =>
      TATAnalytics.recordDisposition now ticketId disposition st
  | StoreHistoricalRecord record => TATAnalytics.storeHistoricalRecord record st
  | GetAgentStats _ => st
  | StoreTicketRecord contextValid r =>
      TATTrackerBackground.storeTicketRecord contextValid r st
  | ProcessTicketHistory ticket o =>
      TATTrackerBackground.processTicketHistory UTC ticket o st
  | UpdateDashboard contextValid now =>
      (TATTrackerBackground.updateDashboard contextValid now st).1
  end.

(** Sum and mean of a list of numbers. *)
Definition total (l : list Q) : Q := foldl Qplus 0%Q l.

Definition mean (l : list Q) : Q :=
  (total l / inject_Z (Z.of_nat (length l)))%Q.

(** [a] of [b] as an exact percentage. *)
Definition exactPercentage (a b : nat) : Q :=
  (100 * inject_Z (Z.of_nat a) / inject_Z (Z.of_nat b))%Q.

(** The relative error allowed for the double-precision arithmetic of a
    roll-up over a log within its capacity: 2^-40. *)
Definition tolerance : Q := JS.pow2 (-40).

(** A disposition record of [agent] with the given hours. *)
Definition disposed (agent : string) (tatHours : Q) (dispositionType : string)
    : DispositionRecord.t :=
  {| DispositionRecord.ticketId := "T";
     DispositionRecord.subject := "";
     DispositionRecord.category := "General";
     DispositionRecord.agent := agent;
     DispositionRecord.assignedTime := 0;
     DispositionRecord.disposedTime := 0;
     DispositionRecord.tatHours := tatHours;
     DispositionRecord.dispositionType := dispositionType;
     DispositionRecord.isEscalated := String.eqb dispositionType "ETL";
     DispositionRecord.wasOverdue := false |}.

(** A stored ticket, and a storage that tracks it under "T1". *)
Definition trackedExample : TicketRecord.t :=
  {| TicketRecord.id := "1";
     TicketRecord.ticketId := "T1";
     TicketRecord.subject := "Shortage loss not credited";
     TicketRecord.customerEmail := "";
     TicketRecord.status := "P";
     TicketRecord.substatus := "";
     TicketRecord.substatusName := "";
     TicketRecord.assignedTo := "A";
     TicketRecord.assignedTime := 0;
     TicketRecord.assignedTimeStr := "1970-01-01 05:30:00";
     TicketRecord.sopCategory := "Losses & Debits";
     TicketRecord.tatHours := 72;
     TicketRecord.elapsedHours := 0;
     TicketRecord.remainingHours := 72;
     TicketRecord.urgencyLevel := ON_TRACK;
     TicketRecord.urgencyColor := "green";
     TicketRecord.urgencyIcon := "🟢";
     TicketRecord.isEscalated := false;
     TicketRecord.escalationCount := 0;
     TicketRecord.lastEscalatedTime := None;
     TicketRecord.ticketURL := "https://valmostagging.kapturecrm.com/t/1";
     TicketRecord.lastUpdate := 0 |}.

Definition trackingExample : Storage.t :=
  Storage.setTickets {["T1" := trackedExample]} Storage.empty.
(** ** The specification's reading of the classifier

    The component design describes the classifier as a first-match search
    in an ordered table of keyword rules.  [classify] follows those words,
    and [specTable] is the table of section 4.1, keyword for keyword. *)

Module Classifier.


Definition hasAny (lower : string) (keywords : list string) : bool :=
  existsb (JS.includes lower) keywords.








(** The categories of the fixed set, with their hours. *)
Definition categories : list SopMatch.t :=
  [LossesDebits72; Payments12; Payments72; COD24; OrdersPlanning12;
   TechIssues24; General48].






End Classifier.

(** The fields of a date string read at fixed offsets, the way the
    specification describes the string case. *)
Module FixedWidth.

Fixpoint decimal (acc : Z) (s : string) : option Z :=
  match s with
  | EmptyString => Some acc
  | String c r =>
      if JS.isDigit c then decimal (10 * acc + (JS.code c - 48)) r else None
  end.

(** The number written by the [width] characters from [offset] on. *)
Definition field (s : string) (offset width : nat) : option Z :=
  let f := String.substring offset width s in
  if Nat.eqb (String.length f) width then decimal 0 f else None.

Definition separator (s : string) (offset : nat) (c : ascii) : option unit :=
  match String.get offset s with
  | Some d => if Ascii.eqb c d then Some tt else None
  | None => None
  end.

Definition fields (s : string) : option (Z * Z * Z * Z * Z * Z) :=
  year ← field s 0 4;
  _ ← separator s 4 "-";
  month ← field s 5 2;
  _ ← separator s 7 "-";
  day ← field s 8 2;
  _ ← separator s 10 " ";
  hour ← field s 11 2;
  _ ← separator s 13 ":";
  min ← field s 14 2;
  _ ← separator s 16 ":";
  sec ← field s 17 2;
  Some (year, month, day, hour, min, sec).

End FixedWidth.

(** The string without its first [n] characters. *)
Fixpoint skip (n : nat) (s : string) : string :=
  match n, s with
  | O, _ => s
  | S _, EmptyString => EmptyString
  | S n', String _ r => skip n' r
  end.


(** The legacy object of the specification's example, and what makes an
    object a legacy date: the three keys the normaliser asks for. *)
Definition legacyExample : Background.dateObject :=
  {| Background.year := Some 126; Background.month := Some 1;
     Background.date := Some 2; Background.hours := Some 14;
     Background.minutes := Some 13; Background.seconds := Some 27;
     Background.timestamp := None |}.

Definition legacy (o : Background.dateObject) : Prop :=
  is_Some (Background.year o) ∧ is_Some (Background.month o) ∧
  is_Some (Background.date o).

(** An object that carries a raw epoch, and one of no known format. *)
Definition epochObject : Background.dateObject :=
  {| Background.year := None; Background.month := None;
     Background.date := None; Background.hours := None;
     Background.minutes := None; Background.seconds := None;
     Background.timestamp := Some 1700000000 |}.

Definition unknownObject : Background.dateObject :=
  {| Background.year := Some 126; Background.month := None;
     Background.date := None; Background.hours := None;
     Background.minutes := None; Background.seconds := None;
     Background.timestamp := None |}.

(** Indian Standard Time, the fixed zone used in the examples. *)
Definition IST (t : Z) : Z := t - 19800000.


(** ** Reconciliation, as the specification names it

    The sources have no function of that name: reconciliation is the part
    of [processTicketHistory] between the history fetch and the store.
    [reconcile] is the record that part builds, [None] for NO_ASSIGNMENT;
    its [assignedTime], [assignedTo], [escalationCount] and
    [lastEscalatedTime] are the reconciliation result. *)
Definition reconcile (UTC : Z → Z) (now : Z) (ticket : Ticket.t)
    (history : list HistoryEvent.t) : option TicketRecord.t :=
  TATTrackerBackground.ticketRecord UTC now ticket history
    <$> TATTrackerBackground.findLatestAssignment history.

(** The history [processTicketHistory] gets to see, if any. *)
Definition fetchedHistory (o : TATTrackerBackground.observation)
    : option (list HistoryEvent.t) :=
  match TATTrackerBackground.response o with
  | Response true data =>
      if String.eqb (HistoryData.status data) "Success"
      then HistoryData.history data else None
  | _ => None
  end.

(** The tickets a poll cycle loops over, if the list fetch succeeded. *)
Definition polledTickets (listResponse : fetched TicketListData.t)
    : list Ticket.t :=
  match listResponse with
  | Response true data =>
      if String.eqb (TicketListData.status data) "Success"
      then default [] (TicketListData.tickets data) else []
  | _ => []
  end.

(** The timestamp of a history event. *)
Definition eventTime (UTC : Z → Z) (now : Z) (e : HistoryEvent.t) : Z :=
  TATTrackerBackground.parseDate UTC now (HistoryEvent.createDate e).

(** A history delivered oldest first. *)
Definition oldestFirst (UTC : Z → Z) (now : Z) (history : list HistoryEvent.t)
    : Prop :=
  StronglySorted (λ e e', eventTime UTC now e ≤ eventTime UTC now e') history.

(** [t] is the timestamp of a chronologically last assignment event. *)
Definition chronologicallyLast (UTC : Z → Z) (now : Z)
    (history : list HistoryEvent.t) (t : Z) : Prop :=
  (∃ e, e ∈ history ∧ TATTrackerBackground.isManualAssigned e ∧
        eventTime UTC now e = t) ∧
  (∀ e, e ∈ history → TATTrackerBackground.isManualAssigned e →
        eventTime UTC now e ≤ t).

(** Hours between two instants, as [processTicketHistory] computes them. *)
Definition hoursBetween (from to : Z) : Q :=
  (inject_Z (to - from) / inject_Z (1000 * 60 * 60))%Q.

(** The urgency of a record is the one of its hours and of the time from
    its [assignedTime] to its [lastUpdate]. *)
Definition urgencyConsistent (r : TicketRecord.t) : Prop :=
  TicketRecord.urgencyLevel r =
  Urgency.status
    (TATTrackerBackground.calculateUrgency (TicketRecord.tatHours r)
       (hoursBetween (TicketRecord.assignedTime r) (TicketRecord.lastUpdate r))).

(** Examples: a ticket, history events, observations. *)
Definition ticketExample : Ticket.t :=
  {| Ticket.id := "1"; Ticket.ticketId := "T1";
     Ticket.taskTitle := "Shortage loss not credited";
     Ticket.date := "2026-02-01 09:00:00"; Ticket.email := "";
     Ticket.status := "P"; Ticket.substatus := ""; Ticket.substatusName := "";
     Ticket.ticketURL := "/t/1" |}.

Definition event (action createDate remark substatus : string)
    : HistoryEvent.t :=
  {| HistoryEvent.action := action; HistoryEvent.createDate := createDate;
     HistoryEvent.remark := remark; HistoryEvent.substatus := substatus |}.

Definition assignedFeb1 : HistoryEvent.t :=
  event "MANUAL ASSIGNED" "2026-02-01 10:00:00" "assigned to Asha" "".

Definition assignedFeb2 : HistoryEvent.t :=
  event "MANUAL ASSIGNED" "2026-02-02 14:13:27" "assigned to Deepika" "".

Definition assignedUndated : HistoryEvent.t :=
  event "MANUAL ASSIGNED" "02/02/2026 02:13" "assigned to Deepika" "".

Definition createdFeb1 : HistoryEvent.t :=
  event "CREATED" "2026-02-01 09:00:00" "" "".

Definition observe (history : list HistoryEvent.t) (now : Z)
    : TATTrackerBackground.observation :=
  {| TATTrackerBackground.response :=
       Response true {| HistoryData.status := "Success";
                        HistoryData.history := Some history |};
     TATTrackerBackground.now := now;
     TATTrackerBackground.contextValid := true |}.

(** ** Calendar checks

    Length of the month [m] (1..12) of the year [y]. *)
Definition isLeap (y : Z) : bool :=
  ((y mod 4 =? 0) && negb (y mod 100 =? 0)) || (y mod 400 =? 0).

Definition daysInMonth (y m : Z) : Z :=
  if m =? 2 then (if isLeap y then 29 else 28)
  else if (m =? 4) || (m =? 6) || (m =? 9) || (m =? 11) then 30 else 31.

(** The day number of a civil date reads back as that date. *)
Definition roundTrips (y m d : Z) : bool :=
  let '(y', m', d') := JS.civilFromDays (JS.daysFromCivil y m d) in
  (y' =? y) && (m' =? m) && (d' =? d).

Definition monthRoundTrips (y m : Z) : bool :=
  forallb (roundTrips y m) (seqZ 1 (daysInMonth y m)).

Definition yearRoundTrips (y : Z) : bool :=
  forallb (monthRoundTrips y) (seqZ 1 12).


(** ** More built-ins *)

Module Builtins.

(** [Array.prototype.sort(cmp)]: the stable sort for a comparator that is
    consistent; [x] goes before [y] when [cmp x y] is not positive. *)
Fixpoint insertBy {A} (cmp : A → A → Q) (x : A) (l : list A) : list A :=
  match l with
  | [] => [x]
  | y :: r =>
      if Qle_bool (cmp x y) 0 then x :: y :: r else y :: insertBy cmp x r
  end.

Definition sortBy {A} (cmp : A → A → Q) (l : list A) : list A :=
  foldr (insertBy cmp) [] l.

(** [[...new Set(l)]]: the distinct elements in the order of their first
    occurrence. *)
Fixpoint uniqueFrom (seen l : list string) : list string :=
  match l with
  | [] => []
  | x :: r =>
      if bool_decide (x ∈ seen) then uniqueFrom seen r
      else x :: uniqueFrom (x :: seen) r
  end.

Definition unique (l : list string) : list string := uniqueFrom [] l.

(** The decimal digits of a natural number, most significant first. *)
Fixpoint digitsOf (fuel : nat) (n : Z) (acc : string) : string :=
  match fuel with
  | O => acc
  | S fuel' =>
      let acc' := String (ascii_of_N (Z.to_N (48 + n mod 10))) acc in
      if n <? 10 then acc' else digitsOf fuel' (n / 10) acc'
  end.

(** [String(n)] for an integer of fewer than 22 digits. *)
Definition toString (n : Z) : string :=
  if n <? 0 then String "-" (digitsOf 22 (- n) "") else digitsOf 22 n "".

(** [s.padStart(2, '0')] *)
Definition padStart2 (s : string) : string :=
  match s with
  | EmptyString => "00"
  | String c EmptyString => String "0" (String c EmptyString)
  | _ => s
  end.




End Builtins.

(** ** tat-analytics.js, continued *)

Module Summary.
Record pendingT := { total : nat; overdue : nat; escalated : nat }.
Record historicalT := {
  totalProcessed : nat;
  totalEscalated : nat;
  avgEscalationRate : Q
}.
Record t := {
  pending : pendingT;
  historical : historicalT;
  agents : list AgentStats.t;
  lastUpdate : Z
}.
End Summary.

Module TATAnalyticsMore.

(** The comparator of [getAllAgentsStats]:
    [(a, b) => b.escalationRate - a.escalationRate]. *)
Definition byEscalationRate (a b : AgentStats.t) : Q :=
  (AgentStats.escalationRate b - AgentStats.escalationRate a)%Q.

(** [getAllAgentsStats] (lines 110-127). *)
Definition getAllAgentsStats (st : Storage.t) : list AgentStats.t :=
  let tatHistory := Storage.getHistory st in
  let agents := Builtins.unique (DispositionRecord.agent <$> tatHistory) in
  let allStats := (λ agent, TATAnalytics.getAgentStats agent st) <$> agents in
  Builtins.sortBy byEscalationRate allStats.

(** [getSummary] (lines 207-238), with [now] for [Date.now()]. *)
Definition getSummary (now : Z) (st : Storage.t) : Summary.t :=
  let tatHistory := Storage.getHistory st in
  let trackedTickets := default [] (Storage.trackedTickets st) in
  let agentStats := getAllAgentsStats st in
  let escalated :=
    length (filter (λ r, DispositionRecord.isEscalated r = true) tatHistory) in
  {| Summary.pending :=
       {| Summary.total := length trackedTickets;
          Summary.overdue :=
            length (filter (λ t, TicketRecord.urgencyLevel t = OVERDUE)
                      trackedTickets);
          Summary.escalated :=
            length (filter (λ t, TicketRecord.isEscalated t = true)
                      trackedTickets) |};
     Summary.historical :=
       {| Summary.totalProcessed := length tatHistory;
          Summary.totalEscalated := escalated;
          Summary.avgEscalationRate :=
            if bool_decide (0 < length tatHistory)%nat
            then JS.Math_round
                   (TATAnalytics.percentage escalated (length tatHistory))
            else 0%Q |};
     Summary.agents := agentStats;
     Summary.lastUpdate := now |}.

(** A run of [storeHistoricalRecord], one record after the other. *)
Definition storeAll (records : list DispositionRecord.t) (st : Storage.t)
    : Storage.t :=
  foldl (λ st r, TATAnalytics.storeHistoricalRecord r st) st records.

End TATAnalyticsMore.

(** ** tat-tracker-background.js, continued: the scheduler *)

Module Scheduler.

(** The fields of [TATTrackerBackground] that [start] and [stop] use. *)
Record tracker := { isTracking : bool; intervalId : option positive }.

(** The constructor (lines 11-16). *)
Definition new : tracker := {| isTracking := false; intervalId := None |}.

(** The host's interval timers: the running ones, and the id the next
    [setInterval] returns.  Ids are positive, so an id is always truthy. *)
Record timers := { running : gset positive; nextId : positive }.

Definition setInterval (tm : timers) : positive * timers :=
  (nextId tm,
   {| running := {[nextId tm]} ∪ running tm; nextId := Pos.succ (nextId tm) |}).

Definition clearInterval (id : positive) (tm : timers) : timers :=
  {| running := running tm ∖ {[id]}; nextId := nextId tm |}.

(** [stop] (lines 39-47). *)
Definition stop (t : tracker) (tm : timers) : tracker * timers :=
  if negb (isTracking t) then (t, tm) else
  ({| isTracking := false; intervalId := intervalId t |},
   match intervalId t with
   | Some id => clearInterval id tm
   | None => tm
   end).

(** What a poll cycle is given from outside. *)
Record cycle := {
  contextValid : bool;
  listResponse : fetched TicketListData.t;
  obs : nat → TATTrackerBackground.observation;
  dash : bool * Z
}.

Section Host.
Variable UTC : Z → Z.

(** One call of [fetchAndProcessTickets] on the tracker: the cycle, and
    [this.stop()] where the cycle asks for it. *)
Definition poll (c : cycle) (s : tracker * timers * Storage.t)
    : tracker * timers * Storage.t :=
  let '(t, tm, st) := s in
  let o := TATTrackerBackground.fetchAndProcessTickets UTC (contextValid c)
             (listResponse c) (obs c) (dash c) st in
  let '(t', tm') :=
    if TATTrackerBackground.stopped o then stop t tm else (t, tm) in
  (t', tm', TATTrackerBackground.store o).

(** [start] (lines 21-34), run to its end without another call of [start]
    or [stop] in between. *)
Definition start (c : cycle) (s : tracker * timers * Storage.t)
    : tracker * timers * Storage.t :=
  let '(t, tm, st) := s in
  if isTracking t then s else
  let t1 := {| isTracking := true; intervalId := intervalId t |} in
  let '(t2, tm2, st2) := poll c (t1, tm, st) in
  let '(id, tm3) := setInterval tm2 in
  ({| isTracking := isTracking t2; intervalId := Some id |}, tm3, st2).

End Host.
End Scheduler.

(** ** The dashboard of the overlay (tat-dashboard, in unnamed/part_003) *)

(** Anything with an [urgencyLevel] property. *)
Class HasUrgency (A : Type) := urgencyOf : A → urgencyStatus.

#[global] Instance TicketRecord_urgency : HasUrgency TicketRecord.t :=
  TicketRecord.urgencyLevel.

Module Grouped.
Record t (A : Type) := { overdue : list A; dueSoon : list A; onTrack : list A }.
Arguments overdue {A}.
Arguments dueSoon {A}.
Arguments onTrack {A}.
End Grouped.

Module UrgencyStats.
Record t := { total : nat; overdue : nat; dueSoon : nat; onTrack : nat }.
End UrgencyStats.

Module Dashboard.

(** [groupTicketsByUrgency] (lines 518-524). *)
Definition groupTicketsByUrgency {A} `{HasUrgency A} (tickets : list A)
    : Grouped.t A :=
  {| Grouped.overdue := filter (λ t, urgencyOf t = OVERDUE) tickets;
     Grouped.dueSoon := filter (λ t, urgencyOf t = DUE_SOON) tickets;
     Grouped.onTrack := filter (λ t, urgencyOf t = ON_TRACK) tickets |}.

(** [calculateStats] (lines 529-536). *)
Definition calculateStats {A} `{HasUrgency A} (tickets : list A)
    : UrgencyStats.t :=
  {| UrgencyStats.total := length tickets;
     UrgencyStats.overdue :=
       length (filter (λ t, urgencyOf t = OVERDUE) tickets);
     UrgencyStats.dueSoon :=
       length (filter (λ t, urgencyOf t = DUE_SOON) tickets);
     UrgencyStats.onTrack :=
       length (filter (λ t, urgencyOf t = ON_TRACK) tickets) |}.


(** What [loadTATDashboard] (lines 466-513) decides to show. *)
Inductive view :=
  | EmptyState
  | Tickets (grouped : Grouped.t TicketRecord.t) (stats : UrgencyStats.t)
      (timeSinceUpdate : Z) (badge : option nat).

(** [updateOverdueBadge] (lines 753-763): the count shown, if any. *)
Definition updateOverdueBadge (count : nat) : option nat :=
  if bool_decide (0 < count)%nat then Some count else None.

Definition loadTATDashboard (now : Z) (st : Storage.t) : view :=
  let tickets := default [] (Storage.trackedTickets st) in
  let lastFetch := default 0 (Storage.lastTicketFetch st) in
  let timeSinceUpdate := Qfloor (inject_Z (now - lastFetch) / 1000) in
  if bool_decide (length tickets = 0)%nat then EmptyState else
  let grouped := groupTicketsByUrgency tickets in
  let stats := calculateStats tickets in
  Tickets grouped stats timeSinceUpdate
    (updateOverdueBadge (UrgencyStats.overdue stats)).

End Dashboard.

(** ** Tickets as the two creation-date trackers process them *)

(** A field of a raw ticket that may hold a date: absent (undefined, null
    or false), or present with a value.  [Present DOther] is a value that
    is truthy and no date: [true] or an array. *)
Inductive dateField :=
  | Absent
  | Present (v : Background.dateValue).

(** A ticket of the ticket-list response, with the fields [processTicket]
    and [processTicketBackground] read. *)
Module RawTicket.
Record t := {
  id : string;
  ticketId : string;
  taskTitle : string;
  email : string;
  status : string;
  substatus : string;
  substatusName : string;
  isEscalated : bool;
  date : dateField;
  createdDate : dateField;
  created_date : dateField;
  created_at : dateField;
  lastConversationTime : string;
  ticketURL : string;
  folderColor : string;
  totalConversationCount : Z
}.
End RawTicket.

(** The object both functions return. *)
Module Processed.
Record t := {
  id : string;
  ticketId : string;
  subject : string;
  customerEmail : string;
  status : string;
  substatus : string;
  substatusName : string;
  isEscalated : bool;
  createdDate : Z;
  createdDateStr : string;
  lastConversationTime : string;
  sopCategory : string;
  tatHours : Q;
  elapsedHours : Q;
  remainingHours : Q;
  urgencyLevel : urgencyStatus;
  urgencyColor : string;
  urgencyIcon : string;
  ticketURL : string;
  folderColor : string;
  conversationCount : Z
}.
End Processed.

#[global] Instance Processed_urgency : HasUrgency Processed.t :=
  Processed.urgencyLevel.

(** The keys of [chrome.storage.local] that the two creation-date
    trackers write. *)
Module LocalStore.
Record t := {
  trackedTickets : option (list Processed.t);
  lastTicketFetch : option Z;
  notifiedTickets : option (list string)
}.
End LocalStore.

(** Body of the ticket-list endpoint as the two trackers read it. *)
Module RawListData.
Record t := { status : string; tickets : option (list RawTicket.t) }.
End RawListData.

(** ** tat-system/ticket-tracker.js, continued *)

Module TicketTrackerMore.

(** The fields of [TicketTracker] that [fetchTickets] uses, and the
    storage. *)
Record state := {
  tickets : list Processed.t;
  lastFetch : Z;
  store : LocalStore.t
}.

Section Host.
Variable UTC : Z → Z.

(** [processTicket] (lines 111-163).  [parseKaptureDate] calls
    [dateStr.match], which throws unless [ticket.date] is a string:
    [None] stands for the exception. *)
Definition processTicket (now : Z) (ticket : RawTicket.t)
    : option Processed.t :=
  match RawTicket.date ticket with
  | Present (Background.DString dateStr) =>
      let createdDate := TicketTracker.parseKaptureDate UTC now dateStr in
      let elapsedMs := now - createdDate in
      let elapsedHours := (inject_Z elapsedMs / inject_Z (1000 * 60 * 60))%Q in
      let sopMatch := TicketTracker.matchSOPCategory (RawTicket.taskTitle ticket) in
      let remainingHours := JS.sub (SopMatch.tat sopMatch) elapsedHours in
      let urgency :=
        TicketTracker.calculateUrgency (SopMatch.tat sopMatch) elapsedHours in
      Some
        {| Processed.id := RawTicket.id ticket;
           Processed.ticketId := RawTicket.ticketId ticket;
           Processed.subject := RawTicket.taskTitle ticket;
           Processed.customerEmail := RawTicket.email ticket;
           Processed.status := RawTicket.status ticket;
           Processed.substatus := RawTicket.substatus ticket;
           Processed.substatusName := RawTicket.substatusName ticket;
           Processed.isEscalated := RawTicket.isEscalated ticket;
           Processed.createdDate := createdDate;
           Processed.createdDateStr := dateStr;
           Processed.lastConversationTime := RawTicket.lastConversationTime ticket;
           Processed.sopCategory := SopMatch.category sopMatch;
           Processed.tatHours := SopMatch.tat sopMatch;
           Processed.elapsedHours := JS.round1 elapsedHours;
           Processed.remainingHours := JS.round1 remainingHours;
           Processed.urgencyLevel := Urgency.status urgency;
           Processed.urgencyColor := Urgency.color urgency;
           Processed.urgencyIcon := Urgency.icon urgency;
           Processed.ticketURL := kaptureBase +:+ RawTicket.ticketURL ticket;
           Processed.folderColor := RawTicket.folderColor ticket;
           Processed.conversationCount := RawTicket.totalConversationCount ticket |}
  | _ => None
  end.

(** [fetchTickets] (lines 51-106): the state, and the array returned. *)
Definition fetchTickets (now : Z) (response : fetched RawListData.t)
    (s : state) : state * list Processed.t :=
  match response with
  | FetchError _ => (s, [])
  | Response false _ => (s, [])
  | Response true data =>
      match String.eqb (RawListData.status data) "Success",
            RawListData.tickets data with
      | true, Some raw =>
          match mapM (processTicket now) raw with
          | Some processed =>
              ({| tickets := processed;
                  lastFetch := now;
                  store :=
                    {| LocalStore.trackedTickets := Some processed;
                       LocalStore.lastTicketFetch := Some now;
                       LocalStore.notifiedTickets :=
                         LocalStore.notifiedTickets (store s) |} |},
               processed)
          | None => (s, [])
          end
      | _, _ =>
          ({| tickets := []; lastFetch := lastFetch s; store := store s |}, [])
      end
  end.

End Host.

(** The comparator [(a, b) => a.remainingHours - b.remainingHours]. *)
Definition byRemaining (a b : Processed.t) : Q :=
  (Processed.remainingHours a - Processed.remainingHours b)%Q.

(** [getGroupedTickets] (lines 263-290) on [this.tickets]. *)
Definition getGroupedTickets (tickets : list Processed.t)
    : Grouped.t Processed.t :=
  {| Grouped.overdue :=
       Builtins.sortBy byRemaining
         (filter (λ t, Processed.urgencyLevel t = OVERDUE) tickets);
     Grouped.dueSoon :=
       Builtins.sortBy byRemaining
         (filter (λ t, Processed.urgencyLevel t = DUE_SOON) tickets);
     Grouped.onTrack :=
       Builtins.sortBy byRemaining
         (filter (λ t, Processed.urgencyLevel t = ON_TRACK) tickets) |}.

Module Stats.
Record t := {
  total : nat;
  overdue : nat;
  dueSoon : nat;
  onTrack : nat;
  avgElapsedHours : Q
}.
End Stats.

(** [getStats] (lines 295-310) on [this.tickets]. *)
Definition getStats (tickets : list Processed.t) : Stats.t :=
  let total := length tickets in
  {| Stats.total := total;
     Stats.overdue :=
       length (filter (λ t, Processed.urgencyLevel t = OVERDUE) tickets);
     Stats.dueSoon :=
       length (filter (λ t, Processed.urgencyLevel t = DUE_SOON) tickets);
     Stats.onTrack :=
       length (filter (λ t, Processed.urgencyLevel t = ON_TRACK) tickets);
     Stats.avgElapsedHours :=
       if bool_decide (0 < total)%nat
       then JS.round1
              (JS.div
                 (foldl (λ sum t, JS.add sum (Processed.elapsedHours t))
                    0%Q tickets)
                 (inject_Z (Z.of_nat total)))
       else 0%Q |}.

End TicketTrackerMore.

(** ** background.js (service worker), continued *)

Module Worker.

(** [matchSOPCategory] (lines 312-334). *)
Definition matchSOPCategory (subject : string) : SopMatch.t :=
  if String.eqb subject "" then General48 else
  let lower := JS.toLowerCase subject in
  if JS.includes lower "shortage" || JS.includes lower "loss" ||
     JS.includes lower "debit" || JS.includes lower "hardstop"
  then LossesDebits72
  else if JS.includes lower "payment" || JS.includes lower "invoice" ||
          JS.includes lower "payout" || JS.includes lower "gst"
  then (if JS.includes lower "not received" || JS.includes lower "pending"
        then Payments12 else Payments72)
  else if JS.includes lower "cod" || JS.includes lower "deposit" ||
          JS.includes lower "cash"
  then COD24
  else if JS.includes lower "load" || JS.includes lower "volume" ||
          JS.includes lower "manifest"
  then OrdersPlanning12
  else if JS.includes lower "cms" || JS.includes lower "log10" ||
          JS.includes lower "system" || JS.includes lower "tool"
  then TechIssues24
  else General48.

(** Truthiness of a raw date, for the [||] chain and for [!dateValue]. *)
Definition truthy (v : Background.dateValue) : bool :=
  match v with
  | Background.DObject _ => true
  | Background.DString s => negb (String.eqb s "")
  | Background.DNumber n => negb (n =? 0)
  | Background.DOther => true
  end.

Definition fieldTruthy (f : dateField) : bool :=
  match f with
  | Absent => false
  | Present v => truthy v
  end.

(** [a || b]. *)
Definition orElse (a b : dateField) : dateField :=
  if fieldTruthy a then a else b.

Definition fieldValue (f : dateField) : Background.dateValue :=
  match f with
  | Absent => Background.DOther
  | Present v => v
  end.

(** [String(x)] and [String(x + 1)] of a number that may be missing. *)
Definition showOr (missing : string) (x : option Z) : string :=
  match x with
  | Some n => Builtins.toString n
  | None => missing
  end.

(** The text built from six local calendar fields. *)
Definition dateText (year : string) (month date hours minutes seconds : string)
    : string :=
  year +:+ "-" +:+ month +:+ "-" +:+ date +:+ " " +:+ hours +:+ ":"
    +:+ minutes +:+ ":" +:+ seconds.

Section Host.
Variable UTC : Z → Z.
(** [LocalTime t] is the local time of the time value [t]. *)
Variable LocalTime : Z → Z.

(** [formatDateForDisplay] (lines 277-307), on a field of a raw ticket. *)
Definition formatDateForDisplay (f : dateField) : string :=
  if negb (fieldTruthy f) then "" else
  match fieldValue f with
  | Background.DObject o =>
      match Background.year o with
      | Some y =>
          dateText (Builtins.toString (y + 1900))
            (Builtins.padStart2
               (showOr "NaN" ((λ m, m + 1) <$> Background.month o)))
            (Builtins.padStart2 (showOr "undefined" (Background.date o)))
            (Builtins.padStart2
               (Builtins.toString (Background.orZero (Background.hours o))))
            (Builtins.padStart2
               (Builtins.toString (Background.orZero (Background.minutes o))))
            (Builtins.padStart2
               (Builtins.toString (Background.orZero (Background.seconds o))))
      | None => ""
      end
  | Background.DString s => s
  | Background.DNumber n =>
      let timestamp := if n <? 10000000000 then n * 1000 else n in
      let '(year, month, date, hours, minutes, seconds) :=
        JS.calendar (LocalTime timestamp) in
      dateText (Builtins.toString year)
        (Builtins.padStart2 (Builtins.toString month))
        (Builtins.padStart2 (Builtins.toString date))
        (Builtins.padStart2 (Builtins.toString hours))
        (Builtins.padStart2 (Builtins.toString minutes))
        (Builtins.padStart2 (Builtins.toString seconds))
  | Background.DOther => ""
  end.

(** [processTicketBackground] (lines 194-230). *)
Definition processTicketBackground (now : Z) (ticket : RawTicket.t)
    : Processed.t :=
  let dateValue :=
    orElse (RawTicket.date ticket)
      (orElse (RawTicket.createdDate ticket)
         (orElse (RawTicket.created_date ticket) (RawTicket.created_at ticket))) in
  let createdDate :=
    Background.parseKaptureDate UTC now (fieldValue dateValue) in
  let elapsedMs := now - createdDate in
  let elapsedHours := (inject_Z elapsedMs / inject_Z (1000 * 60 * 60))%Q in
  let sopMatch := matchSOPCategory (RawTicket.taskTitle ticket) in
  let remainingHours := JS.sub (SopMatch.tat sopMatch) elapsedHours in
  let urgency := Background.calculateUrgency (SopMatch.tat sopMatch) elapsedHours in
  {| Processed.id := RawTicket.id ticket;
     Processed.ticketId := RawTicket.ticketId ticket;
     Processed.subject := RawTicket.taskTitle ticket;
     Processed.customerEmail := RawTicket.email ticket;
     Processed.status := RawTicket.status ticket;
     Processed.substatus := RawTicket.substatus ticket;
     Processed.substatusName := RawTicket.substatusName ticket;
     Processed.isEscalated := RawTicket.isEscalated ticket;
     Processed.createdDate := createdDate;
     Processed.createdDateStr := formatDateForDisplay dateValue;
     Processed.lastConversationTime := RawTicket.lastConversationTime ticket;
     Processed.sopCategory := SopMatch.category sopMatch;
     Processed.tatHours := SopMatch.tat sopMatch;
     Processed.elapsedHours := JS.round1 elapsedHours;
     Processed.remainingHours := JS.round1 remainingHours;
     Processed.urgencyLevel := Urgency.status urgency;
     Processed.urgencyColor := Urgency.color urgency;
     Processed.urgencyIcon := Urgency.icon urgency;
     Processed.ticketURL := kaptureBase +:+ RawTicket.ticketURL ticket;
     Processed.folderColor := RawTicket.folderColor ticket;
     Processed.conversationCount := RawTicket.totalConversationCount ticket |}.

End Host.

(** The badge of the extension's icon. *)
Record badge := { text : string; backgroundColor : option string }.


Definition isUrgent (t : Processed.t) : Prop :=
  Processed.urgencyLevel t = OVERDUE ∧
  lessThan (Processed.remainingHours t) (-1) = true.

#[global] Instance isUrgent_dec t : Decision (isUrgent t) :=
  decide (Processed.urgencyLevel t = OVERDUE ∧
          lessThan (Processed.remainingHours t) (-1) = true).

(** The [for] loop of [checkUrgentTickets]: push the ids not yet there. *)
Fixpoint notify (urgent : list Processed.t) (notifiedTickets : list string)
    : list string :=
  match urgent with
  | [] => notifiedTickets
  | ticket :: rest =>
      if bool_decide (Processed.ticketId ticket ∈ notifiedTickets)
      then notify rest notifiedTickets
      else notify rest (notifiedTickets ++ [Processed.ticketId ticket])
  end.

(** [checkUrgentTickets] (lines 364-378). *)
Definition checkUrgentTickets (tickets : list Processed.t) (st : LocalStore.t)
    : LocalStore.t :=
  let urgent := filter isUrgent tickets in
  if bool_decide (length urgent = 0)%nat then st else
  let notifiedTickets := default [] (LocalStore.notifiedTickets st) in
  {| LocalStore.trackedTickets := LocalStore.trackedTickets st;
     LocalStore.lastTicketFetch := LocalStore.lastTicketFetch st;
     LocalStore.notifiedTickets := Some (notify urgent notifiedTickets) |}.


(** The worker's variables and what it has written. *)
Record state := {
  lastFetchTime : Z;
  store : LocalStore.t;
  icon : badge
}.


Section Fetch.
Variable UTC : Z → Z.
Variable LocalTime : Z → Z.


End Fetch.
End Worker.


(** ** background.js (service worker): the log of opened tickets *)

Module OpenLog.

Record entry := { url : string; timestamp : Z; date : string }.

Section Host.
(** [new Date(t).toISOString()]; [None] is the RangeError for a time value
    that is no valid date. *)
Variable toISOString : Z → option string.

(** [logTicketOpened] (lines 380-389), from the stored value of the key
    [ticketOpenLogs] to the stored value afterwards.  Where [toISOString]
    throws, nothing is written. *)
Definition logTicketOpened (url : string) (timestamp : Z)
    (stored : option (list entry)) : option (list entry) :=
  match toISOString timestamp with
  | None => stored
  | Some date =>
      let ticketOpenLogs :=
        default [] stored
        ++ [{| url := url; timestamp := timestamp; date := date |}] in
      Some (if bool_decide (1000 < length ticketOpenLogs)%nat
            then drop 1 ticketOpenLogs else ticketOpenLogs)
  end.

End Host.
End OpenLog.

(** ** tat-system/ticket-tracker.js: start and stop *)

Module TrackerSchedule.

Section Host.
Variable UTC : Z → Z.

(** [startTracking] (lines 20-33), run to its end; [intervalId] is not set
    by the constructor. *)
Definition startTracking (now : Z) (response : fetched RawListData.t)
    (s : Scheduler.tracker * Scheduler.timers * TicketTrackerMore.state)
    : Scheduler.tracker * Scheduler.timers * TicketTrackerMore.state :=
  let '(t, tm, st) := s in
  if Scheduler.isTracking t then s else
  let st' := (TicketTrackerMore.fetchTickets UTC now response st).1 in
  let '(id, tm') := Scheduler.setInterval tm in
  ({| Scheduler.isTracking := true; Scheduler.intervalId := Some id |}, tm', st').

End Host.

(** [stopTracking] (lines 38-46). *)
Definition stopTracking (t : Scheduler.tracker) (tm : Scheduler.timers)
    : Scheduler.tracker * Scheduler.timers :=
  if negb (Scheduler.isTracking t) then (t, tm) else
  ({| Scheduler.isTracking := false;
      Scheduler.intervalId := Scheduler.intervalId t |},
   match Scheduler.intervalId t with
   | Some id => Scheduler.clearInterval id tm
   | None => tm
   end).

End TrackerSchedule.

(** ** Notions used to state properties of the functions above *)

(** The timer ids handed out so far are below the next one. *)
Definition timersOk (tm : Scheduler.timers) : Prop :=
  ∀ id, id ∈ Scheduler.running tm → (id < Scheduler.nextId tm)%positive.

(** A scheduler with no timer running. *)
Definition noTimers : Scheduler.timers :=
  {| Scheduler.running := ∅; Scheduler.nextId := 1 |}.

(** A poll cycle that finds the extension context invalidated, and one that
    finds the endpoint unreachable. *)
Definition invalidatedCycle : Scheduler.cycle :=
  {| Scheduler.contextValid := false;
     Scheduler.listResponse := FetchError false;
     Scheduler.obs := λ _,
       {| TATTrackerBackground.response := FetchError false;
          TATTrackerBackground.now := 0;
          TATTrackerBackground.contextValid := false |};
     Scheduler.dash := (false, 0) |}.

Definition offlineCycle : Scheduler.cycle :=
  {| Scheduler.contextValid := true;
     Scheduler.listResponse := FetchError false;
     Scheduler.obs := λ _,
       {| TATTrackerBackground.response := FetchError false;
          TATTrackerBackground.now := 0;
          TATTrackerBackground.contextValid := true |};
     Scheduler.dash := (true, 0) |}.

(** Tickets by the hours they have left. *)
Definition fewerHoursLeft (a b : Processed.t) : Prop :=
  (Processed.remainingHours a <= Processed.remainingHours b)%Q.

(** The keywords that only the classifier of ticket-tracker.js knows. *)
Definition trackerOnlyKeywords : list string :=
  ["shipment"; "pending sign"; "pendency"; "planning"; "bagging"; "inactive"].

(** A ticket of the list response whose [date] is [d]. *)
Definition rawTicket (ticketId subject : string) (d : dateField) : RawTicket.t :=
  {| RawTicket.id := ticketId;
     RawTicket.ticketId := ticketId;
     RawTicket.taskTitle := subject;
     RawTicket.email := "fe@example.in";
     RawTicket.status := "P";
     RawTicket.substatus := "";
     RawTicket.substatusName := "Pending";
     RawTicket.isEscalated := false;
     RawTicket.date := d;
     RawTicket.createdDate := Absent;
     RawTicket.created_date := Absent;
     RawTicket.created_at := Absent;
     RawTicket.lastConversationTime := "";
     RawTicket.ticketURL := "/nui/tickets/1";
     RawTicket.folderColor := "";
     RawTicket.totalConversationCount := 1 |}.

(** [ticket.date] is a string. *)
Definition stringDated (ticket : RawTicket.t) : Prop :=
  ∃ s, RawTicket.date ticket = Present (Background.DString s).

(** A tracker of ticket-tracker.js that holds nothing yet. *)
Definition freshTracker : TicketTrackerMore.state :=
  {| TicketTrackerMore.tickets := [];
     TicketTrackerMore.lastFetch := 0;
     TicketTrackerMore.store :=
       {| LocalStore.trackedTickets := None;
          LocalStore.lastTicketFetch := None;
          LocalStore.notifiedTickets := None |} |}.

(** Whether [text] is [n] written with exactly [width] decimal digits. *)
Definition writes (width : nat) (text : string) (n : Z) : bool :=
  Nat.eqb (String.length text) width &&
  match FixedWidth.decimal 0 text with
  | Some v => v =? n
  | None => false
  end.

Definition yearText (n : Z) : bool := writes 4 (Builtins.toString n) n.

Definition paddedText (n : Z) : bool :=
  writes 2 (Builtins.padStart2 (Builtins.toString n)) n.

(** A worker that has not fetched yet. *)
Definition freshWorker : Worker.state :=
  {| Worker.lastFetchTime := 0;
     Worker.store :=
       {| LocalStore.trackedTickets := None;
          LocalStore.lastTicketFetch := None;
          LocalStore.notifiedTickets := None |};
     Worker.icon := {| Worker.text := ""; Worker.backgroundColor := None |} |}.

(** A ticket created on 12 February 2026 and processed three days later,
    and one processed within the hour. *)
Definition staleTicket : Processed.t :=
  Worker.processTicketBackground IST IST 1771150000000
    (rawTicket "T1" "COD deposit"
       (Present (Background.DString "2026-02-12 05:39:32"))).

Definition recentTicket : Processed.t :=
  Worker.processTicketBackground IST IST 1770856800000
    (rawTicket "T2" "COD deposit"
       (Present (Background.DString "2026-02-12 05:39:32"))).

(** None of the four date fields of the ticket is there. *)
Definition undated (ticket : RawTicket.t) : Prop :=
  RawTicket.date ticket = Absent ∧ RawTicket.createdDate ticket = Absent ∧
  RawTicket.created_date ticket = Absent ∧ RawTicket.created_at ticket = Absent.

(** ** Proof automation *)


(** * Properties *)

(** ** Classifier *)

Section StringFacts.

Lemma append_cons c (s r : string) : String c s +:+ r = String c (s +:+ r).
Proof. reflexivity. Qed.

Lemma append_empty (s : string) : s +:+ "" = s.
Proof.
  induction s as [|c s IH]; [reflexivity|]. by rewrite append_cons, IH.
Qed.





End StringFacts.

Section ClassifierFacts.
Import Classifier.

Lemma background_category_in subject :
  TATTrackerBackground.matchSOPCategory subject ∈ categories.
Proof.
  unfold TATTrackerBackground.matchSOPCategory, categories.
  repeat match goal with
         | |- context [if ?b then _ else _] => destruct b
         end; set_solver.
Qed.




(** Letter case *)


Lemma code_range c : 0 ≤ JS.code c < 256.
Proof.
  unfold JS.code. pose proof (N_ascii_bounded c). lia.
Qed.






(** The two sources against the table *)





End ClassifierFacts.

(** ** Urgency *)

Section UrgencyFacts.
Open Scope Q_scope.

Lemma lessThan_lt a b : lessThan a b = true ↔ a < b.
Proof.
  unfold lessThan. destruct (Qlt_le_dec a b) as [H|H]; split; try done.
  intros H'. exfalso. exact (Qlt_not_le _ _ H' H).
Qed.

Lemma lessThan_ge a b : lessThan a b = false ↔ ¬ a < b.
Proof. rewrite <- lessThan_lt. destruct (lessThan a b); split; congruence. Qed.

Lemma calculateUrgency_copies tatHours elapsedHours :
  TicketTracker.calculateUrgency tatHours elapsedHours
    = TATTrackerBackground.calculateUrgency tatHours elapsedHours ∧
  Background.calculateUrgency tatHours elapsedHours
    = TATTrackerBackground.calculateUrgency tatHours elapsedHours.
Proof. split; reflexivity. Qed.

End UrgencyFacts.




(** C3.  [calculateUrgency] is a total function of its two arguments: with
    remaining = tatHours - elapsedHours and threshold = 0.25 * tatHours, a
    negative remaining gives OVERDUE with sort order 1, a remaining from 0
    up to but excluding the threshold gives DUE_SOON with sort order 2, and
    anything else gives ON_TRACK with sort order 3; the three copies of the
    function agree; (72, 54), where remaining equals the threshold 18, is
    ON_TRACK and (72, 73) is OVERDUE. *)
Theorem calculateUrgency_cases (tatHours elapsedHours : Q) :
  let remaining := (tatHours - elapsedHours)%Q in
  let threshold := (0.25 * tatHours)%Q in
  let u := TATTrackerBackground.calculateUrgency tatHours elapsedHours in
  ((remaining < 0)%Q → Urgency.status u = OVERDUE ∧ Urgency.sortOrder u = 1) ∧
  ((0 <= remaining)%Q → (remaining < threshold)%Q →
   Urgency.status u = DUE_SOON ∧ Urgency.sortOrder u = 2) ∧
  (¬ (remaining < 0)%Q → ¬ (remaining < threshold)%Q →
   Urgency.status u = ON_TRACK ∧ Urgency.sortOrder u = 3) ∧
  (TicketTracker.calculateUrgency tatHours elapsedHours = u ∧
   Background.calculateUrgency tatHours elapsedHours = u) ∧
  (Urgency.status (TATTrackerBackground.calculateUrgency 72 54) = ON_TRACK ∧
   (72 - 54 == 0.25 * 72)%Q) ∧
  Urgency.status (TATTrackerBackground.calculateUrgency 72 73) = OVERDUE.
Proof.
  intros remaining threshold u.
  assert (Hth : (tatHours * 0.25 == threshold)%Q) by apply Qmult_comm.
  assert (Hu : u = if lessThan remaining 0 then urgencyOVERDUE
                   else if lessThan remaining (tatHours * 0.25) then urgencyDUE_SOON
                   else urgencyON_TRACK) by reflexivity.
  split; [|split; [|split; [|split; [|split]]]].
  - intros Hlt. apply lessThan_lt in Hlt. rewrite Hu, Hlt. by split.
  - intros Hge Hlt.
    assert (H0 : lessThan remaining 0 = false).
    { apply lessThan_ge. intros C. exact (Qlt_not_le _ _ C Hge). }
    assert (H1 : lessThan remaining (tatHours * 0.25) = true).
    { apply lessThan_lt. by rewrite Hth. }
    rewrite Hu, H0, H1. by split.
  - intros Hge Hnlt.
    assert (H0 : lessThan remaining 0 = false) by by apply lessThan_ge.
    assert (H1 : lessThan remaining (tatHours * 0.25) = false).
    { apply lessThan_ge. by rewrite Hth. }
    rewrite Hu, H0, H1. by split.
  - by split.
  - by split.
  - reflexivity.
Qed.

(** One input for each of the three cases. *)
Lemma calculateUrgency_cases_witness :
  (Urgency.status (TATTrackerBackground.calculateUrgency 72 73) = OVERDUE ∧
   Urgency.sortOrder (TATTrackerBackground.calculateUrgency 72 73) = 1) ∧
  (Urgency.status (TATTrackerBackground.calculateUrgency 72 60) = DUE_SOON ∧
   Urgency.sortOrder (TATTrackerBackground.calculateUrgency 72 60) = 2) ∧
  (Urgency.status (TATTrackerBackground.calculateUrgency 72 54) = ON_TRACK ∧
   Urgency.sortOrder (TATTrackerBackground.calculateUrgency 72 54) = 3).
Proof.
  split; [|split].
  - destruct (calculateUrgency_cases 72 73) as (H & _).
    apply H. reflexivity.
  - destruct (calculateUrgency_cases 72 60) as (_ & H & _).
    apply H; [intros C; discriminate C | reflexivity].
  - destruct (calculateUrgency_cases 72 54) as (_ & _ & H & _).
    apply H; intros C; discriminate C.
Defined.
(** ** Double-precision rounding *)

Section Rounding.
Import JS.
Open Scope Q_scope.

Lemma pow2_pos e : 0 < pow2 e.
Proof. apply Qpower_0_lt. reflexivity. Qed.

Lemma pow2_plus a b : pow2 (a + b) == pow2 a * pow2 b.
Proof. apply Qpower_plus. discriminate. Qed.

Lemma pow2_le a b : (a <= b)%Z -> pow2 a <= pow2 b.
Proof. intros H. apply Qpower_le_compat_l; [exact H|discriminate]. Qed.

Lemma pow2_lt a b : (a < b)%Z -> pow2 a < pow2 b.
Proof. intros H. apply Qpower_lt_compat_l; [exact H|reflexivity]. Qed.

Lemma pow2_Z n : (0 <= n)%Z -> pow2 n == inject_Z (2 ^ n).
Proof. intros H. unfold pow2. by rewrite Zpower_Qpower. Qed.

Lemma pow2_succ e : pow2 (e + 1) == 2 * pow2 e.
Proof. rewrite pow2_plus. change (pow2 1) with 2. ring. Qed.

Lemma Qdiv_bounds (x n d lo hi : Q) :
  0 < d -> x * d == n -> lo * d <= n -> n < hi * d -> lo <= x /\ x < hi.
Proof. intros Hd Hx Hlo Hhi. split; nra. Qed.

Lemma exponent_spec x :
  0 < x -> pow2 (exponent x) <= x /\ x < pow2 (exponent x + 1).
Proof.
  intros Hx. destruct x as [n d]. unfold exponent. cbn [Qnum Qden].
  assert (Hn : (0 < n)%Z) by (unfold Qlt in Hx; cbn in Hx; lia).
  set (a := Z.log2 n). set (b := Z.log2 (Z.pos d)).
  destruct (Z.log2_spec n Hn) as [Ha1 Ha2]. fold a in Ha1, Ha2.
  destruct (Z.log2_spec (Z.pos d) eq_refl) as [Hb1 Hb2]. fold b in Hb1, Hb2.
  assert (Ha0 : (0 <= a)%Z) by apply Z.log2_nonneg.
  assert (Hb0 : (0 <= b)%Z) by apply Z.log2_nonneg.
  set (N := inject_Z n). set (D := inject_Z (Z.pos d)).
  assert (HxN : (n # d) * D == N).
  { subst N D. unfold Qeq, Qmult, inject_Z. cbn. lia. }
  assert (HD : 0 < D) by (subst D; unfold Qlt, inject_Z; cbn; lia).
  assert (HNa1 : pow2 a <= N).
  { rewrite pow2_Z by exact Ha0. subst N. by rewrite <- Zle_Qle. }
  assert (HNa2 : N < pow2 (a + 1)).
  { rewrite pow2_Z by lia. subst N. rewrite <- Zlt_Qlt.
    by rewrite <- Z.add_1_r in Ha2. }
  assert (HDb1 : pow2 b <= D).
  { rewrite pow2_Z by exact Hb0. subst D. by rewrite <- Zle_Qle. }
  assert (HDb2 : D < pow2 (b + 1)).
  { rewrite pow2_Z by lia. subst D. rewrite <- Zlt_Qlt.
    by rewrite <- Z.add_1_r in Hb2. }
  pose proof (pow2_pos (a - b)) as Hl.
  pose proof (pow2_pos b) as Hb.
  assert (Hab : pow2 (a - b) * pow2 b == pow2 a).
  { rewrite <- pow2_plus. by replace (a - b + b)%Z with a by lia. }
  pose proof (pow2_succ a) as Hsa. pose proof (pow2_succ b) as Hsb.
  pose proof (pow2_succ (a - b)) as Hsl.
  pose proof (pow2_succ (a - b - 1)) as Hsl1.
  replace (a - b - 1 + 1)%Z with (a - b)%Z in Hsl1 by lia.
  destruct (Qle_bool (pow2 (a - b)) (n # d)) eqn:Hle.
  - apply Qle_bool_iff in Hle. split; [exact Hle|].
    apply (Qdiv_bounds (n # d) N D 0 (pow2 (a - b + 1)) HD HxN); nra.
  - assert (Hlt : n # d < pow2 (a - b)).
    { apply Qnot_le_lt. intros C. apply Qle_bool_iff in C. congruence. }
    replace (a - b - 1 + 1)%Z with (a - b)%Z by lia. split; [|exact Hlt].
    apply (Qdiv_bounds (n # d) N D (pow2 (a - b - 1)) (pow2 (a - b + 1)) HD HxN);
      nra.
Qed.

Lemma exponent_unique x e :
  pow2 e <= x -> x < pow2 (e + 1) -> exponent x = e.
Proof.
  intros H1 H2.
  assert (Hx : 0 < x) by (pose proof (pow2_pos e); lra).
  destruct (exponent_spec x Hx) as [H3 H4].
  destruct (Z.lt_trichotomy (exponent x) e) as [Hlt|[Heq|Hgt]]; [|exact Heq|].
  - pose proof (pow2_le (exponent x + 1) e ltac:(lia)). lra.
  - pose proof (pow2_le (e + 1) (exponent x) ltac:(lia)). lra.
Qed.

Lemma exponent_comp x y : 0 < x -> x == y -> exponent x = exponent y.
Proof.
  intros Hx Hxy. symmetry.
  destruct (exponent_spec x Hx) as [H1 H2].
  apply exponent_unique; by rewrite <- Hxy.
Qed.

Lemma exponent_le x y : 0 < x -> x <= y -> (exponent x <= exponent y)%Z.
Proof.
  intros Hx Hxy.
  destruct (exponent_spec x Hx) as [H1 _].
  destruct (exponent_spec y ltac:(lra)) as [_ H2].
  destruct (Z_le_gt_dec (exponent x) (exponent y)) as [H|H]; [exact H|].
  pose proof (pow2_le (exponent y + 1) (exponent x) ltac:(lia)). lra.
Qed.

(** *** The nearest integer *)

Lemma roundEven_comp t t' : t == t' -> roundEven t = roundEven t'.
Proof.
  intros H. unfold roundEven. rewrite (Qfloor_comp _ _ H).
  assert (Hc : (t - inject_Z (Qfloor t') ?= 1 # 2)
               = (t' - inject_Z (Qfloor t') ?= 1 # 2)).
  { apply Qcompare_comp; [by rewrite H|reflexivity]. }
  by rewrite Hc.
Qed.

Lemma roundEven_cases t :
  let f := Qfloor t in
  (roundEven t = f /\ t - inject_Z f <= 1 # 2) \/
  (roundEven t = (f + 1)%Z /\ 1 # 2 <= t - inject_Z f).
Proof.
  intros f. unfold roundEven. fold f.
  destruct (t - inject_Z f ?= 1 # 2) eqn:Hc.
  - apply Qeq_alt in Hc. destruct (Z.even f); [left|right]; split;
      first [reflexivity | lra].
  - apply Qlt_alt in Hc. left. split; [reflexivity|lra].
  - apply Qgt_alt in Hc. right. split; [reflexivity|lra].
Qed.

Lemma Qfloor_frac t : inject_Z (Qfloor t) <= t /\ t < inject_Z (Qfloor t) + 1.
Proof.
  split; [apply Qfloor_le|].
  pose proof (Qlt_floor t) as H. rewrite inject_Z_plus in H. exact H.
Qed.

Lemma roundEven_bounds t :
  t - (1 # 2) <= inject_Z (roundEven t) /\ inject_Z (roundEven t) <= t + (1 # 2).
Proof.
  destruct (Qfloor_frac t) as [H1 H2].
  destruct (roundEven_cases t) as [[-> H]|[-> H]];
    rewrite ?inject_Z_plus; change (inject_Z 1) with 1; split; lra.
Qed.

Lemma roundEven_Z n : roundEven (inject_Z n) = n.
Proof.
  unfold roundEven. rewrite Qfloor_Z.
  assert (Hc : (inject_Z n - inject_Z n ?= 1 # 2) = Lt).
  { apply (proj1 (Qlt_alt _ _)). generalize (inject_Z n). intros q. lra. }
  by rewrite Hc.
Qed.

Lemma roundEven_mono t t' : t <= t' -> (roundEven t <= roundEven t')%Z.
Proof.
  intros Hle.
  pose proof (Qfloor_resp_le _ _ Hle) as Hf.
  destruct (Qfloor_frac t) as [H1 H2]. destruct (Qfloor_frac t') as [H1' H2'].
  destruct (Z.eq_dec (Qfloor t) (Qfloor t')) as [Heq|Hne].
  - unfold roundEven. rewrite <- Heq.
    destruct (t - inject_Z (Qfloor t) ?= 1 # 2) eqn:Hc;
      destruct (t' - inject_Z (Qfloor t) ?= 1 # 2) eqn:Hc';
      first [apply Qeq_alt in Hc | apply Qlt_alt in Hc | apply Qgt_alt in Hc];
      first [apply Qeq_alt in Hc' | apply Qlt_alt in Hc' | apply Qgt_alt in Hc'];
      try (exfalso; lra); cbv iota; destruct (Z.even (Qfloor t)); lia.
  - assert (Hlt : (Qfloor t + 1 <= Qfloor t')%Z) by lia.
    destruct (roundEven_cases t) as [[-> _]|[-> _]];
      destruct (roundEven_cases t') as [[-> _]|[-> _]]; lia.
Qed.

End Rounding.

Section Doubles.
Import JS.
Open Scope Q_scope.

(** *** The nearest double of a positive number *)

Lemma scaled_range x :
  0 < x ->
  let u := (exponent x - 52)%Z in
  (x / pow2 u) * pow2 u == x /\
  inject_Z (2 ^ 52) <= x / pow2 u /\ x / pow2 u < inject_Z (2 ^ 53).
Proof.
  intros Hx u. destruct (exponent_spec x Hx) as [H1 H2].
  pose proof (pow2_pos u) as Hu.
  assert (Ht : (x / pow2 u) * pow2 u == x) by (field; lra).
  split; [exact Ht|].
  assert (He : pow2 (exponent x) == inject_Z (2 ^ 52) * pow2 u).
  { rewrite <- (pow2_Z 52) by lia. rewrite <- pow2_plus.
    subst u. by replace (52 + (exponent x - 52))%Z with (exponent x) by lia. }
  assert (He' : pow2 (exponent x + 1) == inject_Z (2 ^ 53) * pow2 u).
  { rewrite <- (pow2_Z 53) by lia. rewrite <- pow2_plus.
    subst u. by replace (53 + (exponent x - 52))%Z with (exponent x + 1)%Z by lia. }
  set (t := x / pow2 u) in *. split; nra.
Qed.

Lemma significand_range x :
  0 < x ->
  (2 ^ 52 <= roundEven (x / pow2 (exponent x - 52)) <= 2 ^ 53)%Z.
Proof.
  intros Hx. destruct (scaled_range x Hx) as (_ & Hlo & Hhi). split.
  - rewrite <- (roundEven_Z (2 ^ 52)). by apply roundEven_mono.
  - rewrite <- (roundEven_Z (2 ^ 53)). apply roundEven_mono. lra.
Qed.

Lemma flPos_bounds x :
  0 < x ->
  pow2 (exponent x) <= flPos x /\ flPos x <= pow2 (exponent x + 1).
Proof.
  intros Hx. unfold flPos.
  destruct (significand_range x Hx) as [Hlo Hhi].
  set (u := (exponent x - 52)%Z) in *.
  set (m := roundEven (x / pow2 u)) in *.
  pose proof (pow2_pos u) as Hu.
  assert (He : pow2 (exponent x) == inject_Z (2 ^ 52) * pow2 u).
  { rewrite <- (pow2_Z 52) by lia. rewrite <- pow2_plus.
    subst u. by replace (52 + (exponent x - 52))%Z with (exponent x) by lia. }
  assert (He' : pow2 (exponent x + 1) == inject_Z (2 ^ 53) * pow2 u).
  { rewrite <- (pow2_Z 53) by lia. rewrite <- pow2_plus.
    subst u. by replace (53 + (exponent x - 52))%Z with (exponent x + 1)%Z by lia. }
  rewrite Zle_Qle in Hlo, Hhi. rewrite He, He'. split; nra.
Qed.

Lemma flPos_comp x y : 0 < x -> x == y -> flPos x == flPos y.
Proof.
  intros Hx Hxy. unfold flPos. rewrite <- (exponent_comp x y Hx Hxy).
  rewrite (roundEven_comp (x / pow2 (exponent x - 52))
             (y / pow2 (exponent x - 52))); [reflexivity|].
  apply Qdiv_comp; [exact Hxy|reflexivity].
Qed.

Lemma flPos_mono x y : 0 < x -> x <= y -> flPos x <= flPos y.
Proof.
  intros Hx Hxy. assert (Hy : 0 < y) by lra.
  pose proof (exponent_le x y Hx Hxy) as He.
  destruct (Z.eq_dec (exponent x) (exponent y)) as [Heq|Hne].
  - unfold flPos. rewrite <- Heq.
    set (u := (exponent x - 52)%Z). pose proof (pow2_pos u) as Hu.
    assert (Ht : x / pow2 u <= y / pow2 u).
    { apply Qmult_le_r with (z := pow2 u); [exact Hu|].
      assert (H1 : x / pow2 u * pow2 u == x) by (field; lra).
      assert (H2 : y / pow2 u * pow2 u == y) by (field; lra).
      by rewrite H1, H2. }
    pose proof (roundEven_mono _ _ Ht) as Hm. rewrite Zle_Qle in Hm.
    nra.
  - destruct (flPos_bounds x Hx) as [_ H1].
    destruct (flPos_bounds y Hy) as [H2 _].
    pose proof (pow2_le (exponent x + 1) (exponent y) ltac:(lia)). lra.
Qed.

Lemma flPos_error x :
  0 < x -> x * (1 - pow2 (-53)) <= flPos x /\ flPos x <= x * (1 + pow2 (-53)).
Proof.
  intros Hx. destruct (exponent_spec x Hx) as [He _].
  destruct (scaled_range x Hx) as (Ht & _ & _). unfold flPos.
  set (u := (exponent x - 52)%Z) in *. set (t := x / pow2 u) in *.
  destruct (roundEven_bounds t) as [Hlo Hhi].
  set (m := inject_Z (roundEven t)) in *.
  pose proof (pow2_pos u) as Hu.
  assert (Hhalf : pow2 u * (1 # 2) <= x * pow2 (-53)).
  { assert (H53 : pow2 (exponent x) * pow2 (-53) == pow2 u * (1 # 2)).
    { rewrite <- pow2_plus.
      replace (exponent x + -53)%Z with (u + -1)%Z by (subst u; lia).
      rewrite pow2_plus. reflexivity. }
    rewrite <- H53. pose proof (pow2_pos (-53)). nra. }
  split; nra.
Qed.

(** *** The nearest double *)

Lemma fl_comp x y : x == y -> fl x = fl y.
Proof.
  intros Hxy. unfold fl. apply Qred_complete.
  rewrite (Qcompare_comp x y Hxy 0 0 ltac:(reflexivity)).
  destruct (y ?= 0) eqn:Hc; [reflexivity| |].
  - apply Qlt_alt in Hc. apply Qopp_comp.
    apply flPos_comp; [lra|by rewrite Hxy].
  - apply Qgt_alt in Hc. apply flPos_comp; [lra|exact Hxy].
Qed.

Lemma fl_0 : fl 0 = 0.
Proof. reflexivity. Qed.

Lemma fl_pos x : 0 < x -> fl x == flPos x.
Proof.
  intros Hx. unfold fl. rewrite Qred_correct.
  assert (Hc : (x ?= 0) = Gt) by (apply Qgt_alt; exact Hx).
  by rewrite Hc.
Qed.

Lemma fl_neg x : x < 0 -> fl x == - flPos (- x).
Proof.
  intros Hx. unfold fl. rewrite Qred_correct.
  assert (Hc : (x ?= 0) = Lt) by (apply Qlt_alt; exact Hx).
  by rewrite Hc.
Qed.

Lemma fl_zero x : x == 0 -> fl x = 0.
Proof. intros Hx. by rewrite (fl_comp x 0 Hx). Qed.

Lemma flPos_pos x : 0 < x -> 0 < flPos x.
Proof.
  intros Hx. destruct (flPos_bounds x Hx) as [H _].
  pose proof (pow2_pos (exponent x)). lra.
Qed.

Lemma fl_opp x : fl (- x) == - fl x.
Proof.
  destruct (Q_dec x 0) as [[Hlt|Hgt]|Heq].
  - rewrite (fl_pos (- x)) by lra. rewrite (fl_neg x) by lra. ring.
  - rewrite (fl_neg (- x)) by lra. rewrite (fl_pos x) by lra.
    rewrite (flPos_comp (- - x) x); [reflexivity|lra|ring].
  - rewrite (fl_zero x Heq). rewrite (fl_zero (- x)); [reflexivity|lra].
Qed.

Lemma fl_mono x y : x <= y -> fl x <= fl y.
Proof.
  intros Hxy.
  destruct (Q_dec x 0) as [[Hx|Hx]|Hx]; destruct (Q_dec y 0) as [[Hy|Hy]|Hy];
    try (exfalso; lra).
  - rewrite (fl_neg x Hx), (fl_neg y Hy).
    pose proof (flPos_mono (- y) (- x) ltac:(lra) ltac:(lra)). lra.
  - rewrite (fl_neg x Hx), (fl_pos y Hy).
    pose proof (flPos_pos (- x) ltac:(lra)). pose proof (flPos_pos y Hy). lra.
  - rewrite (fl_neg x Hx), (fl_zero y Hy).
    pose proof (flPos_pos (- x) ltac:(lra)). lra.
  - rewrite (fl_pos x Hx), (fl_pos y Hy). by apply flPos_mono.
  - rewrite (fl_zero x Hx), (fl_pos y Hy).
    pose proof (flPos_pos y Hy). lra.
  - by rewrite (fl_zero x Hx), (fl_zero y Hy).
Qed.

Lemma fl_nonneg x : 0 <= x -> 0 <= fl x.
Proof. intros Hx. change 0 with (fl 0) at 1. by apply fl_mono. Qed.

Lemma fl_error x :
  0 <= x -> x * (1 - pow2 (-53)) <= fl x /\ fl x <= x * (1 + pow2 (-53)).
Proof.
  intros Hx. destruct (Qle_lt_or_eq _ _ Hx) as [Hpos|Hz].
  - rewrite (fl_pos x Hpos). by apply flPos_error.
  - rewrite (fl_zero x) by (by symmetry). rewrite <- Hz. split; lra.
Qed.

(** Numbers whose scaled significand is an integer are doubles. *)
Lemma fl_exact x k :
  0 < x -> x / pow2 (exponent x - 52) == inject_Z k -> fl x == x.
Proof.
  intros Hx Hk. rewrite (fl_pos x Hx). unfold flPos.
  rewrite (roundEven_comp _ _ Hk), roundEven_Z, <- Hk.
  field. pose proof (pow2_pos (exponent x - 52)). lra.
Qed.

Lemma exponent_Z n : (0 < n)%Z -> exponent (inject_Z n) = Z.log2 n.
Proof.
  intros Hn. destruct (Z.log2_spec n Hn) as [H1 H2].
  pose proof (Z.log2_nonneg n) as H0.
  apply exponent_unique.
  - rewrite pow2_Z by exact H0. by rewrite <- Zle_Qle.
  - rewrite pow2_Z by lia. rewrite <- Zlt_Qlt. by rewrite <- Z.add_1_r in H2.
Qed.

(** The integers up to [2^53] are doubles. *)
Lemma fl_Z n : (Z.abs n <= 2 ^ 53)%Z -> fl (inject_Z n) == inject_Z n.
Proof.
  assert (Hpos : forall m, (0 < m <= 2 ^ 53)%Z -> fl (inject_Z m) == inject_Z m).
  { intros m [Hm0 Hm].
    destruct (Z.eq_dec m (2 ^ 53)%Z) as [->|Hne]; [reflexivity|].
    assert (Hlog : (Z.log2 m < 53)%Z) by (apply Z.log2_lt_pow2; lia).
    pose proof (Z.log2_nonneg m) as Hlog0.
    assert (HmQ : 0 < inject_Z m) by (rewrite <- (Zlt_Qlt 0); exact Hm0).
    apply (fl_exact _ (m * 2 ^ (52 - Z.log2 m)) HmQ).
    rewrite (exponent_Z m Hm0).
    rewrite inject_Z_mult, <- (pow2_Z (52 - Z.log2 m)) by lia.
    pose proof (pow2_pos (Z.log2 m - 52)) as Hu.
    assert (Hinv : pow2 (52 - Z.log2 m) * pow2 (Z.log2 m - 52) == 1).
    { rewrite <- pow2_plus.
      by replace (52 - Z.log2 m + (Z.log2 m - 52))%Z with 0%Z by lia. }
    apply Qmult_inj_r with (z := pow2 (Z.log2 m - 52)); [lra|].
    assert (H1 : inject_Z m / pow2 (Z.log2 m - 52) * pow2 (Z.log2 m - 52)
                 == inject_Z m) by (field; lra).
    rewrite H1. rewrite <- Qmult_assoc, Hinv. ring. }
  intros Hn. destruct (Z.lt_trichotomy n 0) as [Hlt|[->|Hgt]].
  - assert (Hn' : inject_Z n == - inject_Z (- n)).
    { rewrite inject_Z_opp. ring. }
    rewrite (fl_comp _ _ Hn'), fl_opp, (Hpos (- n)%Z) by lia.
    rewrite inject_Z_opp. ring.
  - reflexivity.
  - apply Hpos. lia.
Qed.

Lemma flPos_double x : 0 < x -> fl (flPos x) == flPos x.
Proof.
  intros Hx. pose proof (significand_range x Hx) as [Hlo Hhi].
  pose proof (flPos_pos x Hx) as Hpos. unfold flPos in *.
  set (e := exponent x) in *. set (u := (e - 52)%Z) in *.
  set (m := roundEven (x / pow2 u)) in *.
  pose proof (pow2_pos u) as Hu.
  assert (He : pow2 e == inject_Z (2 ^ 52) * pow2 u).
  { replace e with (52 + u)%Z by (unfold u; lia).
    rewrite pow2_plus, (pow2_Z 52) by lia. reflexivity. }
  assert (He1 : pow2 (e + 1) == inject_Z (2 ^ 53) * pow2 u).
  { rewrite pow2_succ, He. change (2 ^ 53)%Z with (2 * 2 ^ 52)%Z.
    rewrite inject_Z_mult. change (inject_Z 2) with 2. ring. }
  assert (Hmlo : inject_Z (2 ^ 52) <= inject_Z m) by (by rewrite <- Zle_Qle).
  destruct (Z.eq_dec m (2 ^ 53)%Z) as [Hm|Hm].
  - assert (Hy : inject_Z m * pow2 u == pow2 (e + 1)) by (by rewrite He1, Hm).
    assert (Hex : exponent (inject_Z m * pow2 u) = (e + 1)%Z).
    { apply exponent_unique; rewrite Hy; [lra|].
      apply pow2_lt. lia. }
    apply (fl_exact _ (2 ^ 52)%Z); [exact Hpos|]. rewrite Hex.
    replace (e + 1 - 52)%Z with (u + 1)%Z by (unfold u; lia).
    rewrite pow2_succ, Hm. change (2 ^ 53)%Z with (2 * 2 ^ 52)%Z.
    rewrite inject_Z_mult. change (inject_Z 2) with 2. field. lra.
  - assert (Hmhi : inject_Z m <= inject_Z (2 ^ 53 - 1)%Z)
      by (rewrite <- Zle_Qle; lia).
    assert (Hex : exponent (inject_Z m * pow2 u) = e).
    { apply exponent_unique.
      - rewrite He. nra.
      - rewrite He1.
        assert (Hlt : inject_Z m < inject_Z (2 ^ 53)).
        { rewrite <- Zlt_Qlt. lia. }
        nra. }
    apply (fl_exact _ m); [exact Hpos|]. rewrite Hex. fold u. field. lra.
Qed.

(** A double is its own nearest double. *)
Lemma fl_idemp x : fl (fl x) = fl x.
Proof.
  assert (Hq : forall y, Qred (fl y) = fl y).
  { intros y. unfold fl. apply Qred_complete, Qred_correct. }
  assert (He : fl (fl x) == fl x).
  { destruct (Q_dec x 0) as [[Hlt|Hgt]|Heq].
    - assert (Hn : 0 < - x) by lra.
      rewrite (fl_comp (fl x) (- flPos (- x)) (fl_neg x Hlt)).
      rewrite fl_opp, (flPos_double (- x) Hn). symmetry. by apply fl_neg.
    - rewrite (fl_comp (fl x) (flPos x) (fl_pos x Hgt)).
      rewrite (flPos_double x Hgt). symmetry. by apply fl_pos.
    - rewrite (fl_zero x Heq). by rewrite fl_0. }
  etrans; [symmetry; apply Hq|]. etrans; [|apply Hq].
  apply Qred_complete, He.
Qed.

End Doubles.

(** ** Date normaliser *)

Lemma skip_skip a b s : skip a (skip b s) = skip (b + a) s.
Proof.
  revert s. induction b as [|b IH]; intros s; [reflexivity|].
  destruct s as [|c s]; cbn [skip Nat.add]; [by destruct a | apply IH].
Qed.

Lemma substring_skip k a w s :
  String.substring a w (skip k s) = String.substring (k + a) w s.
Proof.
  revert s. induction k as [|k IH]; intros s; [reflexivity|].
  destruct s as [|c s]; cbn [skip Nat.add String.substring]; [|apply IH].
  by destruct a, w.
Qed.

Lemma get_skip k a s : String.get a (skip k s) = String.get (k + a) s.
Proof.
  revert s. induction k as [|k IH]; intros s; [reflexivity|].
  destruct s as [|c s]; cbn [skip Nat.add String.get]; [|apply IH].
  by destruct a.
Qed.

Lemma field_skip k a w s :
  FixedWidth.field (skip k s) a w = FixedWidth.field s (k + a) w.
Proof. unfold FixedWidth.field. by rewrite substring_skip. Qed.

Lemma separator_skip k a c s :
  FixedWidth.separator (skip k s) a c = FixedWidth.separator s (k + a) c.
Proof. unfold FixedWidth.separator. by rewrite get_skip. Qed.

Lemma digits_decimal n acc s :
  JS.digits n acc s =
  (v ← (if Nat.eqb (String.length (String.substring 0 n s)) n
        then FixedWidth.decimal acc (String.substring 0 n s) else None);
   Some (v, skip n s)).
Proof.
  revert acc s. induction n as [|n IH]; intros acc s.
  - by destruct s.
  - destruct s as [|c s]; [reflexivity|].
    cbn [JS.digits String.substring String.length Nat.eqb FixedWidth.decimal skip].
    destruct (JS.isDigit c); [apply IH|].
    by destruct (Nat.eqb _ _).
Qed.

Lemma digits_field n s :
  JS.digits n 0 s = (v ← FixedWidth.field s 0 n; Some (v, skip n s)).
Proof. apply digits_decimal. Qed.

Lemma lit_separator c s :
  JS.lit c s = (_ ← FixedWidth.separator s 0 c; Some (skip 1 s)).
Proof.
  destruct s as [|d s]; [reflexivity|].
  unfold JS.lit, FixedWidth.separator. cbn [String.get skip].
  by destruct (Ascii.eqb c d).
Qed.

(** The regular expression, tried at a position, reads its six groups at
    the fixed offsets 0, 5, 8, 11, 14 and 17. *)
Lemma kaptureDateAt_fixed_width s : kaptureDateAt s = FixedWidth.fields s.
Proof.
  unfold kaptureDateAt, FixedWidth.fields.
  repeat first
    [ rewrite digits_field, ?field_skip; cbn [Nat.add];
      match goal with
      | |- context [FixedWidth.field s ?a ?w] =>
          destruct (FixedWidth.field s a w); cbn [mbind option_bind];
          [|reflexivity]
      end
    | rewrite lit_separator, ?separator_skip; cbn [Nat.add];
      match goal with
      | |- context [FixedWidth.separator s ?a ?c] =>
          destruct (FixedWidth.separator s a c) as [[]|]; cbn [mbind option_bind];
          [|reflexivity]
      end
    | rewrite skip_skip; cbn [Nat.add] ].
  reflexivity.
Qed.

Lemma yearRoundTrips_1970_2099 : forallb yearRoundTrips (seqZ 1970 130) = true.
Proof. vm_compute. reflexivity. Qed.

Lemma forallb_seqZ (f : Z → bool) (a n x : Z) :
  forallb f (seqZ a n) = true → a ≤ x < a + n → f x = true.
Proof.
  intros H Hx. rewrite forallb_forall in H. apply H.
  apply list_elem_of_In, elem_of_seqZ. exact Hx.
Qed.

Lemma civilFromDays_daysFromCivil y m d :
  1970 ≤ y ≤ 2099 → 1 ≤ m ≤ 12 → 1 ≤ d ≤ daysInMonth y m →
  JS.civilFromDays (JS.daysFromCivil y m d) = (y, m, d).
Proof.
  intros Hy Hm Hd.
  pose proof (forallb_seqZ yearRoundTrips 1970 130 y
                yearRoundTrips_1970_2099 ltac:(lia)) as H.
  pose proof (forallb_seqZ (monthRoundTrips y) 1 12 m H ltac:(lia)) as H'.
  pose proof (forallb_seqZ (roundTrips y m) 1 (daysInMonth y m) d H'
                ltac:(lia)) as H''.
  unfold roundTrips in H''.
  destruct (JS.civilFromDays _) as [[y' m'] d'].
  apply andb_prop in H'' as [H0 H3]. apply andb_prop in H0 as [H1 H2].
  apply Z.eqb_eq in H1, H2, H3. by subst.
Qed.

Lemma calendar_MakeDate day h mi s :
  0 ≤ h < 24 → 0 ≤ mi < 60 → 0 ≤ s < 60 →
  JS.calendar (JS.MakeDate day (JS.MakeTime h mi s 0)) =
  (let '(y, m, d) := JS.civilFromDays day in (y, m, d, h, mi, s)).
Proof.
  intros Hh Hmi Hs.
  unfold JS.calendar, JS.MakeDate, JS.MakeTime, JS.msPerDay, JS.msPerHour,
    JS.msPerMinute, JS.msPerSecond.
  set (t := h * 3600000 + mi * 60000 + s * 1000 + 0).
  assert (Ht : 0 ≤ t < 86400000) by (unfold t; lia).
  assert (Hday : (day * 86400000 + t) / 86400000 = day).
  { rewrite Z.add_comm, Z.div_add by lia. rewrite Z.div_small by lia. lia. }
  assert (Htod : (day * 86400000 + t) mod 86400000 = t).
  { rewrite Z.add_comm, Z.mod_add by lia. apply Z.mod_small. lia. }
  rewrite Hday, Htod. destruct (JS.civilFromDays day) as [[y m] d].
  assert (H1 : t / 3600000 = h).
  { unfold t. symmetry. apply (Z.div_unique _ _ _ (mi * 60000 + s * 1000)); lia. }
  assert (H2 : (t / 60000) mod 60 = mi).
  { assert (t / 60000 = h * 60 + mi) as ->.
    { unfold t. symmetry. apply (Z.div_unique _ _ _ (s * 1000)); lia. }
    rewrite Z.add_comm, Z.mod_add by lia. apply Z.mod_small. lia. }
  assert (H3 : (t / 1000) mod 60 = s).
  { assert (t / 1000 = (h * 60 + mi) * 60 + s) as ->.
    { unfold t. symmetry. apply (Z.div_unique _ _ _ 0); lia. }
    rewrite Z.add_comm, Z.mod_add by lia. apply Z.mod_small. lia. }
  by rewrite H1, H2, H3.
Qed.

Lemma MakeDay_daysFromCivil yr m d :
  0 ≤ m ≤ 11 → JS.MakeDay yr m d = JS.daysFromCivil yr (m + 1) d.
Proof.
  intros Hm. unfold JS.MakeDay.
  rewrite (Z.div_small m 12), (Z.mod_small m 12), Z.add_0_r by lia.
  unfold JS.daysFromCivil. lia.
Qed.

(** The instant built from in-range calendar fields reads back as those
    fields (years 1970 to 2099). *)
Lemma newDate_calendar UTC yr m d h mi s :
  1970 ≤ yr ≤ 2099 → 0 ≤ m ≤ 11 → 1 ≤ d ≤ daysInMonth yr (m + 1) →
  0 ≤ h < 24 → 0 ≤ mi < 60 → 0 ≤ s < 60 →
  ∃ local, JS.newDate UTC yr m d h mi s = UTC local ∧
           JS.calendar local = (yr, m + 1, d, h, mi, s).
Proof.
  intros Hy Hm Hd Hh Hmi Hs. unfold JS.newDate.
  replace ((0 <=? yr) && (yr <=? 99)) with false
    by (symmetry; apply andb_false_iff; right; apply Z.leb_gt; lia).
  eexists. split; [reflexivity|].
  rewrite calendar_MakeDate, MakeDay_daysFromCivil by lia.
  by rewrite civilFromDays_daysFromCivil by lia.
Qed.

Lemma parseKaptureDate_not_legacy UTC now o :
  ¬ legacy o →
  Background.parseKaptureDate UTC now (Background.DObject o) =
  match Background.timestamp o with
  | Some ts => if ts =? 0 then now
               else if ts <? 10000000000 then ts * 1000 else ts
  | None => now
  end.
Proof.
  unfold legacy. intros H. cbn [Background.parseKaptureDate].
  destruct (Background.year o), (Background.month o), (Background.date o);
    try reflexivity.
  exfalso. apply H. eauto.
Qed.

(** C4.  [parseKaptureDate] is a total function of the raw value, and its
    cases are the specified ones.  An object with the keys year, month and
    date is decoded with year + 1900 and the month taken zero-based, so the
    object 126, 1, 2, 14, 13, 27 is the local calendar instant 2026-02-02
    14:13:27, and so for every such object with fields in range, for the
    years 1970 to 2099.  A number below 10,000,000,000 is multiplied by 1000 and any
    other number is returned as it is, for a raw number and for the
    timestamp of an object alike.  A string is searched for the date pattern
    and its six fields are read at fixed offsets from the match.  Everything
    else gives [now]: a string without a match, an object of neither kind,
    and a value of any other type.  The string-only [parseDate] of the
    history tracker and [parseKaptureDate] of the ticket tracker are the
    string case of the normaliser. *)
Theorem parseKaptureDate_cases (UTC : Z → Z) (now : Z) :
  let parse := Background.parseKaptureDate UTC now in
  (∀ o y m d,
     Background.year o = Some y → Background.month o = Some m →
     Background.date o = Some d →
     parse (Background.DObject o) =
     JS.newDate UTC (y + 1900) m d (Background.orZero (Background.hours o))
       (Background.orZero (Background.minutes o))
       (Background.orZero (Background.seconds o))) ∧
  (∃ local, parse (Background.DObject legacyExample) = UTC local ∧
            JS.calendar local = (2026, 2, 2, 14, 13, 27)) ∧
  (∀ o y m d,
     Background.year o = Some y → Background.month o = Some m →
     Background.date o = Some d →
     70 ≤ y ≤ 199 → 0 ≤ m ≤ 11 → 1 ≤ d ≤ daysInMonth (y + 1900) (m + 1) →
     0 ≤ Background.orZero (Background.hours o) < 24 →
     0 ≤ Background.orZero (Background.minutes o) < 60 →
     0 ≤ Background.orZero (Background.seconds o) < 60 →
     ∃ local, parse (Background.DObject o) = UTC local ∧
              JS.calendar local =
              (y + 1900, m + 1, d, Background.orZero (Background.hours o),
               Background.orZero (Background.minutes o),
               Background.orZero (Background.seconds o))) ∧
  (∀ n, n < 10000000000 → parse (Background.DNumber n) = n * 1000) ∧
  (∀ n, 10000000000 <= n → parse (Background.DNumber n) = n) ∧
  (parse (Background.DNumber 1700000000) = 1700000000000 ∧
   parse (Background.DNumber 1700000000000) = 1700000000000) ∧
  (∀ o ts, ¬ legacy o → Background.timestamp o = Some ts → ts ≠ 0 →
     parse (Background.DObject o) = parse (Background.DNumber ts)) ∧
  (∀ s year month day hour min sec,
     matchKaptureDate s = Some (year, month, day, hour, min, sec) →
     parse (Background.DString s) =
     JS.newDate UTC year (month - 1) day hour min sec) ∧
  (∀ s, kaptureDateAt s = FixedWidth.fields s) ∧
  parse (Background.DString "2026-02-02 14:13:27") =
    parse (Background.DObject legacyExample) ∧
  (∀ s, matchKaptureDate s = None → parse (Background.DString s) = now) ∧
  (∀ o, ¬ legacy o →
     Background.timestamp o = None ∨ Background.timestamp o = Some 0 →
     parse (Background.DObject o) = now) ∧
  parse Background.DOther = now ∧
  (∀ s, TATTrackerBackground.parseDate UTC now s = parse (Background.DString s) ∧
        TicketTracker.parseKaptureDate UTC now s = parse (Background.DString s)).
Proof.
  intros parse. subst parse.
  split; [|split; [|split; [|split; [|split; [|split; [|split; [|split;
    [|split; [|split; [|split; [|split; [|split]]]]]]]]]]]].
  - intros o y m d Hy Hm Hd. cbn [Background.parseKaptureDate].
    by rewrite Hy, Hm, Hd.
  - eexists. split; [reflexivity|]. reflexivity.
  - intros o y m d Hy Hm Hd Hyr Hmr Hdr Hh Hmi Hs.
    cbn [Background.parseKaptureDate]. rewrite Hy, Hm, Hd.
    apply newDate_calendar; lia.
  - intros n Hn. cbn [Background.parseKaptureDate].
    by rewrite (proj2 (Z.ltb_lt _ _) Hn).
  - intros n Hn. cbn [Background.parseKaptureDate].
    by rewrite (proj2 (Z.ltb_ge _ _) Hn).
  - by split.
  - intros o ts Hl Hts Hnz. rewrite parseKaptureDate_not_legacy, Hts by done.
    by rewrite (proj2 (Z.eqb_neq _ _) Hnz).
  - intros s year month day hour min sec Hs. cbn [Background.parseKaptureDate].
    by rewrite Hs.
  - apply kaptureDateAt_fixed_width.
  - reflexivity.
  - intros s Hs. cbn [Background.parseKaptureDate]. by rewrite Hs.
  - intros o Hl [Hts|Hts]; by rewrite parseKaptureDate_not_legacy, Hts.
  - reflexivity.
  - intros s. by split.
Qed.

(** The hypotheses of the date cases at concrete raw values, in Indian
    Standard Time. *)
Lemma parseKaptureDate_cases_witness :
  let parse := Background.parseKaptureDate IST 5 in
  parse (Background.DObject legacyExample) = 1770021807000 ∧
  (∃ local, parse (Background.DObject legacyExample) = IST local ∧
            JS.calendar local = (126 + 1900, 1 + 1, 2, 14, 13, 27)) ∧
  parse (Background.DNumber 1700000000) = 1700000000000 ∧
  parse (Background.DNumber 1700000000000) = 1700000000000 ∧
  parse (Background.DObject epochObject) = 1700000000000 ∧
  parse (Background.DString "on 2026-02-02 14:13:27") = 1770021807000 ∧
  parse (Background.DString "02/02/2026") = 5 ∧
  parse (Background.DObject unknownObject) = 5.
Proof.
  intros parse.
  destruct (parseKaptureDate_cases IST 5)
    as (H1 & _ & H2 & H3 & H4 & _ & H6 & H7 & _ & _ & H10 & H11 & _).
  split; [|split; [|split; [|split; [|split; [|split; [|split]]]]]].
  - exact (H1 legacyExample 126 1 2 eq_refl eq_refl eq_refl).
  - apply (H2 legacyExample 126 1 2); try reflexivity;
      vm_compute; split; first [discriminate | reflexivity].
  - apply (H3 1700000000). lia.
  - apply (H4 1700000000000). lia.
  - apply (H6 epochObject 1700000000); [|reflexivity|lia].
    intros (H & _). by destruct H.
  - exact (H7 "on 2026-02-02 14:13:27" 2026 2 2 14 13 27 eq_refl).
  - exact (H10 "02/02/2026" eq_refl).
  - apply (H11 unknownObject); [|by left]. intros (_ & H & _). by destruct H.
Defined.

(** ** Disposition log *)

Lemma getHistory_setHistory l st : Storage.getHistory (Storage.setHistory l st) = l.
Proof. reflexivity. Qed.

Lemma getHistory_storeHistoricalRecord record st :
  Storage.getHistory (TATAnalytics.storeHistoricalRecord record st) =
  if bool_decide (1000 ≤ length (Storage.getHistory st))%nat
  then tail (Storage.getHistory st) ++ [record]
  else Storage.getHistory st ++ [record].
Proof.
  unfold TATAnalytics.storeHistoricalRecord. rewrite getHistory_setHistory.
  rewrite length_app. cbn [length].
  destruct (Storage.getHistory st) as [|r l].
  - cbn. reflexivity.
  - repeat case_bool_decide; try lia; reflexivity.
Qed.

Lemma getHistory_storeTicketRecord contextValid r st :
  Storage.getHistory (TATTrackerBackground.storeTicketRecord contextValid r st)
  = Storage.getHistory st.
Proof.
  unfold TATTrackerBackground.storeTicketRecord. by destruct contextValid.
Qed.

Lemma getHistory_processTicketHistory UTC ticket o st :
  Storage.getHistory (TATTrackerBackground.processTicketHistory UTC ticket o st)
  = Storage.getHistory st.
Proof.
  unfold TATTrackerBackground.processTicketHistory.
  destruct (TATTrackerBackground.response o) as [?|[] data]; try reflexivity.
  destruct (String.eqb _ _), (HistoryData.history data) as [history|];
    try reflexivity.
  destruct (TATTrackerBackground.findLatestAssignment history); [|reflexivity].
  apply getHistory_storeTicketRecord.
Qed.

Lemma getHistory_updateDashboard contextValid now st :
  Storage.getHistory (TATTrackerBackground.updateDashboard contextValid now st).1
  = Storage.getHistory st.
Proof.
  unfold TATTrackerBackground.updateDashboard. by destruct contextValid.
Qed.

Lemma storeHistoricalRecord_shape record st :
  ∃ k, (k ≤ 1)%nat ∧
    Storage.getHistory (TATAnalytics.storeHistoricalRecord record st) =
    drop k (Storage.getHistory st) ++ [record].
Proof.
  rewrite getHistory_storeHistoricalRecord. case_bool_decide.
  - exists 1%nat. split; [lia|]. by destruct (Storage.getHistory st).
  - exists 0%nat. split; [lia|]. reflexivity.
Qed.

(** C7.  The disposition log is bounded and append-only.  Storing a record
    in a log that holds 1000 records drops exactly the first, oldest one
    and puts the new record last; below 1000 nothing is dropped; a log of
    at most 1000 records stays so.  Whatever the operation on the storage,
    the log afterwards is the log before without at most one record at the
    front and with at most one record added at the end, so a record that
    was appended is never changed. *)
Theorem disposition_log_append_only (record : DispositionRecord.t)
    (st : Storage.t) :
  let log := Storage.getHistory st in
  let log' := Storage.getHistory (TATAnalytics.storeHistoricalRecord record st) in
  (length log = TATAnalytics.capacity →
   log' = tail log ++ [record] ∧ length log' = TATAnalytics.capacity) ∧
  ((length log < TATAnalytics.capacity)%nat → log' = log ++ [record]) ∧
  ((length log ≤ TATAnalytics.capacity)%nat →
   (length log' ≤ TATAnalytics.capacity)%nat) ∧
  (∀ UTC op, ∃ k new, (k ≤ 1)%nat ∧ (length new ≤ 1)%nat ∧
     Storage.getHistory (run UTC op st) = drop k log ++ new).
Proof.
  intros log log'. subst log'. unfold TATAnalytics.capacity.
  rewrite getHistory_storeHistoricalRecord. fold log.
  split; [|split; [|split]].
  - intros H. rewrite bool_decide_true by lia. split; [reflexivity|].
    rewrite length_app. destruct log; cbn in *; lia.
  - intros H. by rewrite bool_decide_false by lia.
  - intros H. case_bool_decide; rewrite length_app; cbn [length].
    + destruct log; cbn in *; lia.
    + lia.
  - intros UTC op.
    assert (Hsame : ∀ st', Storage.getHistory st' = log →
              ∃ k new, (k ≤ 1)%nat ∧ (length new ≤ 1)%nat ∧
                Storage.getHistory st' = drop k log ++ new).
    { intros st' H. exists 0%nat, []. split; [lia|]. split; [cbn; lia|].
      rewrite app_nil_r. exact H. }
    assert (Hstore : ∀ r, ∃ k new, (k ≤ 1)%nat ∧ (length new ≤ 1)%nat ∧
              Storage.getHistory (TATAnalytics.storeHistoricalRecord r st) =
              drop k log ++ new).
    { intros r. destruct (storeHistoricalRecord_shape r st) as (k & Hk & ->).
      exists k, [r]. by repeat split. }
    destruct op; cbn [run].
    + unfold TATAnalytics.recordDisposition.
      destruct (Storage.getTickets st !! ticketId); [apply Hstore|apply Hsame; reflexivity].
    + apply Hstore.
    + apply Hsame; reflexivity.
    + apply Hsame, getHistory_storeTicketRecord.
    + apply Hsame, getHistory_processTicketHistory.
    + apply Hsame, getHistory_updateDashboard.
Qed.

(** A full log whose oldest record differs from the others: the oldest one
    goes, the new one comes last. *)
Lemma disposition_log_append_only_witness :
  let old := replicate 999 (disposed "A" 1 "RESOLVED") in
  let st := Storage.setHistory (disposed "B" 9 "ETL" :: old) Storage.empty in
  let st2 := Storage.setHistory [disposed "B" 9 "ETL"] Storage.empty in
  Storage.getHistory
    (TATAnalytics.storeHistoricalRecord (disposed "C" 2 "CLOSED") st)
  = old ++ [disposed "C" 2 "CLOSED"] ∧
  Storage.getHistory
    (TATAnalytics.storeHistoricalRecord (disposed "C" 2 "CLOSED") st2)
  = [disposed "B" 9 "ETL"; disposed "C" 2 "CLOSED"] ∧
  (length (Storage.getHistory
     (TATAnalytics.storeHistoricalRecord (disposed "C" 2 "CLOSED") st2))
     ≤ TATAnalytics.capacity)%nat.
Proof.
  intros old st st2. split; [|split].
  - destruct (disposition_log_append_only (disposed "C" 2 "CLOSED") st)
      as (H & _).
    apply H. reflexivity.
  - destruct (disposition_log_append_only (disposed "C" 2 "CLOSED") st2)
      as (_ & H & _).
    apply H. cbn. unfold TATAnalytics.capacity. lia.
  - destruct (disposition_log_append_only (disposed "C" 2 "CLOSED") st2)
      as (_ & _ & H & _).
    apply H. cbn. unfold TATAnalytics.capacity. lia.
Defined.

Lemma last_storeHistoricalRecord record st :
  last (Storage.getHistory (TATAnalytics.storeHistoricalRecord record st))
  = Some record.
Proof.
  destruct (storeHistoricalRecord_shape record st) as (k & _ & ->).
  apply last_snoc.
Qed.

(** C10.  The record that [recordDisposition] appends for a tracked ticket
    carries the disposition type it was given, and its [isEscalated] is
    true exactly when that type is the string ETL; for an untracked ticket
    nothing is recorded. *)
Theorem recordDisposition_isEscalated (now : Z) (ticketId disposition : string)
    (st : Storage.t) :
  (∀ ticket, Storage.getTickets st !! ticketId = Some ticket →
     ∃ r, last (Storage.getHistory
                  (TATAnalytics.recordDisposition now ticketId disposition st))
          = Some r ∧
          r = TATAnalytics.dispositionRecord now ticket disposition ∧
          DispositionRecord.dispositionType r = disposition ∧
          (DispositionRecord.isEscalated r = true ↔ disposition = "ETL")) ∧
  (Storage.getTickets st !! ticketId = None →
   TATAnalytics.recordDisposition now ticketId disposition st = st).
Proof.
  unfold TATAnalytics.recordDisposition. split.
  - intros ticket ->. eexists. split; [apply last_storeHistoricalRecord|].
    split; [reflexivity|]. split; [reflexivity|].
    cbn [TATAnalytics.dispositionRecord DispositionRecord.isEscalated].
    apply String.eqb_eq.
  - by intros ->.
Qed.

(** An escalation and a resolution of the tracked ticket "T1", and a
    disposition of a ticket that is not tracked. *)
Lemma recordDisposition_isEscalated_witness :
  (∃ r, last (Storage.getHistory
                (TATAnalytics.recordDisposition 3600000 "T1" "ETL"
                   trackingExample)) = Some r ∧
        DispositionRecord.isEscalated r = true) ∧
  (∃ r, last (Storage.getHistory
                (TATAnalytics.recordDisposition 3600000 "T1" "RESOLVED"
                   trackingExample)) = Some r ∧
        DispositionRecord.isEscalated r ≠ true) ∧
  TATAnalytics.recordDisposition 3600000 "T2" "ETL" trackingExample
  = trackingExample.
Proof.
  split; [|split].
  - destruct (recordDisposition_isEscalated 3600000 "T1" "ETL" trackingExample)
      as (H & _).
    destruct (H trackedExample eq_refl) as (r & Hr & _ & _ & Hesc).
    exists r. split; [exact Hr|]. by apply Hesc.
  - destruct (recordDisposition_isEscalated 3600000 "T1" "RESOLVED"
                trackingExample) as (H & _).
    destruct (H trackedExample eq_refl) as (r & Hr & _ & _ & Hesc).
    exists r. split; [exact Hr|]. intros C. apply Hesc in C. discriminate C.
  - destruct (recordDisposition_isEscalated 3600000 "T2" "ETL" trackingExample)
      as (_ & H).
    apply H. reflexivity.
Defined.

(** ** Agent roll-up *)

Section RollupFacts.
Open Scope Q_scope.

Lemma Math_round_comp x y : x == y → JS.Math_round x = JS.Math_round y.
Proof. intros H. unfold JS.Math_round. by rewrite H. Qed.

Lemma Math_round_bounds x :
  x - (1 # 2) < JS.Math_round x ∧ JS.Math_round x <= x + (1 # 2).
Proof.
  unfold JS.Math_round.
  pose proof (Qfloor_le (x + (1 # 2))) as Hle.
  pose proof (Qlt_floor (x + (1 # 2))) as Hlt.
  rewrite inject_Z_plus in Hlt. change (inject_Z 1) with 1 in Hlt.
  split; lra.
Qed.

Lemma add_comp a a' b b' : a == a' → b == b' → JS.add a b = JS.add a' b'.
Proof.
  intros Ha Hb. unfold JS.add. apply fl_comp.
  by rewrite (fl_comp a a' Ha), (fl_comp b b' Hb).
Qed.

Lemma div_comp a a' b b' : a == a' → b == b' → JS.div a b = JS.div a' b'.
Proof.
  intros Ha Hb. unfold JS.div. apply fl_comp.
  by rewrite (fl_comp a a' Ha), (fl_comp b b' Hb).
Qed.

Lemma mul_comp a a' b b' : a == a' → b == b' → JS.mul a b = JS.mul a' b'.
Proof.
  intros Ha Hb. unfold JS.mul. apply fl_comp.
  by rewrite (fl_comp a a' Ha), (fl_comp b b' Hb).
Qed.

Lemma round1_comp x y : x == y → JS.round1 x = JS.round1 y.
Proof.
  intros H. unfold JS.round1.
  by rewrite (mul_comp x y 10 10 H (Qeq_refl 10)).
Qed.

Lemma round1_bounds x :
  JS.mul x 10 / 10 - (1 # 20) < JS.round1 x ∧
  JS.round1 x <= JS.mul x 10 / 10 + (1 # 20).
Proof.
  unfold JS.round1. destruct (Math_round_bounds (JS.mul x 10)) as [H1 H2].
  set (r := JS.Math_round (JS.mul x 10)) in *.
  set (m := JS.mul x 10) in *.
  assert (Hr : r / 10 == r * (1 # 10)) by reflexivity.
  assert (Hm : m / 10 == m * (1 # 10)) by reflexivity.
  rewrite Hr, Hm. split; lra.
Qed.

(** Sums of hours *)

Lemma foldl_tatHours (l : list DispositionRecord.t) (acc : Q) :
  foldl (λ sum r, JS.add sum (DispositionRecord.tatHours r)) acc l
  = foldl JS.add acc (DispositionRecord.tatHours <$> l).
Proof.
  revert acc. induction l as [|r l IH]; intros acc; [reflexivity|].
  cbn [foldl fmap list_fmap]. apply IH.
Qed.

Lemma foldl_add_comp (l l' : list Q) (a a' : Q) :
  a == a' → Forall2 Qeq l l' → foldl JS.add a l == foldl JS.add a' l'.
Proof.
  intros Ha Hl. revert a a' Ha.
  induction Hl as [|x y l l' Hxy _ IH]; intros a a' Ha; [exact Ha|].
  cbn [foldl]. apply IH. by rewrite (add_comp a a' x y Ha Hxy).
Qed.

Lemma foldl_Qplus_acc (l : list Q) (a : Q) :
  foldl Qplus a l == a + foldl Qplus 0 l.
Proof.
  revert a. induction l as [|x l IH]; intros a; cbn [foldl]; [ring|].
  rewrite (IH (a + x)), (IH (0 + x)). ring.
Qed.

Lemma total_nonneg (l : list Q) : Forall (λ h, 0 <= h) l → 0 <= total l.
Proof.
  unfold total. induction 1 as [|x l Hx _ IH]; cbn [foldl]; [lra|].
  rewrite foldl_Qplus_acc. lra.
Qed.

(** The error of double-precision arithmetic on numbers that are not
    negative. *)

Lemma epsilon_value : JS.epsilon == 1 # 9007199254740992.
Proof. reflexivity. Qed.

Lemma tolerance_value : tolerance == 1 # 1099511627776.
Proof. reflexivity. Qed.

Lemma fl_near x :
  0 <= x → x * (1 - JS.epsilon) <= JS.fl x ∧ JS.fl x <= x * (1 + JS.epsilon).
Proof. apply fl_error. Qed.

(** One operation multiplies the bound [f] on the relative error by at
    most [1 + 3 epsilon], which stays below [f + 4 epsilon]. *)
Lemma grow_upper (e a f : Q) :
  0 <= a → 0 <= e → 1 <= f → f <= 4 # 3 → a <= e * f →
  a * (1 + JS.epsilon) * (1 + JS.epsilon) <= e * (f + 4 * JS.epsilon).
Proof.
  rewrite epsilon_value. intros Ha0 He Hf1 Hf Ha.
  assert (H1 : a * (1 + (1 # 9007199254740992)) * (1 + (1 # 9007199254740992))
               <= a * (1 + 3 * (1 # 9007199254740992))) by nra.
  nra.
Qed.

Lemma grow_lower (e a f : Q) :
  0 <= e → 0 <= f → f <= 1 → e * f <= a →
  e * (f - 4 * JS.epsilon) <= a * (1 - JS.epsilon) * (1 - JS.epsilon).
Proof.
  rewrite epsilon_value. intros He Hf0 Hf Ha.
  assert (Ha0 : 0 <= a) by nra. nra.
Qed.

Lemma add_near a h :
  0 <= a → 0 <= h →
  (a + h) * (1 - JS.epsilon) * (1 - JS.epsilon) <= JS.add a h ∧
  JS.add a h <= (a + h) * (1 + JS.epsilon) * (1 + JS.epsilon).
Proof.
  intros Ha Hh. unfold JS.add.
  destruct (fl_near a Ha) as [Ha1 Ha2]. destruct (fl_near h Hh) as [Hh1 Hh2].
  pose proof (fl_nonneg a Ha) as Ha0. pose proof (fl_nonneg h Hh) as Hh0.
  destruct (fl_near (JS.fl a + JS.fl h) ltac:(lra)) as [H1 H2].
  rewrite epsilon_value in *.
  set (x := JS.fl a) in *. set (y := JS.fl h) in *.
  set (z := JS.fl (x + y)) in *. split; nra.
Qed.

Lemma div_near a n :
  0 <= a → 0 < n → JS.fl n == n →
  (a / n) * (1 - JS.epsilon) * (1 - JS.epsilon) <= JS.div a n ∧
  JS.div a n <= (a / n) * (1 + JS.epsilon) * (1 + JS.epsilon).
Proof.
  intros Ha Hn Hfl. unfold JS.div.
  destruct (fl_near a Ha) as [Ha1 Ha2].
  pose proof (fl_nonneg a Ha) as Ha0.
  assert (Hq : JS.fl a / JS.fl n == JS.fl a * / n) by (by rewrite Hfl).
  assert (Hi : 0 < / n) by (by apply Qinv_lt_0_compat).
  assert (Han : a / n == a * / n) by reflexivity.
  assert (Hq0 : 0 <= JS.fl a / JS.fl n) by (rewrite Hq; nra).
  destruct (fl_near _ Hq0) as [H1 H2].
  rewrite Han. rewrite epsilon_value in *.
  set (z := JS.fl (JS.fl a / JS.fl n)) in *.
  rewrite Hq in H1, H2. set (x := JS.fl a) in *. set (i := / n) in *.
  split; nra.
Qed.

Lemma mul_near a c :
  0 <= a → 0 < c → JS.fl c == c →
  (a * c) * (1 - JS.epsilon) * (1 - JS.epsilon) <= JS.mul a c ∧
  JS.mul a c <= (a * c) * (1 + JS.epsilon) * (1 + JS.epsilon).
Proof.
  intros Ha Hc Hfl. unfold JS.mul.
  destruct (fl_near a Ha) as [Ha1 Ha2].
  pose proof (fl_nonneg a Ha) as Ha0.
  assert (Hq : JS.fl a * JS.fl c == JS.fl a * c) by (by rewrite Hfl).
  assert (Hq0 : 0 <= JS.fl a * JS.fl c) by (rewrite Hq; nra).
  destruct (fl_near _ Hq0) as [H1 H2].
  rewrite epsilon_value in *.
  set (z := JS.fl (JS.fl a * JS.fl c)) in *.
  rewrite Hq in H1, H2. set (x := JS.fl a) in *.
  split; nra.
Qed.

Lemma add_nonneg a h : 0 <= a → 0 <= h → 0 <= JS.add a h.
Proof.
  intros Ha Hh. unfold JS.add. apply fl_nonneg.
  pose proof (fl_nonneg a Ha). pose proof (fl_nonneg h Hh). lra.
Qed.

Lemma inject_S (k : nat) :
  inject_Z (Z.of_nat (S k)) == inject_Z (Z.of_nat k) + 1.
Proof. rewrite Nat2Z.inj_succ, <- Z.add_1_r, inject_Z_plus. reflexivity. Qed.

Lemma inject_nat_nonneg (k : nat) : 0 <= inject_Z (Z.of_nat k).
Proof. rewrite <- (Zle_Qle 0). lia. Qed.

(** A sum of [length l] more numbers, started from a partial sum [acc] of
    [k] numbers whose exact value is [eacc]. *)
Lemma sum_near (l : list Q) :
  Forall (λ h, 0 <= h) l → ∀ (k : nat) (acc eacc : Q),
  0 <= acc → 0 <= eacc →
  4 * inject_Z (Z.of_nat (k + length l)) * JS.epsilon <= 1 # 3 →
  eacc * (1 - 4 * inject_Z (Z.of_nat k) * JS.epsilon) <= acc →
  acc <= eacc * (1 + 4 * inject_Z (Z.of_nat k) * JS.epsilon) →
  0 <= foldl JS.add acc l ∧
  (eacc + total l)
    * (1 - 4 * inject_Z (Z.of_nat (k + length l)) * JS.epsilon)
    <= foldl JS.add acc l ∧
  foldl JS.add acc l
    <= (eacc + total l)
       * (1 + 4 * inject_Z (Z.of_nat (k + length l)) * JS.epsilon).
Proof.
  induction 1 as [|x l Hx Hl IH]; intros k acc eacc Hacc Heacc Hk Hlo Hhi.
  - cbn [foldl length]. rewrite Nat.add_0_r. unfold total. cbn [foldl].
    split; [exact Hacc|]. split; [by rewrite Qplus_0_r | by rewrite Qplus_0_r].
  - cbn [foldl length] in *.
    replace (k + S (length l))%nat with (S k + length l)%nat in * by lia.
    assert (Htot : total (x :: l) == x + total l).
    { unfold total. cbn [foldl]. rewrite foldl_Qplus_acc. ring. }
    assert (Hsplit : eacc + total (x :: l) == (eacc + x) + total l)
      by (rewrite Htot; ring).
    rewrite Hsplit.
    pose proof (inject_nat_nonneg k) as Hk0.
    pose proof (inject_nat_nonneg (length l)) as Hl0.
    assert (HkS : inject_Z (Z.of_nat (S k + length l))
                  == inject_Z (Z.of_nat k) + 1 + inject_Z (Z.of_nat (length l))).
    { rewrite Nat2Z.inj_add, inject_Z_plus, inject_S. reflexivity. }
    destruct (add_near acc x Hacc Hx) as [Ha1 Ha2].
    pose proof (epsilon_value) as Hu.
    apply IH.
    + by apply add_nonneg.
    + lra.
    + exact Hk.
    + rewrite inject_S.
      set (K := inject_Z (Z.of_nat k)) in *.
      assert (Hg : eacc * (1 - 4 * K * JS.epsilon) + x <= acc + x) by lra.
      assert (Hg' : (eacc + x) * (1 - 4 * K * JS.epsilon) <= acc + x).
      { rewrite Hu in *. nra. }
      pose proof (grow_lower (eacc + x) (acc + x) (1 - 4 * K * JS.epsilon)
                    ltac:(lra) ltac:(rewrite HkS in Hk; rewrite Hu in *; nra)
                    ltac:(rewrite Hu in *; nra) Hg') as Hgl.
      assert (Heq : (1 - 4 * (K + 1) * JS.epsilon)
                    == 1 - 4 * K * JS.epsilon - 4 * JS.epsilon) by ring.
      rewrite Heq. lra.
    + rewrite inject_S.
      set (K := inject_Z (Z.of_nat k)) in *.
      assert (Hf' : acc + x <= (eacc + x) * (1 + 4 * K * JS.epsilon)).
      { rewrite Hu in *. nra. }
      pose proof (grow_upper (eacc + x) (acc + x) (1 + 4 * K * JS.epsilon)
                    ltac:(lra) ltac:(lra) ltac:(rewrite Hu in *; nra)
                    ltac:(rewrite HkS in Hk; rewrite Hu in *; nra) Hf') as Hgu.
      assert (Heq : (1 + 4 * (K + 1) * JS.epsilon)
                    == 1 + 4 * K * JS.epsilon + 4 * JS.epsilon) by ring.
      rewrite Heq. lra.
Qed.

Lemma fl_count (n : nat) :
  (n <= TATAnalytics.capacity)%nat →
  JS.fl (inject_Z (Z.of_nat n)) == inject_Z (Z.of_nat n).
Proof.
  unfold TATAnalytics.capacity. intros Hn. apply fl_Z.
  assert (H : (1000 <= 2 ^ 53)%Z) by (vm_compute; discriminate). lia.
Qed.

(** The mean of up to 1000 numbers that are not negative, as the sources
    compute it, and ten times it. *)
Lemma mean_near (hours : list Q) :
  let n := length hours in
  (0 < n)%nat → (n <= TATAnalytics.capacity)%nat →
  Forall (λ h, 0 <= h) hours →
  let avg := JS.div (foldl JS.add 0 hours) (inject_Z (Z.of_nat n)) in
  10 * mean hours * (1 - tolerance) <= JS.mul avg 10 ∧
  JS.mul avg 10 <= 10 * mean hours * (1 + tolerance).
Proof.
  intros n Hn0 Hn Hh avg.
  pose proof epsilon_value as Hu. pose proof tolerance_value as Ht.
  assert (HnQ : 0 < inject_Z (Z.of_nat n)) by (rewrite <- (Zlt_Qlt 0); lia).
  assert (HnQ' : inject_Z (Z.of_nat n) <= 1000).
  { unfold TATAnalytics.capacity in Hn. rewrite <- (Zle_Qle _ 1000). lia. }
  set (N := inject_Z (Z.of_nat n)) in *.
  pose proof (total_nonneg hours Hh) as HT.
  destruct (sum_near hours Hh 0 0 0 ltac:(lra) ltac:(lra)) as (HS0 & HS1 & HS2).
  { cbn [Nat.add]. fold n. fold N. rewrite Hu. lra. }
  { lra. }
  { lra. }
  cbn [Nat.add] in HS1, HS2. fold n in HS1, HS2. fold N in HS1, HS2.
  rewrite Qplus_0_l in HS1, HS2.
  set (S := foldl JS.add 0 hours) in *. set (T := total hours) in *.
  assert (Hmean : mean hours == T * / N) by reflexivity.
  assert (Hi : 0 < / N) by (by apply Qinv_lt_0_compat).
  assert (Hi1 : / N * N == 1) by (field; lra).
  destruct (div_near S N HS0 HnQ (fl_count n Hn)) as [Hd1 Hd2]. fold avg in Hd1, Hd2.
  assert (HSN : S / N == S * / N) by reflexivity.
  rewrite HSN in Hd1, Hd2.
  set (I := / N) in *.
  assert (HTI : 0 <= T * I) by nra.
  assert (HSI : 0 <= S * I) by nra.
  assert (Hlo1 : (T * I) * (1 - 4 * N * JS.epsilon) <= S * I) by (rewrite Hu in *; nra).
  assert (Hhi1 : S * I <= (T * I) * (1 + 4 * N * JS.epsilon)) by (rewrite Hu in *; nra).
  pose proof (grow_lower (T * I) (S * I) (1 - 4 * N * JS.epsilon) HTI
                ltac:(rewrite Hu; lra) ltac:(rewrite Hu; lra) Hlo1) as Hg1.
  pose proof (grow_upper (T * I) (S * I) (1 + 4 * N * JS.epsilon) HSI HTI
                ltac:(rewrite Hu; lra) ltac:(rewrite Hu; lra) Hhi1) as Hg2.
  assert (Havg0 : 0 <= avg) by (rewrite Hu in *; nra).
  destruct (mul_near avg 10 Havg0 ltac:(lra) ltac:(reflexivity)) as [Hm1 Hm2].
  assert (Hlo2 : (T * I * 10) * (1 - 4 * N * JS.epsilon - 4 * JS.epsilon)
                 <= avg * 10) by lra.
  assert (Hhi2 : avg * 10
                 <= (T * I * 10) * (1 + 4 * N * JS.epsilon + 4 * JS.epsilon))
    by lra.
  pose proof (grow_lower (T * I * 10) (avg * 10)
                (1 - 4 * N * JS.epsilon - 4 * JS.epsilon) ltac:(lra)
                ltac:(rewrite Hu; lra) ltac:(rewrite Hu; lra) Hlo2) as Hg3.
  pose proof (grow_upper (T * I * 10) (avg * 10)
                (1 + 4 * N * JS.epsilon + 4 * JS.epsilon) ltac:(lra) ltac:(lra)
                ltac:(rewrite Hu; lra) ltac:(rewrite Hu; lra) Hhi2) as Hg4.
  rewrite Hmean. rewrite Hu, Ht in *. split; nra.
Qed.

Lemma percentage_near (a n : nat) :
  (a <= n)%nat → (0 < n)%nat → (n <= TATAnalytics.capacity)%nat →
  exactPercentage a n * (1 - tolerance) <= TATAnalytics.percentage a n ∧
  TATAnalytics.percentage a n <= exactPercentage a n * (1 + tolerance).
Proof.
  intros Han Hn0 Hn. unfold TATAnalytics.percentage, exactPercentage.
  pose proof epsilon_value as Hu. pose proof tolerance_value as Ht.
  assert (HnQ : 0 < inject_Z (Z.of_nat n)) by (rewrite <- (Zlt_Qlt 0); lia).
  pose proof (inject_nat_nonneg a) as HaQ.
  set (N := inject_Z (Z.of_nat n)) in *. set (A := inject_Z (Z.of_nat a)) in *.
  assert (Hi : 0 < / N) by (by apply Qinv_lt_0_compat).
  destruct (div_near A N HaQ HnQ (fl_count n Hn)) as [Hd1 Hd2].
  assert (HAN : A / N == A * / N) by reflexivity.
  assert (HAN' : 100 * A / N == 100 * A * / N) by reflexivity.
  rewrite HAN in Hd1, Hd2. rewrite HAN'.
  set (I := / N) in *. set (d := JS.div A N) in *.
  assert (HAI : 0 <= A * I) by nra.
  assert (Hd0 : 0 <= d) by (rewrite Hu in *; nra).
  destruct (mul_near d 100 Hd0 ltac:(lra) ltac:(reflexivity)) as [Hm1 Hm2].
  pose proof (grow_lower (A * I) (A * I) 1 HAI ltac:(lra) ltac:(lra)
                ltac:(lra)) as Hg1.
  pose proof (grow_upper (A * I) (A * I) 1 HAI HAI ltac:(lra) ltac:(lra)
                ltac:(lra)) as Hg2.
  assert (Hlo2 : (A * I * 100) * (1 - 4 * JS.epsilon) <= d * 100) by lra.
  assert (Hhi2 : d * 100 <= (A * I * 100) * (1 + 4 * JS.epsilon)) by lra.
  pose proof (grow_lower (A * I * 100) (d * 100) (1 - 4 * JS.epsilon)
                ltac:(lra) ltac:(rewrite Hu; lra) ltac:(rewrite Hu; lra) Hlo2)
    as Hg3.
  pose proof (grow_upper (A * I * 100) (d * 100) (1 + 4 * JS.epsilon)
                ltac:(lra) ltac:(lra) ltac:(rewrite Hu; lra)
                ltac:(rewrite Hu; lra) Hhi2) as Hg4.
  rewrite Hu, Ht in *. split; nra.
Qed.

(** Percentages stay between 0 and 100, whatever the counts. *)
Lemma percentage_range (a n : nat) :
  (a <= n)%nat → (0 < n)%nat →
  0 <= TATAnalytics.percentage a n ∧ TATAnalytics.percentage a n <= 100.
Proof.
  intros Han Hn. unfold TATAnalytics.percentage, JS.mul, JS.div.
  assert (H100 : JS.fl 100 == 100) by reflexivity.
  assert (H1 : JS.fl 1 == 1) by reflexivity.
  set (A := inject_Z (Z.of_nat a)). set (N := inject_Z (Z.of_nat n)).
  assert (HA : 0 <= A) by apply inject_nat_nonneg.
  assert (HAN : A <= N) by (subst A N; rewrite <- Zle_Qle; lia).
  assert (HN1 : 1 <= N) by (subst N; rewrite <- (Zle_Qle 1); lia).
  pose proof (fl_nonneg A HA) as HfA.
  pose proof (fl_mono A N HAN) as HfAN.
  pose proof (fl_mono 1 N HN1) as HfN. rewrite H1 in HfN.
  assert (Hq : 0 <= JS.fl A / JS.fl N ∧ JS.fl A / JS.fl N <= 1).
  { assert (Hi : 0 < / JS.fl N) by (apply Qinv_lt_0_compat; lra).
    assert (Hii : / JS.fl N * JS.fl N == 1) by (field; lra).
    assert (Hd : JS.fl A / JS.fl N == JS.fl A * / JS.fl N) by reflexivity.
    rewrite Hd. split; nra. }
  destruct Hq as [Hq0 Hq1].
  pose proof (fl_nonneg _ Hq0) as Hd0.
  pose proof (fl_mono _ _ Hq1) as Hd1. rewrite H1 in Hd1.
  set (d := JS.fl (JS.fl A / JS.fl N)) in *.
  pose proof (fl_nonneg d Hd0) as He0.
  pose proof (fl_mono d 1 Hd1) as He1. rewrite H1 in He1.
  split.
  - apply fl_nonneg. rewrite H100. nra.
  - rewrite <- H100 at 2. apply fl_mono. rewrite H100. nra.
Qed.

Lemma filter_ofAgent_idemp agentEmail (l : list DispositionRecord.t) :
  filter (TATAnalytics.ofAgent agentEmail) (filter (TATAnalytics.ofAgent agentEmail) l)
  = filter (TATAnalytics.ofAgent agentEmail) l.
Proof.
  induction l as [|r l IH]; [reflexivity|].
  rewrite (filter_cons _ r l). destruct (decide _) as [H|H]; [|exact IH].
  rewrite filter_cons. rewrite decide_True by exact H. by rewrite IH.
Qed.

End RollupFacts.

(** C8, as the code has it.  [getAgentStats] depends on the disposition log
    only through the records of the given agent.  [totalTickets] is their
    number; for an agent with records [escalated] counts the escalated
    ones; [avgTAT] is a whole number of tenths, [Math.round(avg * 10) / 10]
    of the double-precision sum of their [tatHours] divided by their
    number; [escalationRate] is [Math.round] of the double
    [(escalated / n) * 100], an amount between 0 and 100.  For a log within
    its capacity of 1000 records and hours that are not negative, [avgTAT]
    is within 0.05 of the exact mean up to a relative error of 2^-40, and
    [escalationRate] within 0.5 of the exact percentage up to the same
    relative error.  Hours 10, 20, 30 with one escalation give 20 and 33.
    For an agent without records the result is not a failure:
    [totalTickets], [resolved], [escalated], [escalationRate], [avgTAT] and
    [overdueCount] are zero. *)
Theorem getAgentStats_rollup (agentEmail : string) (st : Storage.t) :
  let records :=
    filter (TATAnalytics.ofAgent agentEmail) (Storage.getHistory st) in
  let n := length records in
  let hours := DispositionRecord.tatHours <$> records in
  let escalated :=
    length (filter (λ r, DispositionRecord.isEscalated r = true) records) in
  let s := TATAnalytics.getAgentStats agentEmail st in
  AgentStats.totalTickets s = n ∧
  TATAnalytics.getAgentStats agentEmail (Storage.setHistory records st) = s ∧
  (n ≠ 0%nat →
   AgentStats.escalated s = escalated ∧
   AgentStats.avgTAT s
   = JS.round1 (JS.div (foldl JS.add 0%Q hours) (inject_Z (Z.of_nat n))) ∧
   (∃ tenths : Z, AgentStats.avgTAT s == inject_Z tenths / 10)%Q ∧
   AgentStats.escalationRate s
   = JS.Math_round (TATAnalytics.percentage escalated n) ∧
   (0 <= AgentStats.escalationRate s ∧ AgentStats.escalationRate s <= 100)%Q ∧
   ((n ≤ TATAnalytics.capacity)%nat → Forall (λ h, 0 <= h)%Q hours →
    (mean hours * (1 - tolerance) - (1 # 20) < AgentStats.avgTAT s)%Q ∧
    (AgentStats.avgTAT s <= mean hours * (1 + tolerance) + (1 # 20))%Q) ∧
   ((n ≤ TATAnalytics.capacity)%nat →
    (exactPercentage escalated n * (1 - tolerance) - (1 # 2)
     < AgentStats.escalationRate s)%Q ∧
    (AgentStats.escalationRate s
     <= exactPercentage escalated n * (1 + tolerance) + (1 # 2))%Q) ∧
   (Forall2 Qeq hours [10; 20; 30]%Q → escalated = 1%nat →
    (AgentStats.avgTAT s == 20)%Q ∧ (AgentStats.escalationRate s == 33)%Q)) ∧
  (n = 0%nat →
   AgentStats.totalTickets s = 0%nat ∧ AgentStats.resolved s = 0%nat ∧
   AgentStats.escalated s = 0%nat ∧ (AgentStats.escalationRate s == 0)%Q ∧
   (AgentStats.avgTAT s == 0)%Q ∧ AgentStats.overdueCount s = 0%nat).
Proof.
  intros records n hours escalated s.
  assert (Hs : s = TATAnalytics.getAgentStats agentEmail st) by reflexivity.
  unfold TATAnalytics.getAgentStats in Hs. fold records in Hs. fold n in Hs.
  split; [|split; [|split]].
  - rewrite Hs. case_bool_decide as Hn; cbn; [by rewrite Hn | reflexivity].
  - unfold TATAnalytics.getAgentStats. rewrite getHistory_setHistory.
    subst records. by rewrite filter_ofAgent_idemp.
  - intros Hn. rewrite bool_decide_false in Hs by exact Hn.
    rewrite foldl_tatHours in Hs. fold hours in Hs. fold escalated in Hs.
    assert (Hlen : length hours = n) by (unfold hours; by rewrite length_fmap).
    assert (Hesc : (escalated ≤ n)%nat) by apply length_filter.
    assert (Havg : AgentStats.avgTAT s
              = JS.round1 (JS.div (foldl JS.add 0%Q hours)
                             (inject_Z (Z.of_nat n)))) by (by rewrite Hs).
    assert (Hrate : AgentStats.escalationRate s
              = JS.Math_round (TATAnalytics.percentage escalated n))
      by (by rewrite Hs).
    split; [by rewrite Hs|]. split; [exact Havg|].
    split; [rewrite Havg; eexists; reflexivity|].
    split; [exact Hrate|].
    split; [|split; [|split]].
    + rewrite Hrate.
      destruct (percentage_range escalated n Hesc ltac:(lia)) as [H0 H100].
      unfold JS.Math_round. split.
      * rewrite <- (Zle_Qle 0). apply Qfloor_resp_le with (x := 0%Q) in H0 as H.
        assert (H' : (0 <= TATAnalytics.percentage escalated n + (1 # 2))%Q)
          by lra.
        apply (Qfloor_resp_le 0) in H'. exact H'.
      * rewrite <- (Zle_Qle _ 100).
        assert (H' : (TATAnalytics.percentage escalated n + (1 # 2)
                      <= 100 + (1 # 2))%Q) by lra.
        apply Qfloor_resp_le in H'. exact H'.
    + intros Hcap Hh. rewrite Havg.
      destruct (round1_bounds (JS.div (foldl JS.add 0%Q hours)
                                 (inject_Z (Z.of_nat n)))) as [Hlo Hhi].
      pose proof (mean_near hours) as Hm. cbv zeta in Hm. rewrite Hlen in Hm.
      destruct (Hm ltac:(lia) Hcap Hh) as [Hm1 Hm2].
      set (m := JS.mul _ 10) in *.
      assert (Hd : (m / 10 == m * (1 # 10))%Q) by reflexivity.
      rewrite Hd in Hlo, Hhi. rewrite tolerance_value in *. split; lra.
    + intros Hcap. rewrite Hrate.
      destruct (Math_round_bounds (TATAnalytics.percentage escalated n))
        as [Hlo Hhi].
      destruct (percentage_near escalated n Hesc ltac:(lia) Hcap) as [Hp1 Hp2].
      rewrite tolerance_value in *. split; lra.
    + intros Hh He. split.
      * rewrite Havg.
        rewrite (div_comp _ (foldl JS.add 0%Q [10; 20; 30]%Q) _ 3%Q);
          [reflexivity | by apply foldl_add_comp |].
        apply Forall2_length in Hh. rewrite Hlen in Hh. by rewrite Hh.
      * rewrite Hrate, He.
        apply Forall2_length in Hh. rewrite Hlen in Hh. rewrite Hh.
        reflexivity.
  - intros Hn. rewrite bool_decide_true in Hs by exact Hn. by rewrite Hs.
Qed.

(** The log of the specification's example, with a record of another agent
    in between, and the empty log. *)
Lemma getAgentStats_rollup_witness :
  let st :=
    Storage.setHistory
      [disposed "A" 10 "RESOLVED"; disposed "B" 99 "ETL";
       disposed "A" 20 "ETL"; disposed "A" 30 "CLOSED"] Storage.empty in
  let s := TATAnalytics.getAgentStats "A" st in
  ((AgentStats.avgTAT s == 20)%Q ∧ (AgentStats.escalationRate s == 33)%Q) ∧
  ((mean [10; 20; 30] * (1 - tolerance) - (1 # 20) < AgentStats.avgTAT s)%Q ∧
   (AgentStats.avgTAT s <= mean [10; 20; 30] * (1 + tolerance) + (1 # 20))%Q) ∧
  ((exactPercentage 1 3 * (1 - tolerance) - (1 # 2)
    < AgentStats.escalationRate s)%Q ∧
   (AgentStats.escalationRate s
    <= exactPercentage 1 3 * (1 + tolerance) + (1 # 2))%Q) ∧
  AgentStats.totalTickets (TATAnalytics.getAgentStats "A" Storage.empty) = 0%nat.
Proof.
  intros st s.
  destruct (getAgentStats_rollup "A" st) as (_ & _ & H & _).
  destruct H as (_ & _ & _ & _ & _ & Havg & Hrate & Hex); [vm_compute; lia|].
  split; [|split; [|split]].
  - apply Hex; [|reflexivity]. repeat constructor.
  - apply Havg; [vm_compute; lia|]. repeat constructor; discriminate.
  - apply Hrate. vm_compute; lia.
  - destruct (getAgentStats_rollup "A" Storage.empty) as (_ & _ & _ & H0).
    apply H0. reflexivity.
Defined.

(** C8 as stated fails where the mean has more than one decimal: for hours
    1, 2 and 2 the mean is 5/3, and [avgTAT] is 1.7.  Nor are the two
    amounts the exact ones rounded: for hours 0.1 and 4.6 the mean is 2.35
    and [avgTAT] is 2.3, the double-precision sum being just below 4.7; for
    23 escalations of 40 the percentage is 57.5 and [escalationRate] is 57,
    the double [(23 / 40) * 100] being just below 57.5. *)
Lemma getAgentStats_mean_counterexample :
  let st :=
    Storage.setHistory
      [disposed "A" 1 "RESOLVED"; disposed "A" 2 "ETL";
       disposed "A" 2 "RESOLVED"] Storage.empty in
  let s := TATAnalytics.getAgentStats "A" st in
  let st' :=
    Storage.setHistory
      [disposed "A" (1 # 10) "RESOLVED"; disposed "A" (46 # 10) "RESOLVED"]
      Storage.empty in
  let s' := TATAnalytics.getAgentStats "A" st' in
  let st'' :=
    Storage.setHistory
      (replicate 23 (disposed "A" 1 "ETL")
       ++ replicate 17 (disposed "A" 1 "RESOLVED")) Storage.empty in
  let s'' := TATAnalytics.getAgentStats "A" st'' in
  ((mean [1; 2; 2] == 5 # 3)%Q ∧ (AgentStats.avgTAT s == 17 # 10)%Q ∧
   ¬ (AgentStats.avgTAT s == mean [1; 2; 2])%Q) ∧
  ((mean [1 # 10; 46 # 10] == 235 # 100)%Q ∧
   (AgentStats.avgTAT s' == 23 # 10)%Q) ∧
  (AgentStats.totalTickets s'' = 40%nat ∧ AgentStats.escalated s'' = 23%nat ∧
   (exactPercentage 23 40 == 575 # 10)%Q ∧
   (AgentStats.escalationRate s'' == 57)%Q).
Proof.
  intros st s st' s' st'' s''. repeat split; try reflexivity.
  intros H. vm_compute in H. discriminate H.
Qed.

(** ** History reconciliation *)

Section ReconcileFacts.
Import TATTrackerBackground.

Lemma last_filter_split {A} (P : A → Prop) `{∀ x, Decision (P x)} (l : list A) e :
  last (filter P l) = Some e →
  ∃ l1 l2, l = l1 ++ e :: l2 ∧ P e ∧ Forall (λ x, ¬ P x) l2.
Proof.
  induction l as [|x l IH] using rev_ind; [discriminate|].
  rewrite filter_app, filter_cons, filter_nil.
  destruct (decide (P x)) as [Hx|Hx].
  - rewrite last_snoc. intros [= ->]. exists l, []. by repeat split.
  - rewrite app_nil_r. intros He.
    destruct (IH He) as (l1 & l2 & -> & HP & Hl2).
    exists l1, (l2 ++ [x]). rewrite <- app_assoc. repeat split; [done|].
    apply Forall_app. split; [done|]. by constructor.
Qed.

Lemma last_filter_None {A} (P : A → Prop) `{∀ x, Decision (P x)} (l : list A) :
  last (filter P l) = None ↔ Forall (λ x, ¬ P x) l.
Proof.
  rewrite last_None. split.
  - intros Hnil. apply Forall_forall. intros x Hx HP.
    assert (x ∈ filter P l) as Hin by (apply list_elem_of_filter; done).
    rewrite Hnil in Hin. by apply elem_of_nil in Hin.
  - intros Hall. induction Hall as [|x l Hx _ IH]; [reflexivity|].
    by rewrite filter_cons, decide_False.
Qed.

Lemma findLatestAssignment_None history :
  findLatestAssignment history = None ↔
  Forall (λ e, ¬ isManualAssigned e) history.
Proof. apply last_filter_None. Qed.

Lemma reconcile_None UTC now ticket history :
  reconcile UTC now ticket history = None ↔
  Forall (λ e, ¬ isManualAssigned e) history.
Proof.
  unfold reconcile. rewrite fmap_None. apply findLatestAssignment_None.
Qed.

End ReconcileFacts.

(** C1, as the code has it.  Reconciliation signals NO_ASSIGNMENT exactly
    when no event of the history has the action MANUAL ASSIGNED.  Otherwise
    the derived [assignedTime] is the timestamp of the assignment event
    that comes last in the order of delivery; the history is not sorted.
    When the history is delivered oldest first, that timestamp is the one
    of a chronologically last assignment event. *)
Theorem reconcile_latest_assignment (UTC : Z → Z) (now : Z) (ticket : Ticket.t)
    (history : list HistoryEvent.t) :
  (reconcile UTC now ticket history = None ↔
   Forall (λ e, ¬ TATTrackerBackground.isManualAssigned e) history) ∧
  (∀ r, reconcile UTC now ticket history = Some r →
     (∃ before e after,
        history = before ++ e :: after ∧
        TATTrackerBackground.isManualAssigned e ∧
        Forall (λ e', ¬ TATTrackerBackground.isManualAssigned e') after ∧
        TicketRecord.assignedTime r = eventTime UTC now e) ∧
     (oldestFirst UTC now history →
      chronologicallyLast UTC now history (TicketRecord.assignedTime r))).
Proof.
  split; [apply reconcile_None|].
  intros r Hr. unfold reconcile in Hr.
  apply fmap_Some in Hr as (e & He & ->).
  apply last_filter_split in He as (before & after & -> & HP & Hafter).
  split.
  - exists before, e, after. by repeat split.
  - intros Hsorted. split.
    + exists e. split; [|by split]. set_solver.
    + intros e' Hin HP'.
      cbn [TATTrackerBackground.ticketRecord TicketRecord.assignedTime].
      fold (eventTime UTC now e).
      apply elem_of_app in Hin as [Hin|Hin].
      * apply (StronglySorted_app_1_elem_of _ _ _ e' e Hsorted Hin). set_solver.
      * apply elem_of_cons in Hin as [->|Hin]; [lia|].
        rewrite Forall_forall in Hafter. by destruct (Hafter e' Hin).
Qed.

(** A history delivered oldest first, with two assignments. *)
Lemma reconcile_latest_assignment_witness :
  let history := [createdFeb1; assignedFeb1; assignedFeb2] in
  ∃ r, reconcile IST 0 ticketExample history = Some r ∧
       TicketRecord.assignedTime r = 1770021807000 ∧
       chronologicallyLast IST 0 history (TicketRecord.assignedTime r).
Proof.
  intros history.
  destruct (reconcile_latest_assignment IST 0 ticketExample history)
    as (_ & H).
  eexists. split; [reflexivity|]. split; [reflexivity|].
  apply (H _ eq_refl).
  unfold history, oldestFirst.
  repeat constructor; vm_compute; discriminate.
Defined.

(** C1 as stated fails on a history delivered newest first: the code takes
    the assignment delivered last, of 1 February, although the history
    holds a later one, of 2 February. *)
Lemma reconcile_unsorted_counterexample :
  let history := [assignedFeb2; assignedFeb1] in
  ∃ r, reconcile IST 0 ticketExample history = Some r ∧
       TicketRecord.assignedTime r = eventTime IST 0 assignedFeb1 ∧
       eventTime IST 0 assignedFeb1 < eventTime IST 0 assignedFeb2 ∧
       ¬ chronologicallyLast IST 0 history (TicketRecord.assignedTime r).
Proof.
  intros history. eexists. split; [reflexivity|]. split; [reflexivity|].
  split; [reflexivity|].
  intros (_ & H).
  specialize (H assignedFeb2). vm_compute in H.
  apply H; [set_solver|reflexivity|reflexivity].
Qed.

(** C5, as the code has it.  Two reconciliations of one history, at the
    clock readings [now1] and [now2], agree on whether there is an
    assignment, on the agent and on the escalation count.  They agree on
    [assignedTime] when the create date of the latest assignment matches
    the date pattern, and whenever the two readings are equal; when the
    create date does not match, each run takes its own clock reading. *)
Theorem reconcile_twice (UTC : Z → Z) (now1 now2 : Z) (ticket : Ticket.t)
    (history : list HistoryEvent.t) :
  let r1 := reconcile UTC now1 ticket history in
  let r2 := reconcile UTC now2 ticket history in
  (r1 = None ↔ r2 = None) ∧
  TicketRecord.assignedTo <$> r1 = TicketRecord.assignedTo <$> r2 ∧
  TicketRecord.escalationCount <$> r1 = TicketRecord.escalationCount <$> r2 ∧
  (∀ e, TATTrackerBackground.findLatestAssignment history = Some e →
     is_Some (matchKaptureDate (HistoryEvent.createDate e)) →
     TicketRecord.assignedTime <$> r1 = TicketRecord.assignedTime <$> r2) ∧
  (now1 = now2 → r1 = r2) ∧
  (∀ e, TATTrackerBackground.findLatestAssignment history = Some e →
     matchKaptureDate (HistoryEvent.createDate e) = None →
     TicketRecord.assignedTime <$> r1 = Some now1 ∧
     TicketRecord.assignedTime <$> r2 = Some now2).
Proof.
  intros r1 r2. subst r1 r2. unfold reconcile.
  destruct (TATTrackerBackground.findLatestAssignment history) as [latest|];
    cbn [fmap option_fmap option_map].
  - split; [done|]. split; [reflexivity|]. split; [reflexivity|].
    cbn [TATTrackerBackground.ticketRecord TicketRecord.assignedTime].
    unfold TATTrackerBackground.parseDate.
    split; [|split].
    + intros e [= <-] [fields Hf]. by rewrite Hf.
    + by intros ->.
    + intros e [= <-] Hf. by rewrite Hf.
  - repeat split; done.
Qed.

(** Two runs an hour apart on a history with a well-formed create date,
    and two runs on a history whose create date is in another format. *)
Lemma reconcile_twice_witness :
  TicketRecord.assignedTime
    <$> reconcile IST 1770030000000 ticketExample [createdFeb1; assignedFeb2]
  = TicketRecord.assignedTime
    <$> reconcile IST 1770033600000 ticketExample [createdFeb1; assignedFeb2] ∧
  reconcile IST 5 ticketExample [assignedUndated]
  = reconcile IST 5 ticketExample [assignedUndated] ∧
  TicketRecord.assignedTime <$> reconcile IST 1000 ticketExample [assignedUndated]
  = Some 1000.
Proof.
  split; [|split].
  - destruct (reconcile_twice IST 1770030000000 1770033600000 ticketExample
                [createdFeb1; assignedFeb2]) as (_ & _ & _ & H & _).
    apply (H assignedFeb2); [reflexivity|]. by eexists.
  - destruct (reconcile_twice IST 5 5 ticketExample [assignedUndated])
      as (_ & _ & _ & _ & H & _).
    apply H. reflexivity.
  - destruct (reconcile_twice IST 1000 2000 ticketExample [assignedUndated])
      as (_ & _ & _ & _ & _ & H).
    apply (H assignedUndated); reflexivity.
Defined.

(** C5 as stated fails on a history whose latest assignment carries a
    create date that does not match the pattern: each run derives its own
    clock reading as [assignedTime]. *)
Lemma reconcile_twice_counterexample :
  TicketRecord.assignedTime <$> reconcile IST 1000 ticketExample [assignedUndated]
  = Some 1000 ∧
  TicketRecord.assignedTime <$> reconcile IST 2000 ticketExample [assignedUndated]
  = Some 2000 ∧
  reconcile IST 1000 ticketExample [assignedUndated]
  ≠ reconcile IST 2000 ticketExample [assignedUndated].
Proof.
  split; [reflexivity|]. split; [reflexivity|].
  intros H. apply (f_equal (fmap TicketRecord.assignedTime)) in H.
  vm_compute in H. discriminate H.
Qed.

(** ** Poll cycle *)

Section CycleFacts.
Import TATTrackerBackground.
Variable UTC : Z → Z.

Lemma getTickets_setTickets m st :
  Storage.getTickets (Storage.setTickets m st) = m.
Proof. reflexivity. Qed.

Lemma processTicketHistory_reconcile ticket o st :
  processTicketHistory UTC ticket o st =
  match fetchedHistory o with
  | Some history =>
      match reconcile UTC (now o) ticket history with
      | Some r => storeTicketRecord (contextValid o) r st
      | None => st
      end
  | None => st
  end.
Proof.
  unfold processTicketHistory, fetchedHistory, reconcile.
  destruct (response o) as [?|[] data]; try reflexivity.
  destruct (String.eqb _ _), (HistoryData.history data) as [history|];
    try reflexivity.
  by destruct (findLatestAssignment history).
Qed.

Lemma ticketRecord_ticketId now ticket history latest :
  TicketRecord.ticketId (ticketRecord UTC now ticket history latest)
  = Ticket.ticketId ticket.
Proof. reflexivity. Qed.

Lemma processTicketHistory_no_assignment ticket o st :
  (∀ history, fetchedHistory o = Some history →
     Forall (λ e, ¬ isManualAssigned e) history) →
  processTicketHistory UTC ticket o st = st.
Proof.
  intros H. rewrite processTicketHistory_reconcile.
  destruct (fetchedHistory o) as [history|]; [|reflexivity].
  by rewrite (proj2 (reconcile_None UTC (now o) ticket history) (H _ eq_refl)).
Qed.

Lemma processTicketHistory_other_key ticket o st k :
  Ticket.ticketId ticket ≠ k →
  Storage.getTickets (processTicketHistory UTC ticket o st) !! k
  = Storage.getTickets st !! k.
Proof.
  intros Hk. rewrite processTicketHistory_reconcile.
  destruct (fetchedHistory o) as [history|]; [|reflexivity].
  unfold reconcile.
  destruct (findLatestAssignment history) as [latest|]; [|reflexivity].
  cbn [fmap option_fmap option_map]. unfold storeTicketRecord.
  destruct (contextValid o); [|reflexivity].
  cbn [negb]. rewrite getTickets_setTickets.
  by rewrite lookup_insert_ne.
Qed.

Lemma processTickets_untouched obs k tickets i st :
  (∀ j ticket history,
     tickets !! j = Some ticket → Ticket.ticketId ticket = k →
     fetchedHistory (obs (i + j)%nat) = Some history →
     Forall (λ e, ¬ isManualAssigned e) history) →
  Storage.getTickets (processTickets UTC obs i tickets st) !! k
  = Storage.getTickets st !! k.
Proof.
  revert i st. induction tickets as [|ticket rest IH]; intros i st H;
    [reflexivity|].
  cbn [processTickets]. rewrite IH.
  - destruct (decide (Ticket.ticketId ticket = k)) as [Hk|Hk].
    + rewrite processTicketHistory_no_assignment; [reflexivity|].
      intros history Hh. apply (H 0%nat ticket history); [done|done|].
      by rewrite Nat.add_0_r.
    + by apply processTicketHistory_other_key.
  - intros j t history Hj Hk Hh. apply (H (S j) t history); [done|done|].
    by rewrite Nat.add_succ_r.
Qed.

Lemma getTickets_updateDashboard ctx t st :
  Storage.getTickets (updateDashboard ctx t st).1 = Storage.getTickets st.
Proof. unfold updateDashboard. by destruct ctx. Qed.

Lemma fetchAndProcessTickets_store ctx listResponse obs dash st :
  Storage.getTickets (store (fetchAndProcessTickets UTC ctx listResponse obs dash st))
  = if ctx
    then Storage.getTickets
           (processTickets UTC obs 0 (polledTickets listResponse) st)
    else Storage.getTickets st.
Proof.
  unfold fetchAndProcessTickets, polledTickets.
  destruct ctx; cbn [negb]; [|reflexivity].
  destruct listResponse as [?|[] data]; try reflexivity.
  destruct (String.eqb _ _), (TicketListData.tickets data) as [tickets|];
    try reflexivity.
  cbn [default].
  pose proof (getTickets_updateDashboard dash.1 dash.2
                (processTickets UTC obs 0 tickets st)) as Hd.
  destruct (updateDashboard _ _ _) as [st'' b]. exact Hd.
Qed.

End CycleFacts.

(** C6.  A run of [processTicketHistory] whose fetched history has no
    MANUAL ASSIGNED event returns the storage it was given.  Over a whole
    poll cycle, a ticket id whose fetched histories have no such event
    keeps the record it had in [tatTickets], and has none afterwards if
    it had none before. *)
Theorem no_assignment_no_write (UTC : Z → Z) :
  (∀ ticket o st history,
     fetchedHistory o = Some history →
     Forall (λ e, ¬ TATTrackerBackground.isManualAssigned e) history →
     TATTrackerBackground.processTicketHistory UTC ticket o st = st) ∧
  (∀ k contextValid listResponse obs dash st,
     (∀ i ticket history,
        polledTickets listResponse !! i = Some ticket →
        Ticket.ticketId ticket = k →
        fetchedHistory (obs i) = Some history →
        Forall (λ e, ¬ TATTrackerBackground.isManualAssigned e) history) →
     Storage.getTickets
       (TATTrackerBackground.store
          (TATTrackerBackground.fetchAndProcessTickets UTC contextValid
             listResponse obs dash st)) !! k
     = Storage.getTickets st !! k).
Proof.
  split.
  - intros ticket o st history Hh Hno.
    apply processTicketHistory_no_assignment.
    intros history' Hh'. congruence.
  - intros k ctx listResponse obs dash st H.
    rewrite fetchAndProcessTickets_store. destruct ctx; [|reflexivity].
    by apply processTickets_untouched.
Qed.

(** A cycle over the ticket "T1", whose history has only its creation:
    the record kept for "T1" stays, and none appears where there was none. *)
Lemma no_assignment_no_write_witness :
  let poll :=
    Response true {| TicketListData.status := "Success";
                     TicketListData.tickets := Some [ticketExample] |} in
  let obs := λ _ : nat, observe [createdFeb1] 1770030000000 in
  TATTrackerBackground.processTicketHistory IST ticketExample (obs 0%nat)
    trackingExample = trackingExample ∧
  Storage.getTickets
    (TATTrackerBackground.store
       (TATTrackerBackground.fetchAndProcessTickets IST true poll obs
          (true, 1770030000000) trackingExample)) !! "T1"
  = Some trackedExample ∧
  Storage.getTickets
    (TATTrackerBackground.store
       (TATTrackerBackground.fetchAndProcessTickets IST true poll obs
          (true, 1770030000000) Storage.empty)) !! "T1"
  = None.
Proof.
  intros poll obs.
  destruct (no_assignment_no_write IST) as (Hstep & Hcycle).
  assert (Hno : Forall (λ e, ¬ TATTrackerBackground.isManualAssigned e)
                  [createdFeb1]).
  { repeat constructor. intros C. discriminate C. }
  split; [|split].
  - apply (Hstep ticketExample (obs 0%nat) trackingExample [createdFeb1]);
      [reflexivity | exact Hno].
  - rewrite (Hcycle "T1" true poll obs (true, 1770030000000) trackingExample);
      [reflexivity|].
    intros i ticket history _ _ [= <-]. exact Hno.
  - rewrite (Hcycle "T1" true poll obs (true, 1770030000000) Storage.empty);
      [reflexivity|].
    intros i ticket history _ _ [= <-]. exact Hno.
Defined.

(** ** Stored urgency *)

Section UrgencyInvariant.
Import TATTrackerBackground.
Variable UTC : Z → Z.

Lemma ticketRecord_urgencyConsistent now ticket history latest :
  urgencyConsistent (ticketRecord UTC now ticket history latest).
Proof. reflexivity. Qed.

Lemma processTicketHistory_urgencyConsistent ticket o st :
  map_Forall (λ _, urgencyConsistent) (Storage.getTickets st) →
  map_Forall (λ _, urgencyConsistent)
    (Storage.getTickets (processTicketHistory UTC ticket o st)).
Proof.
  intros Hst. rewrite processTicketHistory_reconcile.
  destruct (fetchedHistory o) as [history|]; [|exact Hst].
  unfold reconcile.
  destruct (findLatestAssignment history) as [latest|]; [|exact Hst].
  cbn [fmap option_fmap option_map]. unfold storeTicketRecord.
  destruct (contextValid o); [|exact Hst].
  cbn [negb]. rewrite getTickets_setTickets.
  apply map_Forall_insert_2; [|exact Hst].
  apply ticketRecord_urgencyConsistent.
Qed.

Lemma processTickets_urgencyConsistent obs tickets i st :
  map_Forall (λ _, urgencyConsistent) (Storage.getTickets st) →
  map_Forall (λ _, urgencyConsistent)
    (Storage.getTickets (processTickets UTC obs i tickets st)).
Proof.
  revert i st. induction tickets as [|ticket rest IH]; intros i st Hst;
    [exact Hst|].
  cbn [processTickets]. apply IH.
  by apply processTicketHistory_urgencyConsistent.
Qed.

End UrgencyInvariant.

(** C9, as the code has it.  In every record built by
    [processTicketHistory] the stored urgency is the urgency evaluator
    applied to the stored [tatHours] and to the hours from the stored
    [assignedTime] to the stored [lastUpdate]; the stored [elapsedHours] is
    that same duration rounded to one decimal place, and the stored
    [tatHours] is the classifier's for the stored subject.  The property
    holds of every record of [tatTickets] after a run of
    [processTicketHistory] and after a poll cycle if it held before. *)
Theorem stored_urgency_consistent (UTC : Z → Z) :
  (∀ now ticket history latest,
     let r := TATTrackerBackground.ticketRecord UTC now ticket history latest in
     let elapsed :=
       hoursBetween (TicketRecord.assignedTime r) (TicketRecord.lastUpdate r) in
     TicketRecord.urgencyLevel r =
       Urgency.status
         (TATTrackerBackground.calculateUrgency (TicketRecord.tatHours r) elapsed) ∧
     (TicketRecord.elapsedHours r == JS.round1 elapsed)%Q ∧
     TicketRecord.tatHours r =
       SopMatch.tat (TATTrackerBackground.matchSOPCategory (TicketRecord.subject r))) ∧
  (∀ ticket o st,
     map_Forall (λ _, urgencyConsistent) (Storage.getTickets st) →
     map_Forall (λ _, urgencyConsistent)
       (Storage.getTickets
          (TATTrackerBackground.processTicketHistory UTC ticket o st))) ∧
  (∀ contextValid listResponse obs dash st,
     map_Forall (λ _, urgencyConsistent) (Storage.getTickets st) →
     map_Forall (λ _, urgencyConsistent)
       (Storage.getTickets
          (TATTrackerBackground.store
             (TATTrackerBackground.fetchAndProcessTickets UTC contextValid
                listResponse obs dash st)))).
Proof.
  split; [|split].
  - intros now ticket history latest r elapsed. by repeat split.
  - apply processTicketHistory_urgencyConsistent.
  - intros ctx listResponse obs dash st Hst.
    rewrite fetchAndProcessTickets_store. destruct ctx; [|exact Hst].
    by apply processTickets_urgencyConsistent.
Qed.

(** The ticket "T1" polled 72.04 hours after its assignment, on a storage
    that already tracks it. *)
Lemma stored_urgency_consistent_witness :
  let o := observe [assignedFeb2] (1770021807000 + 259344000) in
  let poll :=
    Response true {| TicketListData.status := "Success";
                     TicketListData.tickets := Some [ticketExample] |} in
  map_Forall (λ _, urgencyConsistent)
    (Storage.getTickets
       (TATTrackerBackground.processTicketHistory IST ticketExample o
          trackingExample)) ∧
  map_Forall (λ _, urgencyConsistent)
    (Storage.getTickets
       (TATTrackerBackground.store
          (TATTrackerBackground.fetchAndProcessTickets IST true poll (λ _, o)
             (true, 1770021807000 + 259344000) trackingExample))).
Proof.
  intros o poll.
  destruct (stored_urgency_consistent IST) as (_ & Hstep & Hcycle).
  assert (H0 : map_Forall (λ _, urgencyConsistent)
                 (Storage.getTickets trackingExample)).
  { apply map_Forall_singleton. reflexivity. }
  split; [apply Hstep | apply Hcycle]; exact H0.
Defined.

(** C9 as stated fails for the ticket "T1" polled 72.04 hours after its
    assignment: the record stores 72 hours allowed, 72.0 hours elapsed and
    the urgency OVERDUE, where the evaluator gives DUE_SOON at (72, 72.0). *)
Lemma stored_urgency_counterexample :
  let o := observe [assignedFeb2] (1770021807000 + 259344000) in
  let st :=
    TATTrackerBackground.processTicketHistory IST ticketExample o Storage.empty in
  ∃ r, Storage.getTickets st !! "T1" = Some r ∧
       (TicketRecord.tatHours r == 72)%Q ∧
       (TicketRecord.elapsedHours r == 72)%Q ∧
       TicketRecord.urgencyLevel r = OVERDUE ∧
       Urgency.status
         (TATTrackerBackground.calculateUrgency (TicketRecord.tatHours r)
            (TicketRecord.elapsedHours r)) = DUE_SOON ∧
       TicketRecord.urgencyLevel r ≠
       Urgency.status
         (TATTrackerBackground.calculateUrgency (TicketRecord.tatHours r)
            (TicketRecord.elapsedHours r)).
Proof.
  intros o st. eexists. split; [reflexivity|].
  repeat split; try reflexivity.
  intros H. vm_compute in H. discriminate H.
Qed.

(** Rounding happens on the doubles.  A ticket of 12 hours, 8.05 hours
    after its assignment: the double [12 - 8.05] is just below 3.95, so the
    record stores 3.9 remaining hours, where the exact difference 3.95
    would round to 4.0; the elapsed hours are stored as 8.1. *)
Lemma ticketRecord_rounds_doubles :
  let ticket :=
    {| Ticket.id := "2"; Ticket.ticketId := "T2";
       Ticket.taskTitle := "Payment not received";
       Ticket.date := "2026-02-02 14:13:27"; Ticket.email := "";
       Ticket.status := "P"; Ticket.substatus := "";
       Ticket.substatusName := ""; Ticket.ticketURL := "/t/2" |} in
  let r :=
    TATTrackerBackground.ticketRecord IST (1770021807000 + 28980000) ticket
      [assignedFeb2] assignedFeb2 in
  (TicketRecord.tatHours r == 12)%Q ∧
  (hoursBetween (TicketRecord.assignedTime r) (TicketRecord.lastUpdate r)
   == 805 # 100)%Q ∧
  (TicketRecord.elapsedHours r == 81 # 10)%Q ∧
  (TicketRecord.remainingHours r == 39 # 10)%Q ∧
  (JS.Math_round ((12 - (805 # 100)) * 10) / 10 == 4)%Q.
Proof. repeat split; vm_compute; reflexivity. Qed.

(** * Further properties of the code *)

(** ** Sorting and distinct elements *)

Section SortFacts.
Context {A : Type} (cmp : A → A → Q).

Lemma insertBy_Permutation x l : Builtins.insertBy cmp x l ≡ₚ x :: l.
Proof.
  induction l as [|y l IH]; cbn [Builtins.insertBy]; [reflexivity|].
  destruct (Qle_bool (cmp x y) 0); [reflexivity|].
  rewrite IH. apply Permutation_swap.
Qed.

Lemma sortBy_Permutation l : Builtins.sortBy cmp l ≡ₚ l.
Proof.
  induction l as [|x l IH]; [reflexivity|].
  cbn [Builtins.sortBy foldr]. fold (Builtins.sortBy cmp l).
  by rewrite insertBy_Permutation, IH.
Qed.

Context (le : A → A → Prop).
Hypothesis cmp_le : ∀ x y, Qle_bool (cmp x y) 0 = true → le x y.
Hypothesis cmp_gt : ∀ x y, Qle_bool (cmp x y) 0 = false → le y x.

Lemma insertBy_Sorted x l : Sorted le l → Sorted le (Builtins.insertBy cmp x l).
Proof.
  induction 1 as [|y l Hl IH Hhd]; cbn [Builtins.insertBy].
  - by repeat constructor.
  - destruct (Qle_bool (cmp x y) 0) eqn:Hxy.
    + constructor; [by constructor|]. constructor. by apply cmp_le.
    + constructor; [exact IH|].
      destruct Hhd as [|z l Hyz]; cbn [Builtins.insertBy].
      * constructor. by apply cmp_gt.
      * destruct (Qle_bool (cmp x z) 0); constructor;
          [by apply cmp_gt | exact Hyz].
Qed.

Lemma sortBy_Sorted l : Sorted le (Builtins.sortBy cmp l).
Proof.
  induction l as [|x l IH]; [constructor|].
  cbn [Builtins.sortBy foldr]. by apply insertBy_Sorted.
Qed.

End SortFacts.

Lemma uniqueFrom_spec seen l x :
  x ∈ Builtins.uniqueFrom seen l ↔ x ∈ l ∧ x ∉ seen.
Proof.
  revert seen. induction l as [|y l IH]; intros seen;
    cbn [Builtins.uniqueFrom]; [set_solver|].
  case_bool_decide as Hy.
  - rewrite IH. set_solver.
  - rewrite elem_of_cons, IH. destruct (decide (x = y)) as [->|Hxy]; set_solver.
Qed.

Lemma uniqueFrom_NoDup seen l : NoDup (Builtins.uniqueFrom seen l).
Proof.
  revert seen. induction l as [|y l IH]; intros seen;
    cbn [Builtins.uniqueFrom]; [constructor|].
  case_bool_decide as Hy; [apply IH|].
  constructor; [|apply IH]. rewrite uniqueFrom_spec. set_solver.
Qed.

Lemma unique_spec l x : x ∈ Builtins.unique l ↔ x ∈ l.
Proof. unfold Builtins.unique. rewrite uniqueFrom_spec. set_solver. Qed.

Lemma unique_NoDup l : NoDup (Builtins.unique l).
Proof. apply uniqueFrom_NoDup. Qed.

(** ** Agent roll-ups over the whole log *)

Section RollupAll.
Open Scope Q_scope.

Lemma Qfloor_half (z : Z) : Qfloor (inject_Z z + (1 # 2)) = z.
Proof.
  apply Z.le_antisymm.
  - apply Z.lt_succ_r. rewrite Zlt_Qlt.
    eapply Qle_lt_trans; [apply Qfloor_le|].
    rewrite <- Z.add_1_r, inject_Z_plus. change (inject_Z 1) with 1. lra.
  - rewrite <- (Qfloor_Z z) at 1. apply Qfloor_resp_le. lra.
Qed.

Lemma Math_round_range x lo hi :
  inject_Z lo <= x → x <= inject_Z hi →
  inject_Z lo <= JS.Math_round x ∧ JS.Math_round x <= inject_Z hi.
Proof.
  intros Hlo Hhi. unfold JS.Math_round. rewrite <- !Zle_Qle. split.
  - rewrite <- (Qfloor_Z lo). apply Qfloor_resp_le. lra.
  - rewrite <- (Qfloor_half hi). apply Qfloor_resp_le. lra.
Qed.

Lemma rate_range a n :
  (a ≤ n)%nat → (0 < n)%nat →
  0 <= JS.Math_round (TATAnalytics.percentage a n) ∧
  JS.Math_round (TATAnalytics.percentage a n) <= 100.
Proof.
  intros Han Hn. destruct (percentage_range a n Han Hn) as [H0 H100].
  apply (Math_round_range _ 0 100); assumption.
Qed.

End RollupAll.

Section AnalyticsMore.
Import TATAnalytics TATAnalyticsMore.

Lemma getAgentStats_agent a st : AgentStats.agent (getAgentStats a st) = a.
Proof. unfold getAgentStats. by case_bool_decide. Qed.

Lemma getAgentStats_totalTickets a st :
  AgentStats.totalTickets (getAgentStats a st)
  = length (filter (ofAgent a) (Storage.getHistory st)).
Proof.
  unfold getAgentStats. case_bool_decide as Hn; cbn; [by rewrite Hn | done].
Qed.

Lemma getAgentStats_escalated a st :
  AgentStats.escalated (getAgentStats a st)
  = length (filter (λ r, DispositionRecord.isEscalated r = true)
              (filter (ofAgent a) (Storage.getHistory st))).
Proof.
  unfold getAgentStats. case_bool_decide as Hn; cbn; [|done].
  apply length_zero_iff_nil in Hn. by rewrite Hn.
Qed.

Lemma getAgentStats_resolved a st :
  AgentStats.resolved (getAgentStats a st)
  = length (filter (λ r, DispositionRecord.dispositionType r = "RESOLVED")
              (filter (ofAgent a) (Storage.getHistory st))).
Proof.
  unfold getAgentStats. case_bool_decide as Hn; cbn; [|done].
  apply length_zero_iff_nil in Hn. by rewrite Hn.
Qed.

Lemma getAgentStats_overdueCount a st :
  AgentStats.overdueCount (getAgentStats a st)
  = length (filter (λ r, DispositionRecord.wasOverdue r = true)
              (filter (ofAgent a) (Storage.getHistory st))).
Proof.
  unfold getAgentStats. case_bool_decide as Hn; cbn; [|done].
  apply length_zero_iff_nil in Hn. by rewrite Hn.
Qed.

Lemma getAgentStats_ext a st1 st2 :
  filter (ofAgent a) (Storage.getHistory st1)
  = filter (ofAgent a) (Storage.getHistory st2) →
  getAgentStats a st1 = getAgentStats a st2.
Proof. intros H. unfold getAgentStats. by rewrite H. Qed.

(** X1.  The counts of [getAgentStats] never exceed [totalTickets], and
    the two rates are percentages: [escalationRate] lies between 0 and 100,
    and so does [overdueRate] whenever the result has one; it has none
    only for an agent without records. *)
Theorem getAgentStats_bounds (agentEmail : string) (st : Storage.t) :
  let s := getAgentStats agentEmail st in
  (AgentStats.resolved s ≤ AgentStats.totalTickets s)%nat ∧
  (AgentStats.escalated s ≤ AgentStats.totalTickets s)%nat ∧
  (AgentStats.overdueCount s ≤ AgentStats.totalTickets s)%nat ∧
  (0 <= AgentStats.escalationRate s)%Q ∧
  (AgentStats.escalationRate s <= 100)%Q ∧
  match AgentStats.overdueRate s with
  | Some r => (0 <= r)%Q ∧ (r <= 100)%Q
  | None => AgentStats.totalTickets s = 0%nat
  end.
Proof.
  intros s. subst s.
  rewrite getAgentStats_resolved, getAgentStats_escalated,
    getAgentStats_overdueCount, getAgentStats_totalTickets.
  split; [apply length_filter|]. split; [apply length_filter|].
  split; [apply length_filter|].
  unfold getAgentStats. case_bool_decide as Hn; cbn.
  - repeat split; done.
  - assert (Hpos : (0 < length (filter (ofAgent agentEmail)
                                  (Storage.getHistory st)))%nat) by lia.
    pose proof (rate_range _ _ (length_filter
      (λ r, DispositionRecord.isEscalated r = true)
      (filter (ofAgent agentEmail) (Storage.getHistory st))) Hpos) as [H1 H2].
    pose proof (rate_range _ _ (length_filter
      (λ r, DispositionRecord.wasOverdue r = true)
      (filter (ofAgent agentEmail) (Storage.getHistory st))) Hpos) as [H3 H4].
    split; [exact H1|]. split; [exact H2|]. split; [exact H3 | exact H4].
Qed.

(** X2.  A run of [storeHistoricalRecord] over any number of records, on a
    log of at most 1000 records, keeps exactly the newest 1000 records of
    the old log followed by the new ones, in their order. *)
Theorem storeAll_keeps_newest (records : list DispositionRecord.t)
    (st : Storage.t) :
  (length (Storage.getHistory st) ≤ capacity)%nat →
  Storage.getHistory (storeAll records st)
  = drop (length (Storage.getHistory st) + length records - capacity)
      (Storage.getHistory st ++ records) ∧
  (length (Storage.getHistory (storeAll records st)) ≤ capacity)%nat.
Proof.
  unfold capacity. revert st.
  induction records as [|r rs IH]; intros st Hlen.
  - cbn [storeAll foldl length]. rewrite app_nil_r.
    replace (_ + 0 - 1000)%nat with 0%nat by lia. by split.
  - cbn [storeAll foldl]. fold (storeAll rs (storeHistoricalRecord r st)).
    pose proof (getHistory_storeHistoricalRecord r st) as Hst.
    set (log := Storage.getHistory st) in *.
    set (st1 := storeHistoricalRecord r st) in *.
    assert (Hlen1 : (length (Storage.getHistory st1) ≤ 1000)%nat).
    { rewrite Hst. case_bool_decide; rewrite length_app; cbn [length];
        [destruct log; cbn in *; lia | lia]. }
    destruct (IH st1 Hlen1) as [-> Hle]. split; [|exact Hle].
    rewrite Hst. cbn [length]. case_bool_decide as Hfull.
    + assert (Hl : length log = 1000%nat) by lia.
      destruct log as [|x log']; [cbn in Hl; lia|]. cbn [tail].
      rewrite length_app. cbn [length] in *.
      replace (length log' + 1 + length rs - 1000)%nat with (length rs) by lia.
      replace (S (length log') + S (length rs) - 1000)%nat
        with (S (length rs)) by lia.
      cbn [app drop]. by rewrite <- app_assoc.
    + rewrite length_app. cbn [length].
      replace (length log + 1 + length rs - 1000)%nat
        with (length log + S (length rs) - 1000)%nat by lia.
      by rewrite <- app_assoc.
Qed.

(** Three records stored on a full log: the three oldest go. *)
Lemma storeAll_keeps_newest_witness :
  let old := replicate 997 (disposed "A" 1 "RESOLVED") in
  let first := [disposed "B" 9 "ETL"; disposed "B" 8 "ETL"; disposed "B" 7 "ETL"] in
  let new := [disposed "C" 2 "CLOSED"; disposed "C" 3 "CLOSED";
              disposed "C" 4 "CLOSED"] in
  Storage.getHistory
    (storeAll new (Storage.setHistory (first ++ old) Storage.empty))
  = old ++ new.
Proof.
  intros old first new.
  destruct (storeAll_keeps_newest new
              (Storage.setHistory (first ++ old) Storage.empty)) as [H _].
  - vm_compute. lia.
  - rewrite H. reflexivity.
Defined.

End AnalyticsMore.

Section AnalyticsCompose.
Import TATAnalytics TATAnalyticsMore.

Lemma filter_snoc {A} (P : A → Prop) `{∀ x, Decision (P x)} (l : list A) x :
  filter P (l ++ [x]) = filter P l ++ (if decide (P x) then [x] else []).
Proof. rewrite filter_app, filter_cons, filter_nil. by destruct (decide (P x)). Qed.

Lemma length_filter_snoc {A} (P : A → Prop) `{∀ x, Decision (P x)}
    (l : list A) x :
  length (filter P (l ++ [x]))
  = (length (filter P l) + (if decide (P x) then 1 else 0))%nat.
Proof.
  rewrite filter_snoc, length_app. by destruct (decide (P x)).
Qed.

(** X3.  Recording the disposition of a tracked ticket, on a log below its
    capacity, adds one ticket to the roll-up of the ticket's agent: one
    more under [escalated] exactly for the type ETL, one more under
    [resolved] exactly for the type RESOLVED, and one more under
    [overdueCount] exactly when the time from assignment to disposal, in
    milliseconds, exceeds the ticket's allowed hours.  The roll-up of every
    other agent and the table of tracked tickets stay as they were: the
    disposed ticket is not removed from [tatTickets]. *)
Theorem recordDisposition_rollup (now : Z) (ticketId disposition : string)
    (st : Storage.t) (ticket : TicketRecord.t) :
  Storage.getTickets st !! ticketId = Some ticket →
  (length (Storage.getHistory st) < capacity)%nat →
  let st' := recordDisposition now ticketId disposition st in
  let agent := TicketRecord.assignedTo ticket in
  let before := getAgentStats agent st in
  let after := getAgentStats agent st' in
  let one (b : bool) : nat := if b then 1%nat else 0%nat in
  AgentStats.totalTickets after = S (AgentStats.totalTickets before) ∧
  AgentStats.escalated after
    = (AgentStats.escalated before + one (String.eqb disposition "ETL"))%nat ∧
  AgentStats.resolved after
    = (AgentStats.resolved before + one (String.eqb disposition "RESOLVED"))%nat ∧
  AgentStats.overdueCount after
    = (AgentStats.overdueCount before
       + one (lessThan (TicketRecord.tatHours ticket * 3600000)
                (inject_Z (now - TicketRecord.assignedTime ticket))))%nat ∧
  (∀ other, other ≠ agent → getAgentStats other st' = getAgentStats other st) ∧
  Storage.getTickets st' = Storage.getTickets st.
Proof.
  intros Hticket Hroom st' agent before after one.
  assert (Hlog : Storage.getHistory st'
                 = Storage.getHistory st ++ [dispositionRecord now ticket disposition]).
  { subst st'. unfold recordDisposition. rewrite Hticket.
    rewrite getHistory_storeHistoricalRecord.
    unfold capacity in Hroom. by rewrite bool_decide_false by lia. }
  assert (Hagent : ofAgent agent (dispositionRecord now ticket disposition))
    by reflexivity.
  assert (Hmine : filter (ofAgent agent) (Storage.getHistory st')
                  = filter (ofAgent agent) (Storage.getHistory st)
                    ++ [dispositionRecord now ticket disposition]).
  { rewrite Hlog, filter_snoc. by rewrite decide_True. }
  subst before after one. cbv beta.
  rewrite !getAgentStats_totalTickets, !getAgentStats_escalated,
    !getAgentStats_resolved, !getAgentStats_overdueCount, !Hmine.
  split; [rewrite length_app; cbn; lia|].
  split.
  { rewrite length_filter_snoc.
    cbn [dispositionRecord DispositionRecord.isEscalated]. f_equal.
    by destruct (String.eqb disposition "ETL"). }
  split.
  { rewrite length_filter_snoc.
    cbn [dispositionRecord DispositionRecord.dispositionType]. f_equal.
    destruct (String.eqb_spec disposition "RESOLVED") as [->|Hne].
    - by rewrite decide_True.
    - by rewrite decide_False. }
  split.
  { rewrite length_filter_snoc.
    cbn [dispositionRecord DispositionRecord.wasOverdue]. f_equal.
    set (allowed := TicketRecord.tatHours ticket).
    set (ms := inject_Z (now - TicketRecord.assignedTime ticket)).
    change (inject_Z (1000 * 60 * 60)) with 3600000%Q.
    assert (Hiff : lessThan allowed (ms / 3600000) = true
                   ↔ (allowed * 3600000 < ms)%Q).
    { rewrite lessThan_lt. split; intros H.
      - apply (Qmult_lt_r _ _ 3600000) in H; [|reflexivity].
        assert (Hd : (ms / 3600000 * 3600000 == ms)%Q) by (field; discriminate).
        by rewrite Hd in H.
      - apply Qlt_shift_div_l; [reflexivity | exact H]. }
    rewrite <- lessThan_lt in Hiff.
    destruct (lessThan allowed (ms / 3600000)) eqn:Hlt.
    - rewrite decide_True by done. by rewrite (proj1 Hiff eq_refl).
    - rewrite decide_False by done.
      destruct (lessThan (allowed * 3600000) ms); [|done].
      discriminate (proj2 Hiff eq_refl). }
  split.
  - intros other Hother. apply getAgentStats_ext.
    rewrite Hlog, filter_snoc. rewrite decide_False; [by rewrite app_nil_r|].
    intros H. apply Hother. symmetry. exact H.
  - subst st'. unfold recordDisposition. by rewrite Hticket.
Qed.

(** The tracked example ticket, escalated one hour after its assignment. *)
Lemma recordDisposition_rollup_witness :
  let st' := recordDisposition 3600000 "T1" "ETL" trackingExample in
  AgentStats.totalTickets (getAgentStats "A" st') = 1%nat ∧
  AgentStats.escalated (getAgentStats "A" st') = 1%nat ∧
  Storage.getTickets st' !! "T1" = Some trackedExample.
Proof.
  intros st'.
  destruct (recordDisposition_rollup 3600000 "T1" "ETL" trackingExample
              trackedExample) as (H1 & H2 & _ & _ & _ & H6).
  - reflexivity.
  - cbn. unfold capacity. lia.
  - split; [exact H1|]. split; [exact H2|]. subst st'. by rewrite H6.
Defined.

End AnalyticsCompose.

Section AllAgents.
Import TATAnalytics TATAnalyticsMore.

Lemma sum_list_with_fmap {A B} (f : B → nat) (g : A → B) (l : list A) :
  sum_list_with f (g <$> l) = sum_list_with (f ∘ g) l.
Proof. induction l as [|x l IH]; cbn; [done | by rewrite IH]. Qed.

Lemma sum_list_with_ext {A} (f g : A → nat) (l : list A) :
  (∀ x, x ∈ l → f x = g x) → sum_list_with f l = sum_list_with g l.
Proof.
  induction l as [|x l IH]; intros H; cbn; [done|].
  rewrite (H x) by set_solver. rewrite IH; [done|]. intros y Hy. apply H. set_solver.
Qed.

Lemma sum_list_with_add {A} (f g : A → nat) (l : list A) :
  sum_list_with (λ x, f x + g x)%nat l
  = (sum_list_with f l + sum_list_with g l)%nat.
Proof. induction l as [|x l IH]; cbn; lia. Qed.

Lemma sum_list_with_indicator (x : string) (n : nat) (l : list string) :
  NoDup l → x ∈ l →
  sum_list_with (λ a, if decide (x = a) then n else 0%nat) l = n.
Proof.
  induction 1 as [|a l Ha Hl IH]; intros Hx; [by apply elem_of_nil in Hx|].
  cbn [sum_list_with]. destruct (decide (x = a)) as [->|Hne].
  - rewrite (sum_list_with_ext _ (λ _, 0%nat)).
    + clear. induction l; cbn; lia.
    + intros y Hy. rewrite decide_False; [done|]. intros ->. done.
  - rewrite IH; [done|]. set_solver.
Qed.

(** The records of a log, counted agent by agent. *)
Lemma count_by_agent (P : DispositionRecord.t → Prop) `{∀ r, Decision (P r)}
    (agents : list string) (log : list DispositionRecord.t) :
  NoDup agents →
  (∀ r, r ∈ log → DispositionRecord.agent r ∈ agents) →
  sum_list_with (λ a, length (filter P (filter (ofAgent a) log))) agents
  = length (filter P log).
Proof.
  intros Hnd. induction log as [|r log IH]; intros Hin.
  - cbn. clear. induction agents; cbn; lia.
  - rewrite (sum_list_with_ext _
      (λ a, (if decide (DispositionRecord.agent r = a)
             then (if decide (P r) then 1 else 0) else 0)
            + length (filter P (filter (ofAgent a) log)))%nat).
    + rewrite sum_list_with_add, IH by (intros; apply Hin; set_solver).
      rewrite sum_list_with_indicator by (try done; apply Hin; set_solver).
      rewrite (filter_cons P). destruct (decide (P r)); cbn; lia.
    + intros a _. rewrite (filter_cons (ofAgent a)). unfold ofAgent at 1.
      destruct (decide (DispositionRecord.agent r = a)) as [Ha|Ha]; [|done].
      rewrite (filter_cons P). by destruct (decide (P r)).
Qed.

Lemma filter_all {A} (l : list A) : filter (λ _, True) l = l.
Proof.
  induction l as [|x l IH]; [done|]. by rewrite filter_cons, decide_True, IH.
Qed.

Lemma agents_cover (log : list DispositionRecord.t) r :
  r ∈ log →
  DispositionRecord.agent r ∈ Builtins.unique (DispositionRecord.agent <$> log).
Proof. intros Hr. apply unique_spec, list_elem_of_fmap. eauto. Qed.

Lemma byEscalationRate_le a b :
  Qle_bool (byEscalationRate a b) 0 = true →
  (AgentStats.escalationRate b <= AgentStats.escalationRate a)%Q.
Proof. rewrite Qle_bool_iff. unfold byEscalationRate. lra. Qed.

Lemma byEscalationRate_gt a b :
  Qle_bool (byEscalationRate a b) 0 = false →
  (AgentStats.escalationRate a <= AgentStats.escalationRate b)%Q.
Proof.
  intros H. destruct (Qlt_le_dec 0 (byEscalationRate a b)) as [Hlt|Hle].
  - unfold byEscalationRate in Hlt. lra.
  - apply Qle_bool_iff in Hle. congruence.
Qed.

Lemma getAllAgentsStats_Permutation st :
  getAllAgentsStats st ≡ₚ
  (λ agent, getAgentStats agent st)
    <$> Builtins.unique (DispositionRecord.agent <$> Storage.getHistory st).
Proof. apply sortBy_Permutation. Qed.

Lemma getAllAgentsStats_totalTickets st :
  sum_list_with AgentStats.totalTickets (getAllAgentsStats st)
  = length (Storage.getHistory st).
Proof.
  rewrite getAllAgentsStats_Permutation, sum_list_with_fmap.
  rewrite (sum_list_with_ext _
    (λ a, length (filter (λ _, True)
                    (filter (ofAgent a) (Storage.getHistory st))))).
  - rewrite count_by_agent; [by rewrite filter_all | apply unique_NoDup |].
    intros r Hr. by apply agents_cover.
  - intros a _. cbn. by rewrite getAgentStats_totalTickets, filter_all.
Qed.

Lemma getAllAgentsStats_escalated st :
  sum_list_with AgentStats.escalated (getAllAgentsStats st)
  = length (filter (λ r, DispositionRecord.isEscalated r = true)
              (Storage.getHistory st)).
Proof.
  rewrite getAllAgentsStats_Permutation, sum_list_with_fmap.
  rewrite (sum_list_with_ext _
    (λ a, length (filter (λ r, DispositionRecord.isEscalated r = true)
                    (filter (ofAgent a) (Storage.getHistory st))))).
  - apply count_by_agent; [apply unique_NoDup|].
    intros r Hr. by apply agents_cover.
  - intros a _. cbn. by rewrite getAgentStats_escalated.
Qed.

(** X4.  [getAllAgentsStats] returns one roll-up for each agent that occurs
    in the disposition log and for no one else: each entry is the
    [getAgentStats] of its agent and counts at least one ticket, no agent
    occurs twice, the [totalTickets] of the entries add up to the size of
    the log and their [escalated] to its number of escalated records, and
    the entries are ordered by [escalationRate], highest first. *)
Theorem getAllAgentsStats_covers (st : Storage.t) :
  let all := getAllAgentsStats st in
  let log := Storage.getHistory st in
  (∀ a, a ∈ (AgentStats.agent <$> all) ↔ a ∈ (DispositionRecord.agent <$> log)) ∧
  NoDup (AgentStats.agent <$> all) ∧
  Forall (λ s, s = getAgentStats (AgentStats.agent s) st ∧
               (0 < AgentStats.totalTickets s)%nat) all ∧
  sum_list_with AgentStats.totalTickets all = length log ∧
  sum_list_with AgentStats.escalated all
  = length (filter (λ r, DispositionRecord.isEscalated r = true) log) ∧
  Sorted (λ s s', (AgentStats.escalationRate s' <= AgentStats.escalationRate s)%Q)
    all.
Proof.
  intros all log.
  set (agents := Builtins.unique (DispositionRecord.agent <$> log)).
  assert (Hperm : all ≡ₚ (λ agent, getAgentStats agent st) <$> agents)
    by apply getAllAgentsStats_Permutation.
  assert (Hagents : AgentStats.agent <$> all ≡ₚ agents).
  { rewrite Hperm, <- list_fmap_compose.
    rewrite (list_fmap_ext _ id agents); [by rewrite list_fmap_id|].
    intros i a _. apply getAgentStats_agent. }
  split; [|split; [|split; [|split; [|split]]]].
  - intros a. rewrite Hagents. apply unique_spec.
  - rewrite Hagents. apply unique_NoDup.
  - rewrite Hperm. apply Forall_fmap, Forall_forall. intros a Ha. cbn.
    rewrite getAgentStats_agent. split; [done|].
    rewrite getAgentStats_totalTickets.
    apply unique_spec, list_elem_of_fmap in Ha as (r & -> & Hr).
    fold log. destruct (filter _ log) eqn:Hf; [|cbn; lia].
    assert (r ∈ filter (ofAgent (DispositionRecord.agent r)) log) as Hin
      by (apply list_elem_of_filter; done).
    rewrite Hf in Hin. by apply elem_of_nil in Hin.
  - apply getAllAgentsStats_totalTickets.
  - apply getAllAgentsStats_escalated.
  - apply (sortBy_Sorted byEscalationRate).
    + apply byEscalationRate_le.
    + apply byEscalationRate_gt.
Qed.

(** A log with one record of each of two agents. *)
Lemma getAllAgentsStats_covers_witness :
  "B" ∈ (AgentStats.agent <$>
           getAllAgentsStats
             (Storage.setHistory
                [disposed "A" 1 "RESOLVED"; disposed "B" 2 "ETL"]
                Storage.empty)).
Proof.
  destruct (getAllAgentsStats_covers
              (Storage.setHistory
                 [disposed "A" 1 "RESOLVED"; disposed "B" 2 "ETL"]
                 Storage.empty)) as (H & _).
  apply H. right. left.
Defined.

(** X5.  In the summary of [getSummary] the historical totals agree with
    the agents' roll-ups: [totalProcessed] is the sum of their
    [totalTickets] and [totalEscalated] the sum of their [escalated];
    [avgEscalationRate] is a percentage between 0 and 100, and 0 for an
    empty log; the pending counts of overdue and of escalated tickets do
    not exceed the pending total. *)
Theorem getSummary_consistent (now : Z) (st : Storage.t) :
  let s := getSummary now st in
  let h := Summary.historical s in
  let p := Summary.pending s in
  Summary.totalProcessed h
    = sum_list_with AgentStats.totalTickets (Summary.agents s) ∧
  Summary.totalEscalated h
    = sum_list_with AgentStats.escalated (Summary.agents s) ∧
  (Summary.totalEscalated h ≤ Summary.totalProcessed h)%nat ∧
  (0 <= Summary.avgEscalationRate h)%Q ∧
  (Summary.avgEscalationRate h <= 100)%Q ∧
  (Summary.totalProcessed h = 0%nat → Summary.avgEscalationRate h = 0%Q) ∧
  (Summary.overdue p ≤ Summary.total p)%nat ∧
  (Summary.escalated p ≤ Summary.total p)%nat.
Proof.
  intros s h p. subst s h p. cbn.
  split; [by rewrite getAllAgentsStats_totalTickets|].
  split; [by rewrite getAllAgentsStats_escalated|].
  split; [apply length_filter|].
  case_bool_decide as Hn.
  - pose proof (rate_range _ _
      (length_filter (λ r, DispositionRecord.isEscalated r = true)
         (Storage.getHistory st)) Hn) as [H0 H100].
    repeat split; try done; try apply length_filter. lia.
  - repeat split; try done; apply length_filter.
Qed.

(** The summary of an empty storage. *)
Lemma getSummary_consistent_witness :
  Summary.avgEscalationRate (Summary.historical (getSummary 0 Storage.empty))
  = 0%Q.
Proof.
  destruct (getSummary_consistent 0 Storage.empty)
    as (_ & _ & _ & _ & _ & H & _).
  apply H. reflexivity.
Defined.

End AllAgents.

(** ** The history tracker: storing and polling *)

Section TrackerMore.
Import TATTrackerBackground.
Variable UTC : Z → Z.

Lemma storeTicketRecord_valid r st :
  storeTicketRecord true r st
  = Storage.setTickets (<[TicketRecord.ticketId r := r]> (Storage.getTickets st)) st.
Proof. reflexivity. Qed.

Lemma processTickets_other_keys obs k tickets i st :
  Forall (λ t, Ticket.ticketId t ≠ k) tickets →
  Storage.getTickets (processTickets UTC obs i tickets st) !! k
  = Storage.getTickets st !! k.
Proof.
  intros H. revert i st. induction H as [|t rest Ht _ IH]; intros i st;
    [reflexivity|].
  cbn [processTickets]. rewrite IH. by apply processTicketHistory_other_key.
Qed.

Lemma processTicketHistory_keeps ticket o st k :
  is_Some (Storage.getTickets st !! k) →
  is_Some (Storage.getTickets (processTicketHistory UTC ticket o st) !! k).
Proof.
  intros Hk. rewrite processTicketHistory_reconcile.
  destruct (fetchedHistory o) as [history|]; [|exact Hk].
  destruct (reconcile _ _ _ _) as [r|]; [|exact Hk].
  destruct (contextValid o); [|exact Hk].
  rewrite storeTicketRecord_valid, getTickets_setTickets.
  destruct (decide (TicketRecord.ticketId r = k)) as [<-|Hne].
  - rewrite lookup_insert_eq. by eexists.
  - by rewrite lookup_insert_ne.
Qed.

Lemma processTickets_keeps obs tickets i st k :
  is_Some (Storage.getTickets st !! k) →
  is_Some (Storage.getTickets (processTickets UTC obs i tickets st) !! k).
Proof.
  revert i st. induction tickets as [|t rest IH]; intros i st Hk; [exact Hk|].
  cbn [processTickets]. apply IH. by apply processTicketHistory_keeps.
Qed.

Lemma processTickets_stores obs tickets i0 st j ticket history latest :
  NoDup (Ticket.ticketId <$> tickets) →
  tickets !! j = Some ticket →
  fetchedHistory (obs (i0 + j)%nat) = Some history →
  findLatestAssignment history = Some latest →
  contextValid (obs (i0 + j)%nat) = true →
  Storage.getTickets (processTickets UTC obs i0 tickets st)
    !! Ticket.ticketId ticket
  = Some (ticketRecord UTC (now (obs (i0 + j)%nat)) ticket history latest).
Proof.
  revert i0 st j. induction tickets as [|t rest IH]; intros i0 st j Hnd Hj Hh Hl Hc;
    [done|].
  cbn [fmap list_fmap] in Hnd. apply NoDup_cons in Hnd as [Hnotin Hnd].
  cbn [processTickets]. destruct j as [|j].
  - injection Hj as ->. rewrite Nat.add_0_r in Hh, Hc |- *.
    rewrite processTickets_other_keys.
    + rewrite processTicketHistory_reconcile, Hh. unfold reconcile.
      rewrite Hl. cbn [fmap option_fmap option_map]. rewrite Hc.
      rewrite storeTicketRecord_valid, getTickets_setTickets.
      apply lookup_insert_eq.
    + apply Forall_forall. intros t' Ht' Heq. apply Hnotin.
      rewrite <- Heq. apply list_elem_of_fmap. eauto.
  - rewrite <- Nat.add_succ_comm in Hh, Hc |- *.
    by apply (IH (S i0) _ j).
Qed.

End TrackerMore.

(** X6.  [storeTicketRecord] with a valid context puts the record under
    its ticket id: a lookup of that id returns the record, every other id
    and the disposition log are as before, storing the same record again
    changes nothing, and a later record for the same id replaces the
    earlier one.  With an invalidated context nothing is stored. *)
Theorem storeTicketRecord_lookup (r : TicketRecord.t) (st : Storage.t) :
  let st' := TATTrackerBackground.storeTicketRecord true r st in
  Storage.getTickets st' !! TicketRecord.ticketId r = Some r ∧
  (∀ k, k ≠ TicketRecord.ticketId r →
     Storage.getTickets st' !! k = Storage.getTickets st !! k) ∧
  Storage.getHistory st' = Storage.getHistory st ∧
  TATTrackerBackground.storeTicketRecord true r st' = st' ∧
  (∀ r2, TicketRecord.ticketId r2 = TicketRecord.ticketId r →
     TATTrackerBackground.storeTicketRecord true r2 st'
     = TATTrackerBackground.storeTicketRecord true r2 st) ∧
  TATTrackerBackground.storeTicketRecord false r st = st.
Proof.
  intros st'. subst st'. rewrite !storeTicketRecord_valid.
  split; [by rewrite getTickets_setTickets, lookup_insert_eq|].
  split; [by intros k Hk; rewrite getTickets_setTickets, lookup_insert_ne|].
  split; [reflexivity|].
  split.
  - rewrite getTickets_setTickets. by rewrite insert_insert_eq.
  - split; [|reflexivity]. intros r2 Hr2.
    rewrite !storeTicketRecord_valid, getTickets_setTickets, Hr2.
    by rewrite insert_insert_eq.
Qed.

(** A record stored over the tracked example ticket. *)
Lemma storeTicketRecord_lookup_witness :
  let r := TATTrackerBackground.ticketRecord IST 1770030000000 ticketExample
             [assignedFeb2] assignedFeb2 in
  let st' := TATTrackerBackground.storeTicketRecord true r trackingExample in
  Storage.getTickets st' !! "T2" = None ∧
  TATTrackerBackground.storeTicketRecord true trackedExample st'
  = TATTrackerBackground.storeTicketRecord true trackedExample trackingExample.
Proof.
  intros r st'.
  destruct (storeTicketRecord_lookup r trackingExample) as (_ & H2 & _ & _ & H5 & _).
  subst st'. split.
  - rewrite (H2 "T2"); [reflexivity|]. intros H. discriminate H.
  - apply H5. reflexivity.
Defined.

(** X7.  After a poll cycle over tickets with distinct ids, every polled
    ticket whose history was fetched and has an assignment, and whose
    record could be stored, is in [tatTickets] under its id with the
    record built from that history at that ticket's clock reading. *)
Theorem poll_cycle_tracks (UTC : Z → Z)
    (listResponse : fetched TicketListData.t)
    (obs : nat → TATTrackerBackground.observation) (dash : bool * Z)
    (st : Storage.t) (i : nat) (ticket : Ticket.t)
    (history : list HistoryEvent.t) (latest : HistoryEvent.t) :
  NoDup (Ticket.ticketId <$> polledTickets listResponse) →
  polledTickets listResponse !! i = Some ticket →
  fetchedHistory (obs i) = Some history →
  TATTrackerBackground.findLatestAssignment history = Some latest →
  TATTrackerBackground.contextValid (obs i) = true →
  Storage.getTickets
    (TATTrackerBackground.store
       (TATTrackerBackground.fetchAndProcessTickets UTC true listResponse obs
          dash st)) !! Ticket.ticketId ticket
  = Some (TATTrackerBackground.ticketRecord UTC
            (TATTrackerBackground.now (obs i)) ticket history latest).
Proof.
  intros Hnd Hi Hh Hl Hc. rewrite fetchAndProcessTickets_store.
  by apply (processTickets_stores UTC obs _ 0 st i).
Qed.

(** A cycle over the example ticket, assigned on 2 February. *)
Lemma poll_cycle_tracks_witness :
  let poll :=
    Response true {| TicketListData.status := "Success";
                     TicketListData.tickets := Some [ticketExample] |} in
  let obs := λ _ : nat, observe [createdFeb1; assignedFeb2] 1770030000000 in
  TicketRecord.assignedTime
    <$> Storage.getTickets
          (TATTrackerBackground.store
             (TATTrackerBackground.fetchAndProcessTickets IST true poll obs
                (true, 1770030000000) Storage.empty))
          !! Ticket.ticketId ticketExample
  = Some 1770021807000.
Proof.
  intros poll obs.
  rewrite (poll_cycle_tracks IST poll obs (true, 1770030000000) Storage.empty
             0 ticketExample [createdFeb1; assignedFeb2] assignedFeb2).
  - reflexivity.
  - repeat constructor. set_solver.
  - reflexivity.
  - reflexivity.
  - reflexivity.
  - reflexivity.
Defined.

(** X8.  A poll cycle never removes a record from [tatTickets]: whatever
    the responses, an id that had a record before the cycle has one
    after it. *)
Theorem poll_cycle_keeps_records (UTC : Z → Z) (contextValid : bool)
    (listResponse : fetched TicketListData.t)
    (obs : nat → TATTrackerBackground.observation) (dash : bool * Z)
    (st : Storage.t) (k : string) :
  is_Some (Storage.getTickets st !! k) →
  is_Some
    (Storage.getTickets
       (TATTrackerBackground.store
          (TATTrackerBackground.fetchAndProcessTickets UTC contextValid
             listResponse obs dash st)) !! k).
Proof.
  intros Hk. rewrite fetchAndProcessTickets_store.
  destruct contextValid; [|exact Hk]. by apply processTickets_keeps.
Qed.

(** The tracked ticket "T1" after a cycle that polls it again. *)
Lemma poll_cycle_keeps_records_witness :
  let poll :=
    Response true {| TicketListData.status := "Success";
                     TicketListData.tickets := Some [ticketExample] |} in
  let obs := λ _ : nat, observe [assignedFeb2] 1770030000000 in
  is_Some
    (Storage.getTickets
       (TATTrackerBackground.store
          (TATTrackerBackground.fetchAndProcessTickets IST true poll obs
             (true, 1770030000000) trackingExample)) !! "T1").
Proof.
  intros poll obs. apply poll_cycle_keeps_records. by eexists.
Defined.

(** ** The history tracker: records over time *)

Section RecordFacts.
Import TATTrackerBackground.
Open Scope Q_scope.

Lemma hours_monotone (a b : Z) :
  (a ≤ b)%Z → inject_Z a / inject_Z (1000 * 60 * 60)
              <= inject_Z b / inject_Z (1000 * 60 * 60).
Proof.
  intros Hab. change (inject_Z (1000 * 60 * 60)) with 3600000.
  assert (inject_Z a <= inject_Z b) by by rewrite <- Zle_Qle.
  apply Qle_shift_div_l; [reflexivity|].
  assert (Hd : inject_Z a / 3600000 * 3600000 == inject_Z a)
    by (field; discriminate).
  by rewrite Hd.
Qed.

Lemma calculateUrgency_status tatHours elapsedHours :
  Urgency.status (calculateUrgency tatHours elapsedHours)
  = if lessThan (tatHours - elapsedHours) 0 then OVERDUE
    else if lessThan (tatHours - elapsedHours) (tatHours * 0.25) then DUE_SOON
    else ON_TRACK.
Proof.
  unfold calculateUrgency.
  by destruct (lessThan (tatHours - elapsedHours) 0),
       (lessThan (tatHours - elapsedHours) (tatHours * 0.25)).
Qed.

Lemma calculateUrgency_monotone tatHours e1 e2 :
  e1 <= e2 →
  (Urgency.status (calculateUrgency tatHours e1) = OVERDUE →
   Urgency.status (calculateUrgency tatHours e2) = OVERDUE) ∧
  (Urgency.status (calculateUrgency tatHours e1) = DUE_SOON →
   Urgency.status (calculateUrgency tatHours e2) ≠ ON_TRACK).
Proof.
  intros He. rewrite !calculateUrgency_status.
  destruct (lessThan (tatHours - e1) 0) eqn:H1;
    [|destruct (lessThan (tatHours - e1) (tatHours * 0.25)) eqn:H2].
  - apply lessThan_lt in H1.
    assert (H : lessThan (tatHours - e2) 0 = true) by (apply lessThan_lt; lra).
    rewrite H. by split.
  - apply lessThan_lt in H2.
    assert (H : lessThan (tatHours - e2) (tatHours * 0.25) = true)
      by (apply lessThan_lt; lra).
    rewrite H. split; [done|]. by destruct (lessThan (tatHours - e2) 0).
  - by split.
Qed.

End RecordFacts.

(** X9.  For a ticket whose latest assignment carries a well-formed create
    date, the urgency never improves from one poll to a later one: a record
    that is OVERDUE at one clock reading is OVERDUE at every later one, and
    a record that is DUE_SOON is never ON_TRACK later. *)
Theorem urgency_never_improves (UTC : Z → Z) (now1 now2 : Z)
    (ticket : Ticket.t) (history : list HistoryEvent.t)
    (latest : HistoryEvent.t) :
  now1 ≤ now2 →
  is_Some (matchKaptureDate (HistoryEvent.createDate latest)) →
  let r1 := TATTrackerBackground.ticketRecord UTC now1 ticket history latest in
  let r2 := TATTrackerBackground.ticketRecord UTC now2 ticket history latest in
  (TicketRecord.urgencyLevel r1 = OVERDUE → TicketRecord.urgencyLevel r2 = OVERDUE) ∧
  (TicketRecord.urgencyLevel r1 = DUE_SOON →
   TicketRecord.urgencyLevel r2 ≠ ON_TRACK).
Proof.
  intros Hnow [fields Hf] r1 r2. subst r1 r2.
  cbn [TATTrackerBackground.ticketRecord TicketRecord.urgencyLevel].
  unfold TATTrackerBackground.parseDate. rewrite Hf.
  destruct fields as [[[[[y mo] d] h] mi] s].
  apply calculateUrgency_monotone, hours_monotone. lia.
Qed.

(** The example ticket 80 hours and 90 hours after its assignment. *)
Lemma urgency_never_improves_witness :
  TicketRecord.urgencyLevel
    (TATTrackerBackground.ticketRecord IST (1770021807000 + 90 * 3600000)
       ticketExample [assignedFeb2] assignedFeb2) = OVERDUE.
Proof.
  destruct (urgency_never_improves IST (1770021807000 + 80 * 3600000)
              (1770021807000 + 90 * 3600000) ticketExample [assignedFeb2]
              assignedFeb2) as [H _].
  - lia.
  - by eexists.
  - apply H. reflexivity.
Defined.

(** X10.  When the create date of the latest assignment does not match the
    date pattern, the record built at any clock reading has that reading as
    [assignedTime], no elapsed time, all of its allowed hours remaining and
    the urgency ON_TRACK: such a ticket never becomes due or overdue. *)
Theorem unparsed_assignment_stays_on_track (UTC : Z → Z) (now : Z)
    (ticket : Ticket.t) (history : list HistoryEvent.t)
    (latest : HistoryEvent.t) :
  matchKaptureDate (HistoryEvent.createDate latest) = None →
  let r := TATTrackerBackground.ticketRecord UTC now ticket history latest in
  TicketRecord.assignedTime r = now ∧
  (TicketRecord.elapsedHours r == 0)%Q ∧
  (TicketRecord.remainingHours r == TicketRecord.tatHours r)%Q ∧
  TicketRecord.urgencyLevel r = ON_TRACK.
Proof.
  intros Hf r. subst r.
  cbn [TATTrackerBackground.ticketRecord TicketRecord.assignedTime
       TicketRecord.elapsedHours TicketRecord.remainingHours
       TicketRecord.tatHours TicketRecord.urgencyLevel].
  unfold TATTrackerBackground.parseDate. rewrite Hf, Z.sub_diag.
  set (m := TATTrackerBackground.matchSOPCategory (Ticket.taskTitle ticket)).
  assert (Hin : m ∈ Classifier.categories).
  { subst m. apply background_category_in. }
  split; [reflexivity|]. split; [reflexivity|].
  unfold Classifier.categories in Hin.
  rewrite !elem_of_cons, elem_of_nil in Hin.
  destruct Hin as [->|[->|[->|[->|[->|[->|[->|[]]]]]]]];
    split; vm_compute; reflexivity.
Qed.

(** The assignment event whose create date is in another format. *)
Lemma unparsed_assignment_stays_on_track_witness :
  TicketRecord.urgencyLevel
    (TATTrackerBackground.ticketRecord IST 1770021807000 ticketExample
       [assignedUndated] assignedUndated) = ON_TRACK.
Proof.
  apply (unparsed_assignment_stays_on_track IST 1770021807000 ticketExample
           [assignedUndated] assignedUndated).
  reflexivity.
Defined.

(** X11.  In a record built from a history, [isEscalated] is set exactly
    when [escalationCount] is not zero and exactly when there is a
    [lastEscalatedTime]; the count is the number of events that are
    DISPOSED with substatus ETL, and it is smaller than the number of
    events of a history whose latest assignment the record was built
    from. *)
Theorem ticketRecord_escalations (UTC : Z → Z) (now : Z) (ticket : Ticket.t)
    (history : list HistoryEvent.t) (latest : HistoryEvent.t) :
  let r := TATTrackerBackground.ticketRecord UTC now ticket history latest in
  (TicketRecord.isEscalated r = true ↔ TicketRecord.escalationCount r ≠ 0%nat) ∧
  (TicketRecord.isEscalated r = true ↔ is_Some (TicketRecord.lastEscalatedTime r)) ∧
  (∀ e, last (filter TATTrackerBackground.isEscalation history) = Some e →
        TicketRecord.lastEscalatedTime r = Some (eventTime UTC now e)) ∧
  (TATTrackerBackground.findLatestAssignment history = Some latest →
   (TicketRecord.escalationCount r < length history)%nat).
Proof.
  intros r. subst r.
  cbn [TATTrackerBackground.ticketRecord TicketRecord.isEscalated
       TicketRecord.escalationCount TicketRecord.lastEscalatedTime].
  set (esc := filter TATTrackerBackground.isEscalation history).
  split; [|split; [|split]].
  - rewrite bool_decide_eq_true. lia.
  - rewrite bool_decide_eq_true, fmap_is_Some.
    destruct esc as [|x esc'] using rev_ind.
    + cbn. split; [lia | by intros [? ?]].
    + rewrite last_snoc, length_app. cbn. split; [by eexists | lia].
  - by intros e ->.
  - intros Hlatest. apply last_filter_split in Hlatest
      as (l1 & l2 & -> & Hassigned & _).
    subst esc. rewrite filter_app, filter_cons.
    rewrite decide_False.
    + rewrite !length_app. cbn [length].
      pose proof (length_filter TATTrackerBackground.isEscalation l1).
      pose proof (length_filter TATTrackerBackground.isEscalation l2). lia.
    + intros [Hd _]. unfold TATTrackerBackground.isManualAssigned in Hassigned.
      rewrite Hassigned in Hd. discriminate Hd.
Qed.

(** A history with an assignment and two escalations. *)
Lemma ticketRecord_escalations_witness :
  let history :=
    [assignedFeb1; event "DISPOSED" "2026-02-01 12:00:00" "" "ETL";
     event "DISPOSED" "2026-02-02 12:00:00" "" "ETL"; assignedFeb2] in
  let r := TATTrackerBackground.ticketRecord IST 0 ticketExample history
             assignedFeb2 in
  TicketRecord.lastEscalatedTime r
  = Some (eventTime IST 0 (event "DISPOSED" "2026-02-02 12:00:00" "" "ETL")) ∧
  (TicketRecord.escalationCount r < 4)%nat.
Proof.
  intros history r.
  destruct (ticketRecord_escalations IST 0 ticketExample history assignedFeb2)
    as (_ & _ & H3 & H4).
  split; [apply H3; reflexivity | apply H4; reflexivity].
Defined.

(** ** The history tracker: dashboard data and agent names *)

Lemma urgency_partition {A} (f : A → urgencyStatus) (l : list A) :
  length l
  = (length (filter (λ t, f t = OVERDUE) l)
     + length (filter (λ t, f t = DUE_SOON) l)
     + length (filter (λ t, f t = ON_TRACK) l))%nat.
Proof.
  induction l as [|x l IH]; [reflexivity|].
  rewrite !filter_cons. cbn [length]. rewrite IH.
  destruct (f x); repeat (destruct (decide _); try done); cbn [length]; lia.
Qed.



Section AgentName.
Import TATTrackerBackground.




(** *** Dropping white space *)


























End AgentName.



(** The white space that [trim] removes is more than the ASCII blanks: a
    no-break space (U+00A0) after the name and an ideographic space
    (U+3000) before it are removed as well. *)
Lemma extractAgentEmail_no_break_space :
  let nbsp := string_of_list_ascii (JS.bytes [194; 160]) in
  let wide := string_of_list_ascii (JS.bytes [227; 128; 128]) in
  TATTrackerBackground.extractAgentEmail ("assigned to Bob" +:+ nbsp) = "Bob" ∧
  TATTrackerBackground.extractAgentEmail
    ("assigned to " +:+ wide +:+ "Bob" +:+ nbsp +:+ " <bob@x.in>") = "Bob".
Proof. split; vm_compute; reflexivity. Qed.

(** ** The scheduler of the history tracker *)

Section SchedulerFacts.
Variable UTC : Z → Z.
Import Scheduler.

Lemma timersOk_fresh tm : timersOk tm → nextId tm ∉ running tm.
Proof. intros Hok Hin. specialize (Hok _ Hin). lia. Qed.

Lemma timersOk_setInterval tm : timersOk tm → timersOk (setInterval tm).2.
Proof.
  intros Hok id. cbn [setInterval snd running nextId].
  rewrite elem_of_union, elem_of_singleton. intros [->|Hin]; [lia|].
  specialize (Hok _ Hin). lia.
Qed.

Lemma timersOk_stop t tm : timersOk tm → timersOk (stop t tm).2.
Proof.
  intros Hok. unfold stop. destruct (isTracking t); cbn [negb snd]; [|done].
  destruct (intervalId t) as [id|]; [|done].
  intros i. cbn [clearInterval running nextId].
  rewrite elem_of_difference. intros [Hin _]. by apply Hok.
Qed.

Lemma stop_not_tracking t tm : isTracking (stop t tm).1 = false.
Proof. unfold stop. by destruct (isTracking t) eqn:Ht. Qed.

Lemma stop_running t tm : running (stop t tm).2 ⊆ running tm.
Proof.
  unfold stop. destruct (isTracking t); cbn [negb snd]; [|done].
  destruct (intervalId t); [|done]. cbn [clearInterval running]. set_solver.
Qed.

End SchedulerFacts.

(** X14.  [start] on a tracker that is not tracking runs one poll cycle
    and then sets a timer that was not running before, whose id it keeps.
    If that first cycle did not stop the tracker, the tracker is tracking,
    another [start] changes nothing, and [stop] clears exactly the new
    timer.  If the first cycle stopped the tracker (the extension context
    was invalidated), [start] still sets the timer but leaves the tracker
    not tracking, so [stop] returns at once and the timer keeps
    running. *)
Theorem start_sets_timer (UTC : Z → Z) (c c' : Scheduler.cycle)
    (t : Scheduler.tracker) (tm : Scheduler.timers) (st : Storage.t) :
  Scheduler.isTracking t = false → timersOk tm →
  let o := TATTrackerBackground.fetchAndProcessTickets UTC
             (Scheduler.contextValid c) (Scheduler.listResponse c)
             (Scheduler.obs c) (Scheduler.dash c) st in
  ∃ t1 tm1 id,
    Scheduler.start UTC c (t, tm, st) = (t1, tm1, TATTrackerBackground.store o) ∧
    Scheduler.intervalId t1 = Some id ∧
    id ∈ Scheduler.running tm1 ∧ id ∉ Scheduler.running tm ∧
    timersOk tm1 ∧
    Scheduler.isTracking t1 = negb (TATTrackerBackground.stopped o) ∧
    (TATTrackerBackground.stopped o = false →
       Scheduler.start UTC c' (t1, tm1, TATTrackerBackground.store o)
         = (t1, tm1, TATTrackerBackground.store o) ∧
       Scheduler.isTracking (Scheduler.stop t1 tm1).1 = false ∧
       Scheduler.running (Scheduler.stop t1 tm1).2 = Scheduler.running tm) ∧
    (TATTrackerBackground.stopped o = true →
       Scheduler.stop t1 tm1 = (t1, tm1)).
Proof.
  intros Ht Hok o. unfold Scheduler.start, Scheduler.poll. rewrite Ht.
  fold o. destruct (TATTrackerBackground.stopped o) eqn:Hstop.
  - (* the first cycle stopped the tracker *)
    unfold Scheduler.stop at 1. cbn [Scheduler.isTracking negb Scheduler.intervalId].
    set (tm0 := match Scheduler.intervalId t with
                | Some id => Scheduler.clearInterval id tm
                | None => tm
                end).
    assert (Hsub : Scheduler.running tm0 ⊆ Scheduler.running tm).
    { subst tm0. destruct (Scheduler.intervalId t); [|done].
      cbn [Scheduler.clearInterval Scheduler.running]. set_solver. }
    assert (Hnext : Scheduler.nextId tm0 = Scheduler.nextId tm).
    { subst tm0. by destruct (Scheduler.intervalId t). }
    eexists _, _, (Scheduler.nextId tm0).
    cbn [Scheduler.setInterval Scheduler.isTracking Scheduler.intervalId
         Scheduler.running Scheduler.nextId negb].
    split; [reflexivity|]. split; [reflexivity|].
    split; [set_solver|].
    split; [rewrite Hnext; by apply timersOk_fresh|].
    split.
    { intros id. cbn [Scheduler.running Scheduler.nextId].
      rewrite elem_of_union, elem_of_singleton. intros [->|Hin]; [lia|].
      apply Hsub, Hok in Hin. lia. }
    split; [reflexivity|]. split; [done|]. intros _. reflexivity.
  - (* the tracker keeps tracking *)
    eexists _, _, (Scheduler.nextId tm).
    cbn [Scheduler.setInterval Scheduler.isTracking Scheduler.intervalId
         Scheduler.running Scheduler.nextId negb].
    split; [reflexivity|]. split; [reflexivity|].
    split; [set_solver|].
    split; [by apply timersOk_fresh|].
    split; [apply (timersOk_setInterval tm Hok)|].
    split; [reflexivity|]. split; [|done]. intros _.
    split; [reflexivity|]. split; [reflexivity|].
    unfold Scheduler.stop.
    cbn [Scheduler.isTracking negb Scheduler.intervalId snd
         Scheduler.clearInterval Scheduler.running].
    pose proof (timersOk_fresh tm Hok). set_solver.
Qed.

(** A start that finds the endpoint unreachable, then a stop; and a start
    that finds the context invalidated, which leaves timer 1 running. *)
Lemma start_sets_timer_witness :
  Scheduler.running
    (Scheduler.stop
       (Scheduler.start IST offlineCycle
          (Scheduler.new, noTimers, Storage.empty)).1.1
       (Scheduler.start IST offlineCycle
          (Scheduler.new, noTimers, Storage.empty)).1.2).2 = ∅ ∧
  Scheduler.running
    (Scheduler.stop
       (Scheduler.start IST invalidatedCycle
          (Scheduler.new, noTimers, Storage.empty)).1.1
       (Scheduler.start IST invalidatedCycle
          (Scheduler.new, noTimers, Storage.empty)).1.2).2 = {[1%positive]}.
Proof.
  assert (Hok : timersOk noTimers) by (intros id Hin; set_solver).
  split.
  - destruct (start_sets_timer IST offlineCycle offlineCycle Scheduler.new
                noTimers Storage.empty eq_refl Hok)
      as (t1 & tm1 & id & Hs & _ & _ & _ & _ & _ & Hrun & _).
    rewrite Hs. cbn [fst snd]. by destruct (Hrun eq_refl) as (_ & _ & ->).
  - destruct (start_sets_timer IST invalidatedCycle offlineCycle Scheduler.new
                noTimers Storage.empty eq_refl Hok)
      as (t1 & tm1 & id & Hs & _ & _ & _ & _ & _ & _ & Hleak).
    rewrite Hs. cbn [fst snd]. rewrite (Hleak eq_refl). cbn [snd].
    injection Hs as _ <- . cbn [Scheduler.running]. set_solver.
Defined.

(** ** The dashboard of the overlay *)

Section DashboardFacts.
Context {A : Type} `{HasUrgency A}.

Lemma groups_Permutation (l : list A) :
  filter (λ t, urgencyOf t = OVERDUE) l
  ++ filter (λ t, urgencyOf t = DUE_SOON) l
  ++ filter (λ t, urgencyOf t = ON_TRACK) l ≡ₚ l.
Proof.
  induction l as [|x l IH]; [reflexivity|].
  rewrite !filter_cons.
  destruct (urgencyOf x) eqn:Hx;
    repeat (destruct (decide _); try done); cbn [app].
  - by rewrite IH.
  - rewrite <- Permutation_middle. by rewrite IH.
  - rewrite app_assoc, <- Permutation_middle, <- app_assoc. by rewrite IH.
Qed.

End DashboardFacts.

(** X15.  [groupTicketsByUrgency] splits the tickets into three groups
    that together hold every ticket exactly once, each group holding the
    tickets of one urgency level in their original order; the counts of
    [calculateStats] are the sizes of these groups and add up to the
    total. *)
Theorem groupTicketsByUrgency_partition {A} `{HasUrgency A} (tickets : list A) :
  let g := Dashboard.groupTicketsByUrgency tickets in
  let s := Dashboard.calculateStats tickets in
  Grouped.overdue g ++ Grouped.dueSoon g ++ Grouped.onTrack g ≡ₚ tickets ∧
  Grouped.overdue g `sublist_of` tickets ∧
  Grouped.dueSoon g `sublist_of` tickets ∧
  Grouped.onTrack g `sublist_of` tickets ∧
  (∀ t, t ∈ Grouped.overdue g ↔ t ∈ tickets ∧ urgencyOf t = OVERDUE) ∧
  (∀ t, t ∈ Grouped.dueSoon g ↔ t ∈ tickets ∧ urgencyOf t = DUE_SOON) ∧
  (∀ t, t ∈ Grouped.onTrack g ↔ t ∈ tickets ∧ urgencyOf t = ON_TRACK) ∧
  UrgencyStats.overdue s = length (Grouped.overdue g) ∧
  UrgencyStats.dueSoon s = length (Grouped.dueSoon g) ∧
  UrgencyStats.onTrack s = length (Grouped.onTrack g) ∧
  UrgencyStats.total s
  = (UrgencyStats.overdue s + UrgencyStats.dueSoon s + UrgencyStats.onTrack s)%nat.
Proof.
  cbn.
  split; [apply groups_Permutation|].
  do 3 (split; [apply sublist_filter|]).
  do 3 (split; [intros t; rewrite list_elem_of_filter; tauto|]).
  do 3 (split; [reflexivity|]).
  apply (urgency_partition urgencyOf).
Qed.

(** The stored example ticket is on track. *)
Lemma groupTicketsByUrgency_partition_witness :
  trackedExample ∈ Grouped.onTrack (Dashboard.groupTicketsByUrgency [trackedExample]).
Proof.
  destruct (groupTicketsByUrgency_partition [trackedExample])
    as (_ & _ & _ & _ & _ & _ & H & _).
  apply H. split; [by left | reflexivity].
Defined.

(** X16.  The overlay after the history tracker has refreshed the
    dashboard keys at [now]: [loadTATDashboard] at a later reading [now']
    shows the empty state exactly when no ticket is tracked, and otherwise
    the counts that the tracker stored in [tatStats], the whole seconds
    since [now], and a badge exactly when a ticket is overdue. *)
Theorem loadTATDashboard_after_update (now now' : Z) (st : Storage.t) :
  let st' := (TATTrackerBackground.updateDashboard true now st).1 in
  let stats := TATTrackerBackground.dashboardStats
                 (map_to_list (Storage.getTickets st)).*2 in
  now ≤ now' →
  Storage.tatStats st' = Some stats ∧
  (Storage.getTickets st = ∅ →
     Dashboard.loadTATDashboard now' st' = Dashboard.EmptyState) ∧
  (Storage.getTickets st ≠ ∅ →
     ∃ g s secs,
       Dashboard.loadTATDashboard now' st'
       = Dashboard.Tickets g s secs
           (if bool_decide (TatStats.overdue stats = 0)%nat then None
            else Some (TatStats.overdue stats)) ∧
       UrgencyStats.total s = TatStats.total stats ∧
       UrgencyStats.overdue s = TatStats.overdue stats ∧
       UrgencyStats.dueSoon s = TatStats.dueSoon stats ∧
       UrgencyStats.onTrack s = TatStats.onTrack stats ∧
       length (Grouped.overdue g) = TatStats.overdue stats ∧
       1000 * secs ≤ now' - now < 1000 * (secs + 1)).
Proof.
  intros st' stats Hle. subst st'.
  unfold TATTrackerBackground.updateDashboard. cbn [negb fst].
  split; [reflexivity|].
  unfold Dashboard.loadTATDashboard.
  cbv beta zeta.
  cbn [Storage.setDashboard Storage.trackedTickets Storage.lastTicketFetch
       default].
  unfold id. rewrite length_fmap, length_map_to_list. split.
  - intros ->. by rewrite map_size_empty.
  - intros Hne. rewrite bool_decide_false; [|by rewrite map_size_empty_iff].
    eexists _, _, _. split.
    { f_equal. unfold Dashboard.updateOverdueBadge.
      cbn [Dashboard.calculateStats UrgencyStats.overdue].
      subst stats. cbn [TATTrackerBackground.dashboardStats TatStats.overdue].
      unfold urgencyOf, TicketRecord_urgency.
      repeat case_bool_decide; first [reflexivity | lia]. }
    cbn [Dashboard.calculateStats Dashboard.groupTicketsByUrgency
         UrgencyStats.total UrgencyStats.overdue UrgencyStats.dueSoon
         UrgencyStats.onTrack Grouped.overdue].
    do 5 (split; [reflexivity|]).
    set (d := now' - now).
    assert (Hq : inject_Z d / 1000 == d # 1000).
    { rewrite (Qmake_Qdiv d 1000). reflexivity. }
    rewrite (Qfloor_comp _ _ Hq). cbn [Qfloor].
    pose proof (Z.mul_div_le d 1000 ltac:(lia)).
    pose proof (Z.mul_succ_div_gt d 1000 ltac:(lia)). lia.
Qed.

(** After a refresh of the empty storage. *)
Lemma loadTATDashboard_after_update_witness :
  Dashboard.loadTATDashboard 9000
    (TATTrackerBackground.updateDashboard true 5000 Storage.empty).1
  = Dashboard.EmptyState.
Proof.
  destruct (loadTATDashboard_after_update 5000 9000 Storage.empty)
    as (_ & H & _); [lia|].
  by apply H.
Defined.

(** ** The time shown on a ticket card *)





(** ** ticket-tracker.js: groups, statistics and the fetch *)

Section TrackerGroups.
Import TicketTrackerMore.

Lemma byRemaining_le x y :
  Qle_bool (byRemaining x y) 0 = true → fewerHoursLeft x y.
Proof.
  unfold byRemaining, fewerHoursLeft. rewrite Qle_bool_iff. lra.
Qed.

Lemma byRemaining_gt x y :
  Qle_bool (byRemaining x y) 0 = false → fewerHoursLeft y x.
Proof.
  unfold byRemaining, fewerHoursLeft. intros H.
  destruct (Qlt_le_dec 0 (Processed.remainingHours x - Processed.remainingHours y))
    as [Hlt|Hle]; [lra|].
  apply Qle_bool_iff in Hle. congruence.
Qed.

Lemma fewerHoursLeft_trans : Transitive fewerHoursLeft.
Proof. intros x y z. unfold fewerHoursLeft. lra. Qed.

Lemma sortBy_byRemaining l :
  StronglySorted fewerHoursLeft (Builtins.sortBy byRemaining l).
Proof.
  apply Sorted_StronglySorted; [exact fewerHoursLeft_trans|].
  apply (sortBy_Sorted byRemaining fewerHoursLeft byRemaining_le byRemaining_gt).
Qed.

End TrackerGroups.

(** X18.  Each group of [getGroupedTickets] holds exactly the tickets of
    its urgency level, ordered so that no ticket has more hours left than
    a later one; the three groups together hold every ticket once.  The
    counts of [getStats] are the sizes of these groups and add up to its
    total, and the average is 0 when there is no ticket. *)
Theorem getGroupedTickets_sorted (tickets : list Processed.t) :
  let g := TicketTrackerMore.getGroupedTickets tickets in
  let s := TicketTrackerMore.getStats tickets in
  StronglySorted fewerHoursLeft (Grouped.overdue g) ∧
  StronglySorted fewerHoursLeft (Grouped.dueSoon g) ∧
  StronglySorted fewerHoursLeft (Grouped.onTrack g) ∧
  Grouped.overdue g
    ≡ₚ filter (λ t, Processed.urgencyLevel t = OVERDUE) tickets ∧
  Grouped.dueSoon g
    ≡ₚ filter (λ t, Processed.urgencyLevel t = DUE_SOON) tickets ∧
  Grouped.onTrack g
    ≡ₚ filter (λ t, Processed.urgencyLevel t = ON_TRACK) tickets ∧
  Grouped.overdue g ++ Grouped.dueSoon g ++ Grouped.onTrack g ≡ₚ tickets ∧
  TicketTrackerMore.Stats.overdue s = length (Grouped.overdue g) ∧
  TicketTrackerMore.Stats.dueSoon s = length (Grouped.dueSoon g) ∧
  TicketTrackerMore.Stats.onTrack s = length (Grouped.onTrack g) ∧
  TicketTrackerMore.Stats.total s
  = (TicketTrackerMore.Stats.overdue s + TicketTrackerMore.Stats.dueSoon s
     + TicketTrackerMore.Stats.onTrack s)%nat ∧
  (tickets = [] → TicketTrackerMore.Stats.avgElapsedHours s = 0%Q).
Proof.
  cbn.
  do 3 (split; [apply sortBy_byRemaining|]).
  do 3 (split; [apply sortBy_Permutation|]).
  split.
  { rewrite !sortBy_Permutation.
    apply (groups_Permutation (H := Processed_urgency)). }
  do 3 (split; [by rewrite sortBy_Permutation|]).
  split; [apply (urgency_partition Processed.urgencyLevel)|].
  by intros ->.
Qed.

(** No ticket at all. *)
Lemma getGroupedTickets_sorted_witness :
  TicketTrackerMore.Stats.avgElapsedHours (TicketTrackerMore.getStats []) = 0%Q.
Proof.
  destruct (getGroupedTickets_sorted [])
    as (_ & _ & _ & _ & _ & _ & _ & _ & _ & _ & _ & H).
  by apply H.
Defined.

Section TrackerFetch.
Variable UTC : Z → Z.
Import TicketTrackerMore.

Lemma processTicket_Some now ticket :
  is_Some (processTicket UTC now ticket) ↔ stringDated ticket.
Proof.
  unfold processTicket, stringDated. split.
  - intros [p Hp].
    destruct (RawTicket.date ticket) as [|[o|s|n|]]; try discriminate Hp.
    by exists s.
  - intros [s ->]. eauto.
Qed.

Lemma mapM_processTicket_Some now raw :
  Forall stringDated raw →
  ∃ processed, mapM (processTicket UTC now) raw = Some processed ∧
               Forall2 (λ t p, processTicket UTC now t = Some p) raw processed.
Proof.
  intros Hall.
  assert (His : is_Some (mapM (processTicket UTC now) raw)).
  { apply mapM_is_Some. eapply Forall_impl; [exact Hall|].
    intros t Ht. by apply processTicket_Some. }
  destruct His as [processed Hp]. exists processed. split; [exact Hp|].
  by apply mapM_Some.
Qed.

Lemma mapM_processTicket_None now raw :
  Exists (λ t, ¬ stringDated t) raw → mapM (processTicket UTC now) raw = None.
Proof.
  intros Hex. destruct (mapM (processTicket UTC now) raw) as [p|] eqn:Hp; [|done].
  exfalso. assert (His : is_Some (mapM (processTicket UTC now) raw)) by eauto.
  apply mapM_is_Some in His. apply Exists_exists in Hex as (t & Hin & Hno).
  rewrite Forall_forall in His. apply Hno.
  apply (processTicket_Some now t). exact (His t Hin).
Qed.

End TrackerFetch.

(** X19.  [fetchTickets] on a Success body with a ticket list is all or
    nothing.  If the [date] of every ticket is a string, each ticket is
    processed, in order, and the list becomes [this.tickets], the stored
    [trackedTickets] and the value returned, with the clock reading as
    the fetch time in both places.  If the [date] of one ticket is not a
    string, the exception of [processTicket] ends the call: nothing
    changes and the empty array is returned.  A body without a ticket list
    empties [this.tickets] but leaves the stored list as it was. *)
Theorem fetchTickets_all_or_nothing (UTC : Z → Z) (now : Z)
    (raw : list RawTicket.t) (status : string) (s : TicketTrackerMore.state) :
  let success := {| RawListData.status := "Success";
                    RawListData.tickets := Some raw |} in
  (Forall stringDated raw →
     ∃ processed,
       Forall2 (λ t p, TicketTrackerMore.processTicket UTC now t = Some p)
         raw processed ∧
       TicketTrackerMore.fetchTickets UTC now (Response true success) s
       = ({| TicketTrackerMore.tickets := processed;
             TicketTrackerMore.lastFetch := now;
             TicketTrackerMore.store :=
               {| LocalStore.trackedTickets := Some processed;
                  LocalStore.lastTicketFetch := Some now;
                  LocalStore.notifiedTickets :=
                    LocalStore.notifiedTickets (TicketTrackerMore.store s) |} |},
          processed)) ∧
  (Exists (λ t, ¬ stringDated t) raw →
     TicketTrackerMore.fetchTickets UTC now (Response true success) s = (s, [])) ∧
  TicketTrackerMore.fetchTickets UTC now
    (Response true {| RawListData.status := status;
                      RawListData.tickets := None |}) s
  = ({| TicketTrackerMore.tickets := [];
        TicketTrackerMore.lastFetch := TicketTrackerMore.lastFetch s;
        TicketTrackerMore.store := TicketTrackerMore.store s |}, []).
Proof.
  intros success. split; [|split].
  - intros Hall.
    destruct (mapM_processTicket_Some UTC now raw Hall) as (processed & Hp & H2).
    exists processed. split; [exact H2|].
    unfold TicketTrackerMore.fetchTickets. cbn. by rewrite Hp.
  - intros Hex. unfold TicketTrackerMore.fetchTickets. cbn.
    by rewrite (mapM_processTicket_None UTC now raw Hex).
  - unfold TicketTrackerMore.fetchTickets. cbn.
    by destruct (String.eqb status "Success").
Qed.

(** One ticket with a date string; and the same ticket followed by one
    whose date is a legacy object. *)
Lemma fetchTickets_all_or_nothing_witness :
  length (TicketTrackerMore.fetchTickets IST 1770900000000
            (Response true
               {| RawListData.status := "Success";
                  RawListData.tickets :=
                    Some [rawTicket "T1" "COD pendency"
                            (Present (Background.DString "2026-02-12 05:39:32"))] |})
            freshTracker).2 = 1%nat ∧
  TicketTrackerMore.fetchTickets IST 1770900000000
    (Response true
       {| RawListData.status := "Success";
          RawListData.tickets :=
            Some [rawTicket "T1" "COD pendency"
                    (Present (Background.DString "2026-02-12 05:39:32"));
                  rawTicket "T2" "Payment not received"
                    (Present (Background.DObject legacyExample))] |})
    freshTracker = (freshTracker, []).
Proof.
  split.
  - destruct (fetchTickets_all_or_nothing IST 1770900000000
                [rawTicket "T1" "COD pendency"
                   (Present (Background.DString "2026-02-12 05:39:32"))]
                "" freshTracker) as (H & _ & _).
    destruct H as (processed & H2 & ->).
    { repeat constructor. by eexists. }
    cbn [snd]. by rewrite <- (Forall2_length _ _ _ H2).
  - destruct (fetchTickets_all_or_nothing IST 1770900000000
                [rawTicket "T1" "COD pendency"
                   (Present (Background.DString "2026-02-12 05:39:32"));
                 rawTicket "T2" "Payment not received"
                   (Present (Background.DObject legacyExample))]
                "" freshTracker) as (_ & H & _).
    apply H. apply Exists_cons_tl, Exists_cons_hd.
    intros [s Hs]. discriminate Hs.
Defined.

(** ** The three copies of the classifier *)

Lemma tracker_worker_agree (subject : string) :
  Classifier.hasAny (JS.toLowerCase subject) trackerOnlyKeywords = false →
  TicketTracker.matchSOPCategory subject = Worker.matchSOPCategory subject.
Proof.
  unfold Worker.matchSOPCategory, TicketTracker.matchSOPCategory. cbv zeta.
  set (lower := JS.toLowerCase subject).
  destruct (String.eqb subject ""); [done|].
  unfold Classifier.hasAny, trackerOnlyKeywords. cbn [existsb].
  intros H. repeat (apply orb_false_elim in H as [? H]).
  repeat match goal with Hk : JS.includes lower _ = false |- _ =>
    rewrite Hk; clear Hk end.
  cbn [andb]. by rewrite !orb_false_r.
Qed.

(** X20.  The classifier of the service worker and that of the history
    tracker return the same category for every subject that does not
    contain "tool" in any letter case; where they differ, the worker
    says Tech Issues (24 hours) and the history tracker General (48
    hours).  The classifier of ticket-tracker.js agrees with the worker's
    on every subject without the keywords that only it knows. *)
Theorem matchSOPCategory_copies (subject : string) :
  let lower := JS.toLowerCase subject in
  (JS.includes lower "tool" = false →
     Worker.matchSOPCategory subject
     = TATTrackerBackground.matchSOPCategory subject) ∧
  (Worker.matchSOPCategory subject
     ≠ TATTrackerBackground.matchSOPCategory subject →
     Worker.matchSOPCategory subject = TechIssues24 ∧
     TATTrackerBackground.matchSOPCategory subject = General48) ∧
  (Classifier.hasAny lower trackerOnlyKeywords = false →
     TicketTracker.matchSOPCategory subject
     = Worker.matchSOPCategory subject).
Proof.
  intros lower.
  split; [|split]; [| |apply tracker_worker_agree];
    unfold Worker.matchSOPCategory, TATTrackerBackground.matchSOPCategory;
    fold lower; cbv zeta;
    (destruct (String.eqb subject ""); [done|]).
  - intros ->. by rewrite orb_false_r.
  - destruct (_ || _ || _ || _); [done|].
    destruct (_ || _ || _ || _); [done|].
    destruct (_ || _ || _); [done|].
    destruct (_ || _ || _); [done|].
    destruct (JS.includes lower "cms" || JS.includes lower "log10"
              || JS.includes lower "system"); [done|].
    cbn [orb]. destruct (JS.includes lower "tool"); done.
Qed.

Lemma matchSOPCategory_copies_witness :
  Worker.matchSOPCategory "COD deposit pending"
    = TATTrackerBackground.matchSOPCategory "COD deposit pending" ∧
  Worker.matchSOPCategory "Tool not opening" = TechIssues24 ∧
  TicketTracker.matchSOPCategory "Payout not received"
    = Worker.matchSOPCategory "Payout not received".
Proof.
  split; [|split].
  - destruct (matchSOPCategory_copies "COD deposit pending") as (H & _).
    apply H. reflexivity.
  - destruct (matchSOPCategory_copies "Tool not opening") as (_ & H & _).
    apply H. vm_compute. intros C. discriminate C.
  - destruct (matchSOPCategory_copies "Payout not received") as (_ & _ & H).
    apply H. reflexivity.
Defined.

(** X21.  On a ticket whose [date] is a string that is not empty and
    whose subject has none of the keywords that only ticket-tracker.js
    knows, [processTicket] of ticket-tracker.js and
    [processTicketBackground] of the service worker build the same object.
    Where [date] is no string the first throws and the second still
    returns an object. *)
Theorem processTicket_agrees_with_worker (UTC LocalTime : Z → Z) (now : Z)
    (ticket : RawTicket.t) :
  (∀ s, RawTicket.date ticket = Present (Background.DString s) → s ≠ "" →
     Classifier.hasAny (JS.toLowerCase (RawTicket.taskTitle ticket))
       trackerOnlyKeywords = false →
     TicketTrackerMore.processTicket UTC now ticket
     = Some (Worker.processTicketBackground UTC LocalTime now ticket)) ∧
  (¬ stringDated ticket → TicketTrackerMore.processTicket UTC now ticket = None).
Proof.
  split.
  - intros s Hd Hs Hk.
    unfold TicketTrackerMore.processTicket, Worker.processTicketBackground.
    rewrite Hd. cbv zeta.
    rewrite (tracker_worker_agree _ Hk).
    assert (Ht : Worker.fieldTruthy (Present (Background.DString s)) = true).
    { cbn. destruct (String.eqb_spec s ""); [done|reflexivity]. }
    assert (Hor : ∀ b, Worker.orElse (Present (Background.DString s)) b
                       = Present (Background.DString s)).
    { intros b. unfold Worker.orElse. by rewrite Ht. }
    rewrite !Hor.
    unfold Worker.formatDateForDisplay. rewrite Ht. reflexivity.
  - intros Hno.
    destruct (TicketTrackerMore.processTicket UTC now ticket) eqn:Hp; [|done].
    exfalso. apply Hno. apply (processTicket_Some UTC now ticket). eauto.
Qed.

Lemma processTicket_agrees_with_worker_witness :
  TicketTrackerMore.processTicket IST 1770900000000
    (rawTicket "T1" "COD deposit"
       (Present (Background.DString "2026-02-12 05:39:32")))
  = Some (Worker.processTicketBackground IST IST 1770900000000
            (rawTicket "T1" "COD deposit"
               (Present (Background.DString "2026-02-12 05:39:32")))) ∧
  TicketTrackerMore.processTicket IST 1770900000000
    (rawTicket "T2" "COD deposit" (Present (Background.DNumber 1770880000)))
  = None.
Proof.
  split.
  - eapply (processTicket_agrees_with_worker IST IST 1770900000000);
      [reflexivity| |reflexivity].
    intros C. discriminate C.
  - apply (processTicket_agrees_with_worker IST IST 1770900000000).
    intros [s Hs]. discriminate Hs.
Defined.

(** ** The service worker: dates for display *)

Lemma lit_append c rest : JS.lit c (String c "" +:+ rest) = Some rest.
Proof.
  rewrite append_cons. cbn [JS.lit]. by rewrite Ascii.eqb_refl.
Qed.

Lemma digits_append text : ∀ acc v rest,
  FixedWidth.decimal acc text = Some v →
  JS.digits (String.length text) acc (text +:+ rest) = Some (v, rest).
Proof.
  induction text as [|c text IH]; intros acc v rest Hd.
  - cbn in *. by injection Hd as ->.
  - cbn [FixedWidth.decimal] in Hd. rewrite append_cons.
    cbn [String.length JS.digits].
    destruct (JS.isDigit c); [|done]. by apply IH.
Qed.

Lemma digits_writes w text n rest :
  writes w text n = true → JS.digits w 0 (text +:+ rest) = Some (n, rest).
Proof.
  unfold writes. intros H. apply andb_true_iff in H as [Hw Hv].
  apply Nat.eqb_eq in Hw. subst w.
  destruct (FixedWidth.decimal 0 text) as [v|] eqn:Hd; [|done].
  apply Z.eqb_eq in Hv. subst v. by apply digits_append.
Qed.

Lemma yearText_1000_9999 : forallb yearText (seqZ 1000 9000) = true.
Proof. vm_compute. reflexivity. Qed.

Lemma paddedText_0_99 : forallb paddedText (seqZ 0 100) = true.
Proof. vm_compute. reflexivity. Qed.

Lemma digits_year n rest :
  1000 ≤ n ≤ 9999 →
  JS.digits 4 0 (Builtins.toString n +:+ rest) = Some (n, rest).
Proof.
  intros Hn. apply digits_writes.
  apply (forallb_seqZ yearText 1000 9000 n yearText_1000_9999). lia.
Qed.

Lemma digits_padded n rest :
  0 ≤ n ≤ 99 →
  JS.digits 2 0 (Builtins.padStart2 (Builtins.toString n) +:+ rest)
  = Some (n, rest).
Proof.
  intros Hn. apply digits_writes.
  apply (forallb_seqZ paddedText 0 100 n paddedText_0_99). lia.
Qed.

Lemma search_head {A} (at_ : string → option A) s r :
  at_ s = Some r → JS.search at_ s = Some r.
Proof. intros H. destruct s; cbn [JS.search]; by rewrite H. Qed.

Lemma matchKaptureDate_dateText y m d h mi s :
  1000 ≤ y ≤ 9999 → 0 ≤ m ≤ 99 → 0 ≤ d ≤ 99 → 0 ≤ h ≤ 99 →
  0 ≤ mi ≤ 99 → 0 ≤ s ≤ 99 →
  matchKaptureDate
    (Worker.dateText (Builtins.toString y)
       (Builtins.padStart2 (Builtins.toString m))
       (Builtins.padStart2 (Builtins.toString d))
       (Builtins.padStart2 (Builtins.toString h))
       (Builtins.padStart2 (Builtins.toString mi))
       (Builtins.padStart2 (Builtins.toString s)))
  = Some (y, m, d, h, mi, s).
Proof.
  intros Hy Hm Hd Hh Hmi Hs. apply search_head.
  unfold kaptureDateAt, Worker.dateText.
  rewrite (digits_year y _ Hy). cbn [mbind option_bind].
  rewrite lit_append. cbn [mbind option_bind].
  rewrite (digits_padded m _ Hm). cbn [mbind option_bind].
  rewrite lit_append. cbn [mbind option_bind].
  rewrite (digits_padded d _ Hd). cbn [mbind option_bind].
  rewrite lit_append. cbn [mbind option_bind].
  rewrite (digits_padded h _ Hh). cbn [mbind option_bind].
  rewrite lit_append. cbn [mbind option_bind].
  rewrite (digits_padded mi _ Hmi). cbn [mbind option_bind].
  rewrite lit_append. cbn [mbind option_bind].
  rewrite <- (append_empty (Builtins.padStart2 (Builtins.toString s))).
  rewrite (digits_padded s _ Hs). reflexivity.
Qed.

(** X22.  The text that [formatDateForDisplay] builds from a legacy date
    object reads back to the instant that [parseKaptureDate] gives the
    object itself, provided the year is written with four digits and the
    other fields with at most two.  So for such a ticket [createdDateStr]
    and [createdDate] of [processTicketBackground] name the same
    instant. *)
Theorem formatDateForDisplay_parses_back (UTC LocalTime : Z → Z) (now : Z)
    (o : Background.dateObject) (y m d : Z) :
  Background.year o = Some y → Background.month o = Some m →
  Background.date o = Some d →
  1000 ≤ y + 1900 ≤ 9999 → 0 ≤ m ≤ 98 → 0 ≤ d ≤ 99 →
  0 ≤ Background.orZero (Background.hours o) ≤ 99 →
  0 ≤ Background.orZero (Background.minutes o) ≤ 99 →
  0 ≤ Background.orZero (Background.seconds o) ≤ 99 →
  Background.parseKaptureDate UTC now
    (Background.DString
       (Worker.formatDateForDisplay LocalTime (Present (Background.DObject o))))
  = Background.parseKaptureDate UTC now (Background.DObject o).
Proof.
  intros Hy Hm Hd Hyr Hmr Hdr Hh Hmi Hs.
  unfold Worker.formatDateForDisplay, Background.parseKaptureDate.
  cbn [Worker.fieldTruthy Worker.truthy negb Worker.fieldValue].
  rewrite Hy, Hm, Hd. cbn [fmap option_fmap option_map Worker.showOr].
  rewrite matchKaptureDate_dateText by lia.
  by rewrite Z.add_simpl_r.
Qed.

(** The legacy object of the component design's example. *)
Lemma formatDateForDisplay_parses_back_witness :
  Background.parseKaptureDate IST 0
    (Background.DString
       (Worker.formatDateForDisplay IST (Present (Background.DObject legacyExample))))
  = Background.parseKaptureDate IST 0 (Background.DObject legacyExample).
Proof.
  apply (formatDateForDisplay_parses_back IST IST 0 legacyExample 126 1 2);
    first [reflexivity | vm_compute; split; discriminate].
Defined.

(** ** The service worker: urgent tickets and the fetch *)

Section WorkerFacts.
Import Worker.

Lemma notify_prefix urgent : ∀ l, l `prefix_of` notify urgent l.
Proof.
  induction urgent as [|t urgent IH]; intros l; cbn [notify]; [done|].
  case_bool_decide; [apply IH|].
  etrans; [|apply IH]. by apply prefix_app_r.
Qed.

Lemma notify_elem urgent : ∀ l i,
  i ∈ notify urgent l ↔ i ∈ l ∨ ∃ t, t ∈ urgent ∧ Processed.ticketId t = i.
Proof.
  induction urgent as [|t urgent IH]; intros l i; cbn [notify].
  - split; [by left|]. intros [H|(t & Ht & _)]; [done|]. by apply elem_of_nil in Ht.
  - case_bool_decide as Hin; rewrite IH.
    + split.
      * intros [H|(u & Hu & Hi)]; [by left|]. right. exists u. split; [by right|done].
      * intros [H|(u & Hu & Hi)]; [by left|].
        apply elem_of_cons in Hu as [->|Hu]; [left; by subst|].
        right. by exists u.
    + rewrite elem_of_app, list_elem_of_singleton. split.
      * intros [[H| ->]|(u & Hu & Hi)]; [by left| |].
        -- right. exists t. split; [by left|done].
        -- right. exists u. split; [by right|done].
      * intros [H|(u & Hu & Hi)]; [by left; left|].
        apply elem_of_cons in Hu as [->|Hu]; [left; right; by subst|].
        right. by exists u.
Qed.

Lemma notify_NoDup urgent : ∀ l, NoDup l → NoDup (notify urgent l).
Proof.
  induction urgent as [|t urgent IH]; intros l Hl; cbn [notify]; [done|].
  case_bool_decide as Hin; apply IH; [done|].
  apply NoDup_app. split; [done|]. split; [|apply NoDup_singleton].
  intros x Hx Hx'. apply list_elem_of_singleton in Hx'. by subst.
Qed.

Lemma notify_fixed urgent : ∀ l,
  (∀ t, t ∈ urgent → Processed.ticketId t ∈ l) → notify urgent l = l.
Proof.
  induction urgent as [|t urgent IH]; intros l Hl; cbn [notify]; [done|].
  rewrite bool_decide_true by (apply Hl; by left).
  apply IH. intros u Hu. apply Hl. by right.
Qed.


End WorkerFacts.

(** X23.  [checkUrgentTickets] only ever adds to the stored list of
    notified ticket ids: the old list is a prefix of the new one, the new
    one holds the id of every urgent ticket (overdue by more than an
    hour), and nothing else is added; a list without repetitions stays
    without repetitions.  The other keys are not touched, a second run on
    the same tickets changes nothing, and without an urgent ticket nothing
    is written. *)
Theorem checkUrgentTickets_notified (tickets : list Processed.t)
    (st : LocalStore.t) :
  let old := default [] (LocalStore.notifiedTickets st) in
  let st' := Worker.checkUrgentTickets tickets st in
  let new := default [] (LocalStore.notifiedTickets st') in
  old `prefix_of` new ∧
  (∀ t, t ∈ tickets → Worker.isUrgent t → Processed.ticketId t ∈ new) ∧
  (∀ i, i ∈ new →
     i ∈ old ∨ ∃ t, t ∈ tickets ∧ Worker.isUrgent t ∧ Processed.ticketId t = i) ∧
  (NoDup old → NoDup new) ∧
  LocalStore.trackedTickets st' = LocalStore.trackedTickets st ∧
  LocalStore.lastTicketFetch st' = LocalStore.lastTicketFetch st ∧
  Worker.checkUrgentTickets tickets st' = st' ∧
  ((∀ t, t ∈ tickets → ¬ Worker.isUrgent t) → st' = st).
Proof.
  intros old st' new. subst old st' new. unfold Worker.checkUrgentTickets.
  set (urgent := filter Worker.isUrgent tickets).
  assert (Hu : ∀ t, t ∈ urgent ↔ t ∈ tickets ∧ Worker.isUrgent t).
  { intros t. subst urgent. rewrite list_elem_of_filter. tauto. }
  case_bool_decide as Hlen.
  - (* no urgent ticket *)
    apply length_zero_iff_nil in Hlen.
    split; [done|].
    split. { intros t Ht Hurg. assert (Hin : t ∈ urgent) by (by apply Hu).
             rewrite Hlen in Hin. by apply elem_of_nil in Hin. }
    split; [by left|]. by repeat split.
  - cbn [LocalStore.notifiedTickets LocalStore.trackedTickets
         LocalStore.lastTicketFetch default].
    set (old := default [] (LocalStore.notifiedTickets st)).
    split; [apply notify_prefix|].
    split. { intros t Ht Hurg. apply notify_elem. right. exists t.
             split; [by apply Hu|done]. }
    split. { intros i Hi. apply notify_elem in Hi as [Hi|(t & Ht & Hid)];
               [by left|]. right. exists t. apply Hu in Ht as [? ?]. done. }
    split; [apply notify_NoDup|].
    split; [done|]. split; [done|].
    split.
    + cbn [LocalStore.notifiedTickets LocalStore.trackedTickets
           LocalStore.lastTicketFetch default].
      f_equal. f_equal. apply notify_fixed.
      intros t Ht. apply notify_elem. right. by exists t.
    + intros Hnone. exfalso. apply Hlen.
      destruct urgent as [|t r] eqn:Hur; [done|].
      assert (Hin : t ∈ t :: r) by (by left).
      apply Hu in Hin as [Hin Hurg]. by destruct (Hnone t Hin).
Qed.

(** A stale ticket that was not notified before. *)
Lemma checkUrgentTickets_notified_witness :
  "T1" ∈ default []
           (LocalStore.notifiedTickets
              (Worker.checkUrgentTickets [recentTicket; staleTicket]
                 (Worker.store freshWorker))) ∧
  Worker.checkUrgentTickets [recentTicket] (Worker.store freshWorker)
  = Worker.store freshWorker.
Proof.
  split.
  - destruct (checkUrgentTickets_notified [recentTicket; staleTicket]
                (Worker.store freshWorker)) as (_ & H & _).
    apply (H staleTicket); [by right; left|].
    split; vm_compute; reflexivity.
  - destruct (checkUrgentTickets_notified [recentTicket]
                (Worker.store freshWorker)) as (_ & _ & _ & _ & _ & _ & _ & H).
    apply H. intros t Ht [Hover _].
    apply list_elem_of_singleton in Ht. subst t.
    vm_compute in Hover. discriminate Hover.
Defined.



(** X25.  A ticket that has none of the four date fields is taken by the
    service worker as created at the moment it is processed: no time has
    elapsed, the whole turnaround time of its category is left, it is on
    track, and the date shown is empty.  This holds again at every later
    fetch, so such a ticket never becomes due. *)
Theorem undated_ticket_on_track (UTC LocalTime : Z → Z) (now : Z)
    (ticket : RawTicket.t) :
  undated ticket →
  let p := Worker.processTicketBackground UTC LocalTime now ticket in
  Processed.createdDate p = now ∧
  Processed.createdDateStr p = "" ∧
  Processed.elapsedHours p == 0 ∧
  Processed.remainingHours p == Processed.tatHours p ∧
  Processed.urgencyLevel p = ON_TRACK ∧
  ¬ Worker.isUrgent p.
Proof.
  intros (Hd & Hc & Hcd & Hca) p. subst p.
  unfold Worker.processTicketBackground. rewrite Hd, Hc, Hcd, Hca.
  cbn [Worker.orElse Worker.fieldTruthy Worker.fieldValue
       Background.parseKaptureDate Processed.createdDate
       Processed.createdDateStr Processed.elapsedHours
       Processed.remainingHours Processed.tatHours Processed.urgencyLevel].
  rewrite Z.sub_diag.
  split; [reflexivity|]. split; [reflexivity|]. split; [reflexivity|].
  assert (Hcat : In (Worker.matchSOPCategory (RawTicket.taskTitle ticket))
                   Classifier.categories).
  { unfold Worker.matchSOPCategory, Classifier.categories.
    repeat match goal with
           | |- context [if ?b then _ else _] => destruct b
           end; cbn; tauto. }
  assert (Hall : ∀ c, In c Classifier.categories →
            JS.round1
              (JS.sub (SopMatch.tat c) (inject_Z 0 / inject_Z (1000 * 60 * 60)))
              == SopMatch.tat c ∧
            Urgency.status
              (Background.calculateUrgency (SopMatch.tat c)
                 (inject_Z 0 / inject_Z (1000 * 60 * 60))) = ON_TRACK).
  { intros c Hc'. cbn in Hc'.
    repeat (destruct Hc' as [<-|Hc']; [split; vm_compute; reflexivity|]).
    destruct Hc'. }
  destruct (Hall _ Hcat) as [Hrem Hon].
  split; [exact Hrem|]. split; [exact Hon|].
  intros [Hover _]. cbn [Processed.urgencyLevel] in Hover. congruence.
Qed.

Lemma undated_ticket_on_track_witness :
  Processed.urgencyLevel
    (Worker.processTicketBackground IST IST 1771150000000
       (rawTicket "T3" "Payment not received" Absent)) = ON_TRACK.
Proof.
  apply (undated_ticket_on_track IST IST 1771150000000
           (rawTicket "T3" "Payment not received" Absent)).
  by repeat split.
Defined.

(** ** The log of opened tickets *)

(** X26.  [logTicketOpened] appends one entry to the stored log and then
    drops the oldest entry if the log has more than 1000: the new entry is
    always the last one, a log of fewer than 1000 entries only grows by
    it, a log of 1000 or more loses exactly its oldest entry, and a log
    that held at most 1000 entries still does.  Where the time value is no
    valid date nothing is written. *)
Theorem logTicketOpened_capped (toISOString : Z → option string)
    (url : string) (timestamp : Z) (stored : option (list OpenLog.entry)) :
  let old := default [] stored in
  let new := default []
               (OpenLog.logTicketOpened toISOString url timestamp stored) in
  (∀ date, toISOString timestamp = Some date →
     let e := {| OpenLog.url := url; OpenLog.timestamp := timestamp;
                 OpenLog.date := date |} in
     last new = Some e ∧
     ((length old < 1000)%nat → new = old ++ [e]) ∧
     ((1000 ≤ length old)%nat →
        new = drop 1 old ++ [e] ∧ length new = length old) ∧
     ((length old ≤ 1000)%nat → (length new ≤ 1000)%nat)) ∧
  (toISOString timestamp = None →
     OpenLog.logTicketOpened toISOString url timestamp stored = stored).
Proof.
  intros old new. subst new. unfold OpenLog.logTicketOpened. split.
  - intros date ->. cbv zeta. fold old. cbn [default]. unfold id.
    set (e := {| OpenLog.url := url; OpenLog.timestamp := timestamp;
                 OpenLog.date := date |}).
    rewrite length_app. cbn [length].
    case_bool_decide as Hlen.
    + assert (Hd : drop 1 (old ++ [e]) = drop 1 old ++ [e]).
      { destruct old; [cbn in Hlen; lia | reflexivity]. }
      rewrite Hd. split; [apply last_snoc|].
      split; [lia|]. split.
      * intros _. split; [reflexivity|].
        rewrite length_app, length_drop. cbn [length]. lia.
      * intros Hle. rewrite length_app, length_drop. cbn [length]. lia.
    + split; [apply last_snoc|]. split; [done|].
      split; [lia|]. intros _. rewrite length_app. cbn [length]. lia.
  - intros ->. reflexivity.
Qed.

(** The first entry of a log that does not exist yet. *)
Lemma logTicketOpened_capped_witness :
  OpenLog.logTicketOpened (λ _, Some "2026-02-12T00:09:32.000Z")
    "https://valmostagging.kapturecrm.com/nui/tickets/1" 1770854972000 None
  = Some [{| OpenLog.url := "https://valmostagging.kapturecrm.com/nui/tickets/1";
             OpenLog.timestamp := 1770854972000;
             OpenLog.date := "2026-02-12T00:09:32.000Z" |}].
Proof.
  destruct (logTicketOpened_capped (λ _, Some "2026-02-12T00:09:32.000Z")
              "https://valmostagging.kapturecrm.com/nui/tickets/1"
              1770854972000 None) as (H & _).
  destruct (H "2026-02-12T00:09:32.000Z" eq_refl) as (_ & Hnew & _).
  cbn [default length] in Hnew. specialize (Hnew ltac:(lia)).
  exact (f_equal Some Hnew).
Defined.

(** ** Start and stop of the creation-date tracker *)

(** X27.  [startTracking] on a tracker that is not tracking fetches once
    and sets a timer that was not running before; afterwards the tracker
    is tracking, another [startTracking] changes nothing, and
    [stopTracking] clears exactly that timer.  [stopTracking] on a tracker
    that is not tracking changes nothing. *)
Theorem startTracking_stopTracking (UTC : Z → Z) (now now' : Z)
    (response response' : fetched RawListData.t)
    (t : Scheduler.tracker) (tm : Scheduler.timers)
    (st : TicketTrackerMore.state) :
  Scheduler.isTracking t = false → timersOk tm →
  ∃ t1 tm1 id,
    TrackerSchedule.startTracking UTC now response (t, tm, st)
    = (t1, tm1, (TicketTrackerMore.fetchTickets UTC now response st).1) ∧
    Scheduler.isTracking t1 = true ∧
    Scheduler.intervalId t1 = Some id ∧
    id ∈ Scheduler.running tm1 ∧ id ∉ Scheduler.running tm ∧
    timersOk tm1 ∧
    TrackerSchedule.startTracking UTC now' response'
      (t1, tm1, (TicketTrackerMore.fetchTickets UTC now response st).1)
    = (t1, tm1, (TicketTrackerMore.fetchTickets UTC now response st).1) ∧
    Scheduler.isTracking (TrackerSchedule.stopTracking t1 tm1).1 = false ∧
    Scheduler.running (TrackerSchedule.stopTracking t1 tm1).2
    = Scheduler.running tm ∧
    TrackerSchedule.stopTracking t tm = (t, tm).
Proof.
  intros Ht Hok. unfold TrackerSchedule.startTracking. rewrite Ht.
  eexists _, _, (Scheduler.nextId tm).
  cbn [Scheduler.setInterval Scheduler.isTracking Scheduler.intervalId].
  split; [reflexivity|]. split; [reflexivity|]. split; [reflexivity|].
  cbn [Scheduler.running].
  split; [set_solver|]. split; [by apply timersOk_fresh|].
  split; [apply (timersOk_setInterval tm Hok)|].
  split; [reflexivity|]. split; [reflexivity|].
  split.
  - unfold TrackerSchedule.stopTracking.
    cbn [Scheduler.isTracking negb Scheduler.intervalId snd
         Scheduler.clearInterval Scheduler.running].
    pose proof (timersOk_fresh tm Hok). set_solver.
  - unfold TrackerSchedule.stopTracking. by rewrite Ht.
Qed.

Lemma startTracking_stopTracking_witness :
  Scheduler.running
    (TrackerSchedule.stopTracking
       (TrackerSchedule.startTracking IST 0 (FetchError false)
          (Scheduler.new, noTimers, freshTracker)).1.1
       (TrackerSchedule.startTracking IST 0 (FetchError false)
          (Scheduler.new, noTimers, freshTracker)).1.2).2 = ∅.
Proof.
  assert (Hok : timersOk noTimers) by (intros id Hin; set_solver).
  destruct (startTracking_stopTracking IST 0 0 (FetchError false)
              (FetchError false) Scheduler.new noTimers freshTracker
              eq_refl Hok)
    as (t1 & tm1 & id & Hs & _ & _ & _ & _ & _ & _ & _ & Hrun & _).
  rewrite Hs. cbn [fst snd]. exact Hrun.
Defined.
